(** * terraform-provider-ibm: order-completion pollers, qualified names,
      and the JSON diff suppression

    Shallow embedding of
    - [findDedicatedFirewallByOrderId] (resource_ibm_firewall.go),
    - [findVlanByOrderId] and [resourceIBMNetworkVlanCreate]
      (resource_ibm_network_vlan.go),
    - [suppressEquivalentJSON] (diff_supress_funcs.go),
    together with the two collaborators the repository does not define
    in the files at hand: the state-change wait of the host framework
    and the qualified-name resolver. *)

From Stdlib Require Import ZArith String Ascii List Lia Bool DecimalString Qcanon.
From Stdlib Require DecimalPos.
From stdpp Require Import base option list strings gmap.

Local Open Scope Z_scope.
Local Open Scope string_scope.

(** ** Go values used by the handlers *)

Module Go.

(** [time.Duration] counts nanoseconds. *)
Definition Duration := Z.
Definition Nanosecond : Duration := 1.
Definition Microsecond : Duration := 1000 * Nanosecond.
Definition Millisecond : Duration := 1000 * Microsecond.
Definition Second : Duration := 1000 * Millisecond.
Definition Minute : Duration := 60 * Second.

(** Error values. [RemoteError] is whatever the API client hands back,
    [ErrorString] is what [fmt.Errorf] builds, [TimeoutError] is raised
    by the wait loop. *)
Inductive error : Type :=
| RemoteError (msg : string)
| ErrorString (msg : string)
| TimeoutError.

(** [err.Error()] *)
Definition Error (e : error) : string :=
  match e with
  | RemoteError msg => msg
  | ErrorString msg => msg
  | TimeoutError => "timeout while waiting for state"
  end.

(** The [%s] verb of package fmt applied to an [error] operand: a nil
    interface prints as [%!s(<nil>)]. *)
Definition verb_s (operand : option error) : string :=
  match operand with
  | None => "%!s(<nil>)"
  | Some e => Error e
  end.

(** [strconv.Itoa], also the [%d] verb. *)
Definition Itoa (n : Z) : string :=
  DecimalString.NilZero.string_of_int (Z.to_int n).

(** The outcome of running a handler: it returns, it panics, or the
    model ran out of steps. *)
Inductive run (A : Type) : Type :=
| Returned (a : A)
| Panicked (reason : string)
| Unfinished.
Arguments Returned {A} a.
Arguments Panicked {A} reason.
Arguments Unfinished {A}.

Definition nilDereference : string :=
  "runtime error: invalid memory address or nil pointer dereference".

End Go.
Import Go.

(** ** The remote account listing *)

(** [datatypes.Network_Vlan]: every field is a pointer; the handlers read
    [Id] and write [Name]. *)
Record Network_Vlan : Type := {
  Id : option Z;
  Name : option string
}.

(** [datatypes.Network_Vlan{}] *)
Definition zeroVlan : Network_Vlan := {| Id := None; Name := None |}.

(** What one listing call carries: the filter [path == value] and the
    object mask. *)
Record ListRequest : Type := {
  filterPath : string;
  filterValue : string;
  objectMask : string
}.

(** The account service seen from the poller: the answer to the [k]-th
    listing call ([k] counts from 0). *)
Definition Remote := ListRequest -> nat -> list Network_Vlan * option error.

(** The poller threads a clock and the count of listing calls. *)
Record World : Type := {
  now : Duration;
  calls : nat
}.

Definition epoch : World := {| now := 0; calls := 0 |}.

Definition sleep (d : Duration) (w : World) : World :=
  {| now := now w + d; calls := calls w |}.

(** [services.GetAccountService(sess).Filter(..).Mask(..).GetNetworkVlans()] *)
Definition GetNetworkVlans (remote : Remote) (req : ListRequest) (w : World)
  : (list Network_Vlan * option error) * World :=
  (remote req (calls w), {| now := now w; calls := S (calls w) |}).

(** ** helper/resource: StateChangeConf *)

(** What a [Refresh] closure returns: [(interface{}, string, error)]. The
    only dynamic type the closures put in the interface is
    [datatypes.Network_Vlan]. *)
Definition RefreshResult : Type := option Network_Vlan * string * option error.

Record StateChangeConf : Type := {
  Pending : list string;
  Target : list string;
  Refresh : World -> RefreshResult * World;
  Timeout : Duration;
  Delay : Duration;
  MinTimeout : Duration
}.

Definition inStates (s : string) (states : list string) : bool :=
  existsb (String.eqb s) states.

(** Modelled from the spec: [WaitForState] of the host framework is not
    among the sources. Section 4.1 gives the loop: on each tick call
    [Refresh]; an error is propagated at once; a target state ends the
    wait with the refreshed value; otherwise the state is pending, the
    loop sleeps and tries again unless the timeout has elapsed, in which
    case it ends with a timeout error. The spec bounds the slept interval
    below by [MinTimeout] and gives no law for its growth; the loop sleeps
    [MinTimeout]. The timeout has elapsed once the clock has reached the
    deadline. [fuel] bounds the number of ticks; without fuel left the
    answer is [None]. The pauses the library itself takes, and its count
    of nil results, are in [Library.waitLoop] further down. *)
Fixpoint waitLoop (fuel : nat) (conf : StateChangeConf) (deadline : Duration)
    (w : World) : option ((option Network_Vlan * option error) * World) :=
  match fuel with
  | O => None
  | S fuel' =>
      let '((result, state, err), w1) := Refresh conf w in
      match err with
      | Some e => Some ((result, Some e), w1)
      | None =>
          if inStates state (Target conf) then Some ((result, None), w1)
          else
            let w2 := sleep (MinTimeout conf) w1 in
            if (deadline <=? now w2)%Z then Some ((None, Some TimeoutError), w2)
            else waitLoop fuel' conf deadline w2
      end
  end.

(** Modelled from the spec: the wait itself, which the sources only call.
    The deadline is [Timeout] after the start, and the first tick comes
    after the initial [Delay]. *)
Definition WaitForState (fuel : nat) (conf : StateChangeConf) (w : World)
  : option ((option Network_Vlan * option error) * World) :=
  waitLoop fuel conf (now w + Timeout conf) (sleep (Delay conf) w).

(** ** resource_ibm_firewall.go *)

Definition vlanMask : string :=
  "firewallNetworkComponents,networkVlanFirewall.billingItem.orderItem.order.id,dedicatedFirewallFlag" +:+
  ",firewallGuestNetworkComponents,firewallInterfaces,firewallRules,highAvailabilityFirewallFlag".

(** The [Refresh] closure of [findDedicatedFirewallByOrderId]. *)
Definition firewallRefresh (sessWithRetry : Remote) (orderId : Z) (w : World)
  : RefreshResult * World :=
  let filterPath := "networkVlans.networkVlanFirewall.billingItem.orderItem.order.id" in
  let '((vlans, err), w1) :=
    GetNetworkVlans sessWithRetry
      {| filterPath := filterPath; filterValue := Itoa orderId; objectMask := vlanMask |} w in
  match err with
  | Some _ => ((Some zeroVlan, "", err), w1)
  | None =>
      if (length vlans =? 1)%nat then ((head vlans, "complete", None), w1)
      else if (length vlans =? 0)%nat then ((None, "pending", None), w1)
      else ((None, "", Some (ErrorString ("Expected one dedicated firewall: " +:+ verb_s err))), w1)
  end.

Definition firewallStateConf (sessWithRetry : Remote) (orderId : Z) : StateChangeConf :=
  {| Pending := ["pending"];
     Target := ["complete"];
     Refresh := firewallRefresh sessWithRetry orderId;
     Timeout := 45 * Minute;
     Delay := 10 * Second;
     MinTimeout := 10 * Second |}.

Definition findDedicatedFirewallByOrderId (fuel : nat) (sessWithRetry : Remote)
    (orderId : Z) (w : World) : option ((Network_Vlan * option error) * World) :=
  match WaitForState fuel (firewallStateConf sessWithRetry orderId) w with
  | None => None
  | Some ((pendingResult, err), w') =>
      match err with
      | Some e => Some ((zeroVlan, Some e), w')
      | None =>
          match pendingResult with
          | Some result => Some ((result, None), w')
          | None =>
              Some ((zeroVlan,
                     Some (ErrorString ("Cannot find Dedicated Firewall with order id '" +:+
                                        Itoa orderId +:+ "'"))), w')
          end
      end
  end.

(** ** resource_ibm_network_vlan.go *)

(** The [Refresh] closure of [findVlanByOrderId]. *)
Definition vlanRefresh (sess : Remote) (orderId : Z) (w : World)
  : RefreshResult * World :=
  let '((vlans, err), w1) :=
    GetNetworkVlans sess
      {| filterPath := "networkVlans.billingItem.orderItem.order.id";
         filterValue := Itoa orderId; objectMask := "id" |} w in
  match err with
  | Some _ => ((Some zeroVlan, "", err), w1)
  | None =>
      if (length vlans =? 1)%nat then ((head vlans, "complete", None), w1)
      else if (length vlans =? 0)%nat then ((None, "pending", None), w1)
      else ((None, "", Some (ErrorString ("Expected one vlan: " +:+ verb_s err))), w1)
  end.

Definition vlanStateConf (sess : Remote) (orderId : Z) : StateChangeConf :=
  {| Pending := ["pending"];
     Target := ["complete"];
     Refresh := vlanRefresh sess orderId;
     Timeout := 10 * Minute;
     Delay := 5 * Second;
     MinTimeout := 3 * Second |}.

Definition findVlanByOrderId (fuel : nat) (sess : Remote) (orderId : Z) (w : World)
  : option ((Network_Vlan * option error) * World) :=
  match WaitForState fuel (vlanStateConf sess orderId) w with
  | None => None
  | Some ((pendingResult, err), w') =>
      match err with
      | Some e => Some ((zeroVlan, Some e), w')
      | None =>
          match pendingResult with
          | Some result => Some ((result, None), w')
          | None =>
              Some ((zeroVlan,
                     Some (ErrorString ("Cannot find vlan with order id '" +:+
                                        Itoa orderId +:+ "'"))), w')
          end
      end
  end.

(** ** The two pollers as one loop with two configurations *)

(** Everything in which the two call sites differ. *)
Record PollSite : Type := {
  sitePath : string;
  siteMask : string;
  siteExpectedOne : string;
  siteCannotFind : string;
  siteTimeout : Duration;
  siteDelay : Duration;
  siteMinTimeout : Duration
}.

Definition siteRequest (site : PollSite) (orderId : Z) : ListRequest :=
  {| filterPath := sitePath site; filterValue := Itoa orderId; objectMask := siteMask site |}.

Definition siteRefresh (site : PollSite) (remote : Remote) (orderId : Z) (w : World)
  : RefreshResult * World :=
  let '((vlans, err), w1) := GetNetworkVlans remote (siteRequest site orderId) w in
  match err with
  | Some _ => ((Some zeroVlan, "", err), w1)
  | None =>
      if (length vlans =? 1)%nat then ((head vlans, "complete", None), w1)
      else if (length vlans =? 0)%nat then ((None, "pending", None), w1)
      else ((None, "", Some (ErrorString (siteExpectedOne site +:+ verb_s err))), w1)
  end.

Definition siteConf (site : PollSite) (remote : Remote) (orderId : Z) : StateChangeConf :=
  {| Pending := ["pending"];
     Target := ["complete"];
     Refresh := siteRefresh site remote orderId;
     Timeout := siteTimeout site;
     Delay := siteDelay site;
     MinTimeout := siteMinTimeout site |}.

Definition awaitOrder (site : PollSite) (fuel : nat) (remote : Remote) (orderId : Z)
    (w : World) : option ((Network_Vlan * option error) * World) :=
  match WaitForState fuel (siteConf site remote orderId) w with
  | None => None
  | Some ((pendingResult, err), w') =>
      match err with
      | Some e => Some ((zeroVlan, Some e), w')
      | None =>
          match pendingResult with
          | Some result => Some ((result, None), w')
          | None =>
              Some ((zeroVlan,
                     Some (ErrorString (siteCannotFind site +:+ Itoa orderId +:+ "'"))), w')
          end
      end
  end.

Definition firewallSite : PollSite :=
  {| sitePath := "networkVlans.networkVlanFirewall.billingItem.orderItem.order.id";
     siteMask := vlanMask;
     siteExpectedOne := "Expected one dedicated firewall: ";
     siteCannotFind := "Cannot find Dedicated Firewall with order id '";
     siteTimeout := 45 * Minute;
     siteDelay := 10 * Second;
     siteMinTimeout := 10 * Second |}.

Definition vlanSite : PollSite :=
  {| sitePath := "networkVlans.billingItem.orderItem.order.id";
     siteMask := "id";
     siteExpectedOne := "Expected one vlan: ";
     siteCannotFind := "Cannot find vlan with order id '";
     siteTimeout := 10 * Minute;
     siteDelay := 5 * Second;
     siteMinTimeout := 3 * Second |}.

Inductive Poller : Type := FirewallPoller | VlanPoller.

Definition siteOf (p : Poller) : PollSite :=
  match p with
  | FirewallPoller => firewallSite
  | VlanPoller => vlanSite
  end.

(** The source function behind each poller. *)
Definition pollerOf (p : Poller)
  : nat -> Remote -> Z -> World -> option ((Network_Vlan * option error) * World) :=
  match p with
  | FirewallPoller => findDedicatedFirewallByOrderId
  | VlanPoller => findVlanByOrderId
  end.

(** The [StateChangeConf] literal each poller builds. *)
Definition confOf (p : Poller) (remote : Remote) (orderId : Z) : StateChangeConf :=
  match p with
  | FirewallPoller => firewallStateConf remote orderId
  | VlanPoller => vlanStateConf remote orderId
  end.

(** The [Refresh] closure of each poller, fed one listing answer. *)
Definition refreshOf (p : Poller) (answer : list Network_Vlan * option error)
  : RefreshResult :=
  fst (Refresh (confOf p (fun _ _ => answer) 0) epoch).

(** The listing request each poller sends. *)
Definition requestOf (p : Poller) (orderId : Z) : ListRequest :=
  siteRequest (siteOf p) orderId.

(** The error built in the more-than-one branch. *)
Definition ambiguousError (p : Poller) : error :=
  ErrorString (siteExpectedOne (siteOf p) +:+ "%!s(<nil>)").

(** The time of the tick with index [n], counted from the start of the
    wait. *)
Definition tickTime (conf : StateChangeConf) (n : nat) : Duration :=
  Delay conf + Z.of_nat n * MinTimeout conf.

(** The world after one more listing call. *)
Definition ticked (w : World) : World := {| now := now w; calls := S (calls w) |}.

(** Listing answers. *)
Definition noneYet : list Network_Vlan * option error := ([], None).
Definition exactlyOne (v : Network_Vlan) : list Network_Vlan * option error := ([v], None).

(** ** resourceIBMNetworkVlanCreate *)

Module VlanCreate.

Definition AdditionalServicesPackageType : string := "ADDITIONAL_SERVICES".
Definition AdditionalServicesNetworkVlanPackageType : string :=
  "ADDITIONAL_SERVICES_NETWORK_VLAN".

(** The fields of [schema.ResourceData] the handler touches. [tags] is
    what [getTags(d)] yields. *)
Record ResourceData : Type := {
  router_hostname : string;
  name : string;
  type : string;
  tags : string;
  resourceId : string
}.

Definition SetId (id : string) (d : ResourceData) : ResourceData :=
  {| router_hostname := router_hostname d; name := name d; type := type d;
     tags := tags d; resourceId := id |}.

(** [datatypes.Container_Product_Order_Network_Vlan] and
    [datatypes.Container_Product_Order_Receipt], by the fields that
    travel. *)
Record Container : Type := {
  PackageId : option Z;
  Location : option string;
  Prices : list (option Z);
  RouterId : option Z
}.

Record Receipt : Type := { OrderId : option Z }.

(** The remote services behind [sess] and [meta]. [orderContainer] is the
    outcome of [buildVlanProductOrderContainer] for a package type (its
    catalogue look-ups are remote calls); [readBack] is the outcome of
    [resourceIBMNetworkVlanRead]. *)
Record Session : Type := {
  orderContainer : ResourceData -> string -> Container * option error;
  PlaceOrder : Container -> Receipt * option error;
  account : Remote;
  EditObject : Z -> Network_Vlan -> option error;
  SetTags : Z -> string -> option error;
  readBack : ResourceData -> run (option error)
}.

(** [strings.Contains] *)
Definition Contains (s substr : string) : bool :=
  match String.index 0 substr s with
  | Some _ => true
  | None => false
  end.

#[global] Instance run_bind : MBind run := fun A B k m =>
  match m with
  | Returned a => k a
  | Panicked reason => Panicked reason
  | Unfinished => Unfinished
  end.

(** [*p]: reading through a nil pointer panics. *)
Definition deref {A : Type} (p : option A) : run A :=
  match p with
  | Some a => Returned a
  | None => Panicked nilDereference
  end.

Definition setVlanTags (sess : Session) (id : Z) (tags : string) : option error :=
  match SetTags sess id tags with
  | Some _ => Some (ErrorString ("Could not set tags on vlan " +:+ Itoa id))
  | None => None
  end.

(** The guard at the head of the handler. *)
Definition routerMismatch (vlanType router : string) : bool :=
  (String.eqb vlanType "PRIVATE" && (0 <? String.length router)%nat && Contains router "fcr")
  || (String.eqb vlanType "PUBLIC" && (0 <? String.length router)%nat && Contains router "bcr").

Definition resourceIBMNetworkVlanCreate (fuel : nat) (sess : Session) (d : ResourceData)
  : run (ResourceData * option error) :=
  let router := router_hostname d in
  let name := name d in
  let vlanType := type d in
  if routerMismatch vlanType router then
    Returned (d, Some (ErrorString
      ("Error creating vlan: mismatch between vlan_type '" +:+ vlanType +:+
       "' and router_hostname '" +:+ router +:+ "'")))
  else
    let '(productOrderContainer, err) :=
      orderContainer sess d AdditionalServicesNetworkVlanPackageType in
    let '(productOrderContainer, err) :=
      match err with
      | Some _ => orderContainer sess d AdditionalServicesPackageType
      | None => (productOrderContainer, err)
      end in
    match err with
    | Some _ => Returned (d, Some (ErrorString ("Error creating vlan: " +:+ verb_s err)))
    | None =>
        let '(receipt, err) := PlaceOrder sess productOrderContainer in
        match err with
        | Some _ =>
            Returned (d, Some (ErrorString ("Error during creation of vlan: " +:+ verb_s err)))
        | None =>
            orderId ← deref (OrderId receipt);
            match findVlanByOrderId fuel (account sess) orderId epoch with
            | None => Unfinished
            | Some ((vlan, err), _) =>
                (* [err] is overwritten or dropped below, never tested *)
                edited ←
                  (if (0 <? String.length name)%nat then
                     id ← deref (Id vlan);
                     Returned (EditObject sess id {| Id := None; Name := Some name |})
                   else Returned None);
                match edited with
                | Some e =>
                    Returned (d, Some (ErrorString ("Error updating vlan: " +:+ verb_s (Some e))))
                | None =>
                    idForState ← deref (Id vlan);
                    let d := SetId (Itoa idForState) d in
                    id ← deref (Id vlan);
                    let tags := tags d in
                    match (if negb (String.eqb tags "") then setVlanTags sess id tags else None) with
                    | Some e => Returned (d, Some e)
                    | None =>
                        result ← readBack sess d;
                        Returned (d, result)
                    end
                end
            end
        end
    end.

End VlanCreate.

(** ** Qualified names *)

Module Whisk.

Record QualifiedName : Type := {
  namespace : string;
  packageName : string;
  entityName : string
}.

Inductive parsed : Type :=
| Ok (qn : QualifiedName)
| MalformedIdentifier (raw : string).

(** [strings.Split(s, "/")] *)
Fixpoint Split (s : string) : list string :=
  match s with
  | EmptyString => [EmptyString]
  | String c rest =>
      if Ascii.eqb c "/" then EmptyString :: Split rest
      else match Split rest with
           | [] => [String c EmptyString]
           | segment :: segments => String c segment :: segments
           end
  end.

Definition nonEmpty (s : string) : bool := negb (String.eqb s "").

(** No [/] occurs in the text. *)
Fixpoint noSlash (s : string) : bool :=
  match s with
  | EmptyString => true
  | String c rest => negb (Ascii.eqb c "/") && noSlash rest
  end.

(** The empty segment a leading [/] leaves in front is dropped. *)
Definition dropLeadingEmpty (segments : list string) : list string :=
  match segments with
  | "" :: rest => rest
  | _ => segments
  end.

(** What a segment kept by the parser looks like. *)
Definition name (s : string) : Prop := nonEmpty s = true /\ noSlash s = true.

(** Modelled from the spec: the resolver ([NewQualifiedName] at the call
    sites) is not among the sources. Section 4.2: split on [/]; strip the
    leading empty segment of a leading [/]; reject an empty entity name
    (the last segment, so a trailing slash is malformed as well); reject
    more than three non-empty segments; the non-empty segments are, from
    the right, the entity name, then the namespace, with the package
    between them when there are three. *)
Definition NewQualifiedName (raw : string) : parsed :=
  let segments := dropLeadingEmpty (Split raw) in
  if nonEmpty (List.last segments "") then
    match List.filter nonEmpty segments with
    | [entity] => Ok {| namespace := ""; packageName := ""; entityName := entity |}
    | [ns; entity] => Ok {| namespace := ns; packageName := ""; entityName := entity |}
    | [ns; pkg; entity] => Ok {| namespace := ns; packageName := pkg; entityName := entity |}
    | _ => MalformedIdentifier raw
    end
  else MalformedIdentifier raw.

(** Modelled from the spec: [format] is not among the sources. Section
    4.2 asks for a canonical text of a parsed name with the leading slash
    normalised; the components present are joined with [/], and a name
    with a namespace starts with [/]. *)
Definition format (qn : QualifiedName) : string :=
  (if nonEmpty (namespace qn) then "/" +:+ namespace qn +:+ "/" else "") +:+
  (if nonEmpty (packageName qn) then packageName qn +:+ "/" else "") +:+
  entityName qn.

End Whisk.

(** ** diff_supress_funcs.go *)

Module Suppress.

(** The dynamic values [encoding/json] stores in an [interface{}]. A
    [float64] is kept by the rational it denotes, on which Go's [==]
    and Leibniz equality agree. A slice or a map is looked at only by
    [reflect.DeepEqual], and cannot be hashed; it is kept by a
    canonical text, equal exactly for deeply equal values. *)
Inductive any : Type :=
| Nil
| Bool (b : bool)
| Float64 (q : Qc)
| Str (s : string)
| Composite (canonical : string).

#[global] Instance any_eq_dec : EqDecision any.
Proof. solve_decision. Defined.

Definition any_to_sum (v : any) : unit + (bool + (Qc + (string + string))) :=
  match v with
  | Nil => inl tt
  | Bool b => inr (inl b)
  | Float64 q => inr (inr (inl q))
  | Str s => inr (inr (inr (inl s)))
  | Composite c => inr (inr (inr (inr c)))
  end.

Definition any_of_sum (s : unit + (bool + (Qc + (string + string)))) : any :=
  match s with
  | inl _ => Nil
  | inr (inl b) => Bool b
  | inr (inr (inl q)) => Float64 q
  | inr (inr (inr (inl s))) => Str s
  | inr (inr (inr (inr c))) => Composite c
  end.

#[global] Instance any_countable : Countable any.
Proof.
  refine (inj_countable' any_to_sum any_of_sum _).
  intros []; reflexivity.
Defined.

(** Whether the runtime can hash the value as a map key. *)
Definition hashable (v : any) : bool :=
  match v with
  | Composite _ => false
  | _ => true
  end.

Definition unhashable : string := "runtime error: hash of unhashable type".

(** [map[string]interface{}]; indexing a missing key gives nil. *)
Definition index (m : gmap string any) (field : string) : any :=
  default Nil (m !! field).

(** [for _, m := range objs { acc[m["key"]] = m["value"] }] *)
Fixpoint rangeAssign (objs : list (gmap string any)) (acc : gmap any any)
  : run (gmap any any) :=
  match objs with
  | [] => Returned acc
  | m :: rest =>
      if hashable (index m "key")
      then rangeAssign rest (<[index m "key" := index m "value"]> acc)
      else Panicked unhashable
  end.

(** [reflect.DeepEqual] on two non-nil maps: same length, and every key
    of the first is in the second with a deeply equal value. *)
Definition DeepEqual (m1 m2 : gmap any any) : bool :=
  bool_decide (size m1 = size m2) &&
  forallb (fun kv => bool_decide (m2 !! kv.1 = Some kv.2)) (map_to_list m1).

(** [json.Unmarshal] into a [[]map[string]interface{}] is a parameter: the
    decoded slice and the error. *)
Definition Decoder := string -> list (gmap string any) * option error.

Definition suppressEquivalentJSON (Unmarshal : Decoder) (k old new : string) : run bool :=
  if String.eqb old "" then Returned false
  else
    let '(oldObj, err) := Unmarshal old in
    match err with
    | Some _ => Returned false
    | None =>
        let '(newObj, err) := Unmarshal new in
        match err with
        | Some _ => Returned false
        | None =>
            match rangeAssign oldObj ∅ with
            | Returned oldm =>
                match rangeAssign newObj ∅ with
                | Returned newm => Returned (DeepEqual oldm newm)
                | Panicked reason => Panicked reason
                | Unfinished => Unfinished
                end
            | Panicked reason => Panicked reason
            | Unfinished => Unfinished
            end
        end
    end.

(** The spec's derived mapping, read off the array itself: the value of
    the last element that carries the key. *)
Fixpoint lastSeen (objs : list (gmap string any)) (key : any) : option any :=
  match objs with
  | [] => None
  | m :: rest =>
      match lastSeen rest key with
      | Some v => Some v
      | None => if decide (index m "key" = key) then Some (index m "value") else None
      end
  end.

Definition keysHashable (objs : list (gmap string any)) : Prop :=
  Forall (fun m => hashable (index m "key") = true) objs.

(** The assignment in the body of the two loops. *)
Definition assign (acc : gmap any any) (m : gmap string any) : gmap any any :=
  <[index m "key" := index m "value"]> acc.

(** One wire element [{"key": k, "value": v}]. *)
Definition element (k v : any) : gmap string any :=
  <["key" := k]> (<["value" := v]> ∅).

(** A decoder that knows two texts and rejects every other one. *)
Definition toyDecoder : Decoder := fun text =>
  if String.eqb text "[{a:1},{b:2},{a:3}]" then
    ([element (Str "a") (Float64 1); element (Str "b") (Float64 (1 + 1));
      element (Str "a") (Float64 (1 + 1 + 1))], None)
  else if String.eqb text "[{b:2},{a:3}]" then
    ([element (Str "b") (Float64 (1 + 1)); element (Str "a") (Float64 (1 + 1 + 1))], None)
  else ([], Some (ErrorString "invalid character")).

End Suppress.

(** ** Sample inputs *)

Module Sample.

Definition vlan8 : Network_Vlan := {| Id := Some 8; Name := None |}.
Definition vlan9 : Network_Vlan := {| Id := Some 9; Name := None |}.

(** Nothing on the first two ticks, then the answer [last]. *)
Definition afterTwo (last : list Network_Vlan * option error) : Remote :=
  fun _ k => nth k [noneYet; noneYet] last.

Definition never : Remote := fun _ _ => noneYet.

Definition container : VlanCreate.Container :=
  {| VlanCreate.PackageId := Some 0; VlanCreate.Location := Some "1441195";
     VlanCreate.Prices := [Some 2018; Some 1080]; VlanCreate.RouterId := None |}.

(** Every service works; the ordered VLAN never shows up. *)
Definition stalled : VlanCreate.Session :=
  {| VlanCreate.orderContainer := fun _ _ => (container, None);
     VlanCreate.PlaceOrder := fun _ => ({| VlanCreate.OrderId := Some 41 |}, None);
     VlanCreate.account := never;
     VlanCreate.EditObject := fun _ _ => None;
     VlanCreate.SetTags := fun _ _ => None;
     VlanCreate.readBack := fun _ => Returned None |}.

Definition config : VlanCreate.ResourceData :=
  {| VlanCreate.router_hostname := ""; VlanCreate.name := "backend";
     VlanCreate.type := "PRIVATE"; VlanCreate.tags := ""; VlanCreate.resourceId := "" |}.

End Sample.

(** ** strconv.Atoi *)

Module Strconv.

(** The bounds of [int] on a 64-bit platform. *)
Definition maxInt : Z := 2 ^ 63 - 1.
Definition minInt : Z := - 2 ^ 63.

(** The error of a failed conversion. [Quote] stands for [strconv.Quote],
    which is kept a parameter. *)
Definition numError (Quote : string -> string) (input reason : string) : error :=
  ErrorString ("strconv.Atoi: parsing " +:+ Quote input +:+ ": " +:+ reason).

(** The optional sign in front of the digits. *)
Definition splitSign (s : string) : bool * string :=
  match s with
  | String "+" rest => (false, rest)
  | String "-" rest => (true, rest)
  | _ => (false, s)
  end.

(** [strconv.Atoi]: an optional sign, then decimal digits. A text that is
    no number gives 0 and a syntax error; a number outside [int] gives the
    nearest bound and a range error. *)
Definition Atoi (Quote : string -> string) (s : string) : Z * option error :=
  let '(negative, digits) := splitSign s in
  match NilZero.uint_of_string digits with
  | None => (0, Some (numError Quote s "invalid syntax"))
  | Some d =>
      let n := Z.of_uint d in
      if negative then
        if (n <=? 2 ^ 63)%Z then (- n, None)
        else (minInt, Some (numError Quote s "value out of range"))
      else
        if (n <=? maxInt)%Z then (n, None)
        else (maxInt, Some (numError Quote s "value out of range"))
  end.

End Strconv.

(** ** buildVlanProductOrderContainer *)

Module VlanOrder.

(** [datatypes.Product_Item]: the key name and the ids of its prices. *)
Record Product_Item : Type := {
  KeyName : option string;
  Prices : list (option Z)
}.

(** The fields of [d] the function reads. *)
Record OrderData : Type := {
  router_hostname : string;
  type : string;
  datacenter : string;
  subnet_size : Z
}.

(** The catalogue look-ups of the helper packages [location], [product]
    and [hardware]: each gives the [Id] of the object found (a pointer)
    or the items, and an error. *)
Record Catalogue : Type := {
  GetDatacenterByName : string -> option Z * option error;
  GetPackageByType : string -> option Z * option error;
  GetPackageProducts : Z -> list Product_Item * option error;
  GetRouterByName : string -> option Z * option error
}.

(** [&datatypes.Container_Product_Order_Network_Vlan{}] *)
Definition emptyContainer : VlanCreate.Container :=
  {| VlanCreate.PackageId := None; VlanCreate.Location := None;
     VlanCreate.Prices := []; VlanCreate.RouterId := None |}.

Definition indexOutOfRange : string := "runtime error: index out of range".

(** [xs[0]] *)
Definition first {A : Type} (xs : list A) : run A :=
  match xs with
  | x :: _ => Returned x
  | [] => Panicked indexOutOfRange
  end.

(** The loop over [productItems]: the items with the VLAN key name and
    the items whose key name contains the subnet key name, in catalogue
    order. *)
Fixpoint selectItems (vlanKeyname subnetKeyname : string) (productItems : list Product_Item)
    (vlanItems subnetItems : list Product_Item)
  : run (list Product_Item * list Product_Item) :=
  match productItems with
  | [] => Returned (vlanItems, subnetItems)
  | item :: rest =>
      key ← VlanCreate.deref (KeyName item);
      let vlanItems :=
        if String.eqb key vlanKeyname then (vlanItems ++ [item])%list else vlanItems in
      key' ← VlanCreate.deref (KeyName item);
      let subnetItems :=
        if VlanCreate.Contains key' subnetKeyname then (subnetItems ++ [item])%list else subnetItems in
      selectItems vlanKeyname subnetKeyname rest vlanItems subnetItems
  end.

Definition buildVlanProductOrderContainer (d : OrderData) (sess : Catalogue)
    (packageType : string) : run (VlanCreate.Container * option error) :=
  let router := router_hostname d in
  let vlanType := type d in
  let datacenter := datacenter d in
  if String.eqb datacenter "" then
    Returned (emptyContainer, Some (ErrorString "datacenter name is empty."))
  else
    let '(dc, err) := GetDatacenterByName sess datacenter in
    match err with
    | Some _ => Returned (emptyContainer, err)
    | None =>
        let '(pkg, err) := GetPackageByType sess packageType in
        match err with
        | Some _ => Returned (emptyContainer, err)
        | None =>
            pkgId ← VlanCreate.deref pkg;
            let '(productItems, err) := GetPackageProducts sess pkgId in
            match err with
            | Some _ => Returned (emptyContainer, err)
            | None =>
                let vlanKeyname := vlanType +:+ "_NETWORK_VLAN" in
                let subnetKeyname := Itoa (subnet_size d) +:+ "_STATIC_PUBLIC_IP_ADDRESSES" in
                '(vlanItems, subnetItems) ←
                  selectItems vlanKeyname subnetKeyname productItems [] [];
                if (length vlanItems =? 0)%nat then
                  Returned (emptyContainer,
                            Some (ErrorString ("No product items matching " +:+ vlanKeyname +:+
                                               " could be found")))
                else if (length subnetItems =? 0)%nat then
                  Returned (emptyContainer,
                            Some (ErrorString ("No product items matching " +:+ subnetKeyname +:+
                                               " could be found")))
                else
                  dcId ← VlanCreate.deref dc;
                  vlanItem ← first vlanItems;
                  vlanPrice ← first (Prices vlanItem);
                  subnetItem ← first subnetItems;
                  subnetPrice ← first (Prices subnetItem);
                  let productOrderContainer :=
                    {| VlanCreate.PackageId := pkg;
                       VlanCreate.Location := Some (Itoa dcId);
                       VlanCreate.Prices := [vlanPrice; subnetPrice];
                       VlanCreate.RouterId := None |} in
                  if (0 <? String.length router)%nat then
                    let '(rt, err) := GetRouterByName sess router in
                    match err with
                    | Some _ =>
                        Returned (emptyContainer,
                                  Some (ErrorString ("Error creating vlan: " +:+ verb_s err)))
                    | None =>
                        Returned ({| VlanCreate.PackageId := pkg;
                                     VlanCreate.Location := Some (Itoa dcId);
                                     VlanCreate.Prices := [vlanPrice; subnetPrice];
                                     VlanCreate.RouterId := rt |}, None)
                    end
                  else Returned (productOrderContainer, None)
            end
        end
    end.

(** A test on the key name, as a test on the item. *)
Definition passes (test : string -> bool) (item : Product_Item) : bool :=
  match KeyName item with
  | Some key => test key
  | None => false
  end.

(** The first item of the catalogue that passes a test on its key name. *)
Definition firstItem (test : string -> bool) (productItems : list Product_Item)
  : option Product_Item :=
  List.find (passes test) productItems.

(** The two key names the function looks for. *)
Definition vlanKeynameOf (d : OrderData) : string := type d +:+ "_NETWORK_VLAN".
Definition subnetKeynameOf (d : OrderData) : string :=
  Itoa (subnet_size d) +:+ "_STATIC_PUBLIC_IP_ADDRESSES".

End VlanOrder.

(** ** The SoftLayer services behind the other handlers *)

Module Sl.

(** What a service call can fail with: an [sl.Error], which carries the
    HTTP status, or any other error. [text] is what [Error()] prints. *)
Inductive failure : Type :=
| ApiError (StatusCode : Z) (text : string)
| OtherError (text : string).

Definition toError (f : failure) : error :=
  match f with
  | ApiError _ text => RemoteError text
  | OtherError text => RemoteError text
  end.

(** [apiErr, ok := err.(sl.Error); ok && apiErr.StatusCode == 404] *)
Definition isNotFound (f : failure) : bool :=
  match f with
  | ApiError status _ => (status =? 404)%Z
  | OtherError _ => false
  end.

(** The remote calls the handlers issue, with their arguments. *)
Inductive Call : Type :=
| VlanGetObject (id : Z) (mask : string)
| VlanGetBillingItem (id : Z)
| VlanEditObject (id : Z) (name : string)
| VlanSetTags (id : Z) (tags : string)
| FirewallGetObject (id : Z) (mask : string)
| FirewallGetBillingItem (id : Z)
| FirewallSetTags (id : Z) (tags : string)
| BillingCancelService (id : Z)
| ProductPlaceOrder (prices : list (option Z)) (vlanId : Z).

(** A handler run: its outcome and the calls it issued, in order. *)
Record Eff (A : Type) : Type := mkEff {
  outcome : run A;
  log : list Call
}.
Arguments mkEff {A} outcome log.
Arguments outcome {A} e.
Arguments log {A} e.

#[global] Instance eff_ret : MRet Eff := fun A a => mkEff (Returned a) [].

#[global] Instance eff_bind : MBind Eff := fun A B k m =>
  match outcome m with
  | Returned a => mkEff (outcome (k a)) (log m ++ log (k a))%list
  | Panicked reason => mkEff (Panicked reason) (log m)
  | Unfinished => mkEff Unfinished (log m)
  end.

(** Issue a call and take the answer of the service. *)
Definition call {A : Type} (c : Call) (answer : A) : Eff A := mkEff (Returned answer) [c].

(** A step that calls nothing. *)
Definition pure {A : Type} (r : run A) : Eff A := mkEff r [].

End Sl.

(** ** resource_ibm_network_vlan.go: read, update, delete, exists *)

Module VlanResource.
Import Sl.

Definition VlanMask : string :=
  "id,name,primaryRouter[datacenter[name]],primaryRouter[hostname],vlanNumber," +:+
  "billingItem[recurringFee],guestNetworkComponentCount,subnets[networkIdentifier,cidr,subnetType],tagReferences[id,tag[name]]".

Record Subnet : Type := {
  NetworkIdentifier : option string;
  Cidr : option Z;
  SubnetType : option string
}.

(** [datatypes.Hardware] as the router of a VLAN; [Datacenter] is a pointer
    to a location whose [Name] is a pointer. *)
Record Router : Type := {
  Hostname : option string;
  Datacenter : option (option string)
}.

(** [datatypes.Tag_Reference]: a pointer to a tag whose [Name] is a
    pointer. *)
Record TagReference : Type := { Tag : option (option string) }.

(** [datatypes.Network_Vlan] with the fields of [VlanMask]. [BillingItem]
    is looked at for nil only. *)
Record Vlan : Type := {
  Id : option Z;
  VlanNumber : option Z;
  GuestNetworkComponentCount : option Z;
  Name : option string;
  PrimaryRouter : option Router;
  BillingItem : option unit;
  Subnets : list Subnet;
  TagReferences : list TagReference
}.

(** The resource data: [resourceId] is [d.Id()], the rest are the schema
    fields. *)
Record State : Type := {
  resourceId : string;
  id : Z;
  vlan_number : Z;
  child_resource_count : Z;
  name : string;
  router_hostname : string;
  type : string;
  datacenter : string;
  softlayer_managed : bool;
  subnets : list (string * string);
  subnet_size : Z;
  tags : list string
}.

Record Services : Type := {
  GetObject : Z -> string -> Vlan * option failure;
  GetBillingItem : Z -> option Z * option failure;
  EditObject : Z -> string -> option failure;
  SetTags : Z -> string -> option failure;
  CancelService : Z -> bool * option failure
}.

(** Wrap-around of [int] on a 64-bit platform. *)
Definition wrapInt (n : Z) : Z := (n + 2 ^ 63) mod 2 ^ 64 - 2 ^ 63.

(** [1<<(uint)(32-cidr)]: the count is converted to [uint]; a count of 64
    or more shifts every bit out. *)
Definition subnetSize (cidr : Z) : Z :=
  let count := (32 - cidr) mod 2 ^ 64 in
  if (count <? 64)%Z then wrapInt (Z.shiftl 1 count) else 0.

(** One round of the loop over [vlan.Subnets]. *)
Definition subnetEntry (elem : Subnet) : run (string * string) :=
  network ← VlanCreate.deref (NetworkIdentifier elem);
  cidr ← VlanCreate.deref (Cidr elem);
  kind ← VlanCreate.deref (SubnetType elem);
  Returned (network +:+ "/" +:+ Itoa cidr, kind).

Fixpoint subnetEntries (elems : list Subnet) : run (list (string * string)) :=
  match elems with
  | [] => Returned []
  | elem :: rest =>
      entry ← subnetEntry elem;
      entries ← subnetEntries rest;
      Returned (entry :: entries)
  end.

(** The loop over [vlan.TagReferences]: [*tagRef.Tag.Name]. *)
Fixpoint tagNames (refs : list TagReference) : run (list string) :=
  match refs with
  | [] => Returned []
  | ref :: rest =>
      tag ← VlanCreate.deref (Tag ref);
      tagName ← VlanCreate.deref tag;
      names ← tagNames rest;
      Returned (tagName :: names)
  end.

(** The type Read derives from the router's host name. *)
Definition typeOfRouter (hostname : string) : string :=
  if String.prefix "fcr" hostname then "PUBLIC" else "PRIVATE".

(** The part of Read after a successful [GetObject]. *)
Definition flatten (d : State) (vlan : Vlan) : run State :=
  vlanId ← VlanCreate.deref (Id vlan);
  number ← VlanCreate.deref (VlanNumber vlan);
  children ← VlanCreate.deref (GuestNetworkComponentCount vlan);
  let vlanName := default "" (Name vlan) in
  routerFields ←
    match PrimaryRouter vlan with
    | Some router =>
        hostname ← VlanCreate.deref (Hostname router);
        match Datacenter router with
        | Some location =>
            locationName ← VlanCreate.deref location;
            Returned (hostname, typeOfRouter hostname, locationName)
        | None => Returned (hostname, typeOfRouter hostname, datacenter d)
        end
    | None => Returned (router_hostname d, type d, datacenter d)
    end;
  entries ← subnetEntries (Subnets vlan);
  size ←
    match Subnets vlan with
    | elem :: _ => cidr ← VlanCreate.deref (Cidr elem); Returned (subnetSize cidr)
    | [] => Returned 0
    end;
  tagList ←
    (if (0 <? length (TagReferences vlan))%nat then tagNames (TagReferences vlan)
     else Returned (tags d));
  Returned {| resourceId := resourceId d;
              id := vlanId;
              vlan_number := number;
              child_resource_count := children;
              name := vlanName;
              router_hostname := routerFields.1.1;
              type := routerFields.1.2;
              datacenter := routerFields.2;
              softlayer_managed := match BillingItem vlan with None => true | Some _ => false end;
              subnets := entries;
              subnet_size := size;
              tags := tagList |}.

Definition resourceIBMNetworkVlanRead (Quote : string -> string) (svc : Services) (d : State)
  : Eff (State * option error) :=
  let '(vlanId, err) := Strconv.Atoi Quote (resourceId d) in
  match err with
  | Some _ =>
      mret (d, Some (ErrorString ("Not a valid vlan ID, must be an integer: " +:+ verb_s err)))
  | None =>
      answer ← call (VlanGetObject vlanId VlanMask) (GetObject svc vlanId VlanMask);
      match answer.2 with
      | Some f =>
          mret (d, Some (ErrorString ("Error retrieving vlan: " +:+ verb_s (Some (toError f)))))
      | None =>
          d' ← pure (flatten d answer.1);
          mret (d', None)
      end
  end.

Definition setVlanTags (svc : Services) (vlanId : Z) (tagsText : string) : Eff (option error) :=
  failed ← call (VlanSetTags vlanId tagsText) (SetTags svc vlanId tagsText);
  match failed with
  | Some _ => mret (Some (ErrorString ("Could not set tags on vlan " +:+ Itoa vlanId)))
  | None => mret None
  end.

(** [nameChanged] and [tagsChanged] are [d.HasChange("name")] and
    [d.HasChange("tags")]; [tagsText] is what [getTags(d)] yields. *)
Definition resourceIBMNetworkVlanUpdate (Quote : string -> string) (svc : Services)
    (nameChanged tagsChanged : bool) (tagsText : string) (d : State)
  : Eff (State * option error) :=
  let '(vlanId, err) := Strconv.Atoi Quote (resourceId d) in
  match err with
  | Some _ =>
      mret (d, Some (ErrorString ("Not a valid vlan ID, must be an integer: " +:+ verb_s err)))
  | None =>
      tagged ← (if tagsChanged then setVlanTags svc vlanId tagsText else mret None);
      match tagged with
      | Some e => mret (d, Some e)
      | None =>
          edited ←
            (if nameChanged
             then call (VlanEditObject vlanId (name d)) (EditObject svc vlanId (name d))
             else mret None);
          match edited with
          | Some f =>
              mret (d, Some (ErrorString ("Error updating vlan: " +:+ verb_s (Some (toError f)))))
          | None => resourceIBMNetworkVlanRead Quote svc d
          end
      end
  end.

Definition resourceIBMNetworkVlanDelete (Quote : string -> string) (svc : Services) (d : State)
  : Eff (option error) :=
  let '(vlanId, err) := Strconv.Atoi Quote (resourceId d) in
  match err with
  | Some _ =>
      mret (Some (ErrorString ("Not a valid vlan ID, must be an integer: " +:+ verb_s err)))
  | None =>
      answer ← call (VlanGetBillingItem vlanId) (GetBillingItem svc vlanId);
      match answer.2 with
      | Some f =>
          mret (Some (ErrorString ("Error deleting vlan: " +:+ verb_s (Some (toError f)))))
      | None =>
          match answer.1 with
          | None => mret None
          | Some billingId =>
              cancelled ← call (BillingCancelService billingId) (CancelService svc billingId);
              mret (toError <$> cancelled.2)
          end
      end
  end.

Definition resourceIBMNetworkVlanExists (Quote : string -> string) (svc : Services) (d : State)
  : Eff (bool * option error) :=
  let '(vlanID, err) := Strconv.Atoi Quote (resourceId d) in
  match err with
  | Some _ =>
      mret (false,
            Some (ErrorString ("Not a valid vlan ID, must be an integer: " +:+ verb_s err)))
  | None =>
      answer ← call (VlanGetObject vlanID "id") (GetObject svc vlanID "id");
      match answer.2 with
      | Some f =>
          if isNotFound f then mret (false, None)
          else mret (false,
                     Some (ErrorString ("Error communicating with the API: " +:+
                                        verb_s (Some (toError f)))))
      | None =>
          mret (match Id answer.1 with
                | Some found => (found =? vlanID)%Z
                | None => false
                end, None)
      end
  end.

End VlanResource.

(** ** resource_ibm_firewall.go: the handlers *)

Module FirewallResource.
Import Sl.

Definition FwHardwareDedicatedPackageType : string := "ADDITIONAL_SERVICES_FIREWALL".

Definition fwMask : string :=
  "id,networkVlan.highAvailabilityFirewallFlag,tagReferences[id,tag[name]]".

(** [vlan.Id] of the polled VLAN. *)
Definition polledId (vlan : Network_Vlan) : option Z := Id vlan.

(** The VLAN a firewall protects, as [fw.NetworkVlan] shows it. *)
Record FirewallVlan : Type := {
  Id : option Z;
  HighAvailabilityFirewallFlag : option bool
}.

(** [datatypes.Network_Vlan_Firewall] with the fields the handlers read. *)
Record Firewall : Type := {
  NetworkVlan : option FirewallVlan;
  TagReferences : list VlanResource.TagReference
}.

(** The resource data: [resourceId] is [d.Id()]. *)
Record State : Type := {
  resourceId : string;
  ha_enabled : bool;
  public_vlan_id : Z;
  tags : list string
}.

(** [datatypes.Container_Product_Order_Network_Protection_Firewall_Dedicated];
    the quantity is always 1. *)
Record Order : Type := {
  PackageId : option Z;
  Prices : list (option Z);
  VlanId : Z
}.

(** The services behind [sess] and [meta]. [firewallOf] and [haFlagOf]
    read the two fields of the polled [datatypes.Network_Vlan] that the
    record [Network_Vlan] does not carry: [NetworkVlanFirewall] (a pointer
    to a firewall whose [Id] is a pointer) and
    [HighAvailabilityFirewallFlag]. *)
Record Services : Type := {
  GetObject : Z -> string -> Firewall * option failure;
  GetBillingItem : Z -> option Z * option failure;
  CancelService : Z -> bool * option failure;
  SetTags : Z -> string -> option failure;
  GetPackageByType : string -> option Z * option error;
  GetPackageProducts : Z -> list VlanOrder.Product_Item * option error;
  PlaceOrder : Order -> VlanCreate.Receipt * option error;
  account : Remote;
  firewallOf : Network_Vlan -> option (option Z);
  haFlagOf : Network_Vlan -> option bool
}.

Definition SetId (text : string) (d : State) : State :=
  {| resourceId := text; ha_enabled := ha_enabled d;
     public_vlan_id := public_vlan_id d; tags := tags d |}.

Definition setFirewallTags (svc : Services) (fwId : Z) (tagsText : string) : Eff (option error) :=
  failed ← call (FirewallSetTags fwId tagsText) (SetTags svc fwId tagsText);
  match failed with
  | Some _ => mret (Some (ErrorString ("Could not set tags on firewall " +:+ Itoa fwId)))
  | None => mret None
  end.

(** The part of Read after a successful [GetObject]. *)
Definition flatten (d : State) (fw : Firewall) : run State :=
  vlan ← VlanCreate.deref (NetworkVlan fw);
  vlanId ← VlanCreate.deref (Id vlan);
  vlan' ← VlanCreate.deref (NetworkVlan fw);
  flag ← VlanCreate.deref (HighAvailabilityFirewallFlag vlan');
  tagList ←
    (if (0 <? length (TagReferences fw))%nat then VlanResource.tagNames (TagReferences fw)
     else Returned (tags d));
  Returned {| resourceId := resourceId d; ha_enabled := flag;
              public_vlan_id := vlanId; tags := tagList |}.

Definition resourceIBMFirewallRead (Quote : string -> string) (svc : Services) (d : State)
  : Eff (State * option error) :=
  let '(fwID, _) := Strconv.Atoi Quote (resourceId d) in
  answer ← call (FirewallGetObject fwID fwMask) (GetObject svc fwID fwMask);
  match answer.2 with
  | Some f =>
      mret (d, Some (ErrorString ("Error retrieving firewall information: " +:+
                                  verb_s (Some (toError f)))))
  | None =>
      d' ← pure (flatten d answer.1);
      mret (d', None)
  end.

(** The loop over [productItems] of the create handler. *)
Fixpoint targetItemsOf (keyName : string) (productItems targetItems : list VlanOrder.Product_Item)
  : run (list VlanOrder.Product_Item) :=
  match productItems with
  | [] => Returned targetItems
  | item :: rest =>
      key ← VlanCreate.deref (VlanOrder.KeyName item);
      targetItemsOf keyName rest
        (if String.eqb key keyName then (targetItems ++ [item])%list else targetItems)
  end.

(** [tagsText] is what [getTags(d)] yields. *)
Definition resourceIBMFirewallCreate (fuel : nat) (Quote : string -> string) (svc : Services)
    (tagsText : string) (d : State) : Eff (State * option error) :=
  let haEnabled := ha_enabled d in
  let publicVlanId := public_vlan_id d in
  let keyName :=
    if haEnabled then "HARDWARE_FIREWALL_HIGH_AVAILABILITY" else "HARDWARE_FIREWALL_DEDICATED" in
  let '(pkg, err) := GetPackageByType svc FwHardwareDedicatedPackageType in
  match err with
  | Some _ => mret (d, err)
  | None =>
      pkgId ← pure (VlanCreate.deref pkg);
      let '(productItems, err) := GetPackageProducts svc pkgId in
      match err with
      | Some _ => mret (d, err)
      | None =>
          targetItems ← pure (targetItemsOf keyName productItems []);
          if (length targetItems =? 0)%nat then
            mret (d, Some (ErrorString ("No product items matching " +:+ keyName +:+
                                        " could be found")))
          else
            item ← pure (VlanOrder.first targetItems);
            price ← pure (VlanOrder.first (VlanOrder.Prices item));
            let productOrderContainer :=
              {| PackageId := pkg; Prices := [price]; VlanId := publicVlanId |} in
            placed ← call (ProductPlaceOrder [price] publicVlanId)
                       (PlaceOrder svc productOrderContainer);
            match placed.2 with
            | Some _ =>
                mret (d, Some (ErrorString
                  ("Error during creation of dedicated hardware firewall: " +:+ verb_s placed.2)))
            | None =>
                orderId ← pure (VlanCreate.deref (VlanCreate.OrderId placed.1));
                match findDedicatedFirewallByOrderId fuel (account svc) orderId epoch with
                | None => pure Unfinished
                | Some ((vlan, err), _) =>
                    match err with
                    | Some _ =>
                        mret (d, Some (ErrorString
                          ("Error during creation of dedicated hardware firewall: " +:+
                           verb_s err)))
                    | None =>
                        firewall ← pure (VlanCreate.deref (firewallOf svc vlan));
                        fwId ← pure (VlanCreate.deref firewall);
                        flag ← pure (VlanCreate.deref (haFlagOf svc vlan));
                        vlanId ← pure (VlanCreate.deref (polledId vlan));
                        let d := {| resourceId := Itoa fwId; ha_enabled := flag;
                                    public_vlan_id := vlanId; tags := tags d |} in
                        tagged ←
                          (if negb (String.eqb tagsText "") then setFirewallTags svc fwId tagsText
                           else mret None);
                        match tagged with
                        | Some e => mret (d, Some e)
                        | None => resourceIBMFirewallRead Quote svc d
                        end
                    end
                end
            end
      end
  end.

(** [tagsChanged] is [d.HasChange("tags")]; [tagsText] is what [getTags(d)]
    yields. *)
Definition resourceIBMFirewallUpdate (Quote : string -> string) (svc : Services)
    (tagsChanged : bool) (tagsText : string) (d : State) : Eff (State * option error) :=
  let '(fwID, err) := Strconv.Atoi Quote (resourceId d) in
  match err with
  | Some _ =>
      mret (d, Some (ErrorString ("Not a valid firewall ID, must be an integer: " +:+ verb_s err)))
  | None =>
      tagged ← (if tagsChanged then setFirewallTags svc fwID tagsText else mret None);
      match tagged with
      | Some e => mret (d, Some e)
      | None => resourceIBMFirewallRead Quote svc d
      end
  end.

Definition resourceIBMFirewallDelete (Quote : string -> string) (svc : Services) (d : State)
  : Eff (option error) :=
  let '(fwID, _) := Strconv.Atoi Quote (resourceId d) in
  answer ← call (FirewallGetBillingItem fwID) (GetBillingItem svc fwID);
  match answer.2 with
  | Some f =>
      mret (Some (ErrorString
        ("Error while looking up billing item associated with the firewall: " +:+
         verb_s (Some (toError f)))))
  | None =>
      match answer.1 with
      | None =>
          mret (Some (ErrorString
            ("Error while looking up billing item associated with the firewall: " +:+
             "No billing item for ID:" +:+ Itoa fwID)))
      | Some billingId =>
          cancelled ← call (BillingCancelService billingId) (CancelService svc billingId);
          match cancelled.2 with
          | Some f => mret (Some (toError f))
          | None =>
              if negb cancelled.1
              then mret (Some (ErrorString "SoftLayer reported an unsuccessful cancellation"))
              else mret None
          end
      end
  end.

Definition resourceIBMFirewallExists (Quote : string -> string) (svc : Services) (d : State)
  : Eff (bool * option error) :=
  let '(fwID, err) := Strconv.Atoi Quote (resourceId d) in
  match err with
  | Some _ =>
      mret (false, Some (ErrorString ("Not a valid ID, must be an integer: " +:+ verb_s err)))
  | None =>
      answer ← call (FirewallGetObject fwID "") (GetObject svc fwID "");
      match answer.2 with
      | Some f =>
          if isNotFound f then mret (false, None)
          else mret (false,
                     Some (ErrorString ("Error retrieving firewall information: " +:+
                                        verb_s (Some (toError f)))))
      | None => mret (true, None)
      end
  end.

End FirewallResource.

(** ** Sessions derived from a session *)

Module Derived.

(** The session that answers every package look-up the way [sess] answers
    the look-up of the fall-back package type. *)
Definition fallbackOnly (sess : VlanCreate.Session) : VlanCreate.Session :=
  {| VlanCreate.orderContainer :=
       fun d _ => VlanCreate.orderContainer sess d VlanCreate.AdditionalServicesPackageType;
     VlanCreate.PlaceOrder := VlanCreate.PlaceOrder sess;
     VlanCreate.account := VlanCreate.account sess;
     VlanCreate.EditObject := VlanCreate.EditObject sess;
     VlanCreate.SetTags := VlanCreate.SetTags sess;
     VlanCreate.readBack := VlanCreate.readBack sess |}.

End Derived.

(** ** helper/resource: the wait as the library runs it *)

Module Library.

(** The number of nil results in a row the wait puts up with when
    [NotFoundChecks] is left unset, as both call sites leave it. *)
Definition NotFoundChecks : nat := 20.

(** What a request still under way at the timeout is given to answer. *)
Definition refreshGracePeriod : Duration := 30 * Second.

(** [strings.Join] *)
Definition Join (elems : list string) (sep : string) : string := String.concat sep elems.

(** The not-found error and the unexpected-state error of the library, by
    their texts; [LastError] is nil where the loop builds them. *)
Definition notFoundError (retries : nat) : error :=
  ErrorString ("couldn't find resource (" +:+ Itoa (Z.of_nat retries) +:+ " retries)").

Definition unexpectedStateError (state : string) (expected : list string) : error :=
  ErrorString ("unexpected state '" +:+ state +:+ "', wanted target '" +:+
               Join expected ", " +:+ "'. last error: %!s(<nil>)").

(** What the loop makes of one answer of [Refresh]: the wait is over with
    a result, it is over with an error, or it goes on with the new count
    of nil results in a row. *)
Inductive verdict : Type :=
| Done (result : option Network_Vlan)
| Failed (result : option Network_Vlan) (err : error)
| Again (notfoundTick : nat).

Definition judge (conf : StateChangeConf) (notfoundTick : nat) (answer : RefreshResult)
  : verdict :=
  let '(result, state, err) := answer in
  match err with
  | Some e => Failed result e
  | None =>
      match result with
      | None =>
          if (length (Target conf) =? 0)%nat then Done None
          else if (NotFoundChecks <? S notfoundTick)%nat
               then Failed None (notFoundError (S notfoundTick))
               else Again (S notfoundTick)
      | Some _ =>
          if inStates state (Target conf) then Done result
          else if inStates state (Pending conf) then Again 0
          else if (0 <? length (Pending conf))%nat
               then Failed result (unexpectedStateError state (Target conf))
               else Again 0
      end
  end.

(** The pause before the next request, from the pause before this one:
    100ms after the first request, doubled after every request, and kept
    between [MinTimeout] and 10 s. *)
Definition nextWait (minTimeout wait : Duration) : Duration :=
  let wait := if (wait =? 0)%Z then 100 * Millisecond else wait in
  let wait := wait * 2 in
  if (wait <? minTimeout)%Z then minTimeout
  else if (10 * Second <? wait)%Z then 10 * Second
  else wait.

(** Modelled from the spec: [WaitForState] of helper/resource is not among
    the sources. The loop is the one of section 4.1: call [Refresh]; an
    error ends the wait at once; a target state ends it with the refreshed
    value; a pending state pauses and tries again until the timeout. What
    the section leaves open follows the library:
    - the first request comes right after [Delay], and the pause before
      each later one is [nextWait] of the pause before;
    - a nil result counts as not found, and more than [NotFoundChecks] of
      them in a row end the wait with the not-found error;
    - a state that is neither target nor pending ends the wait with the
      unexpected-state error;
    - the timer of [Timeout] runs beside the loop: it cuts a pause short,
      and it gives a request under way [refreshGracePeriod] to answer; an
      answer that comes in that period ends the wait, with its result
      when it shows a target state and with the timeout error otherwise.
    [latency k] is the time the [k]-th request takes. When the timer and
    the loop are due at the same instant the timer goes first. [fuel]
    bounds the number of requests; without fuel left the answer is
    [None]. *)
Fixpoint waitLoop (fuel : nat) (conf : StateChangeConf) (latency : nat -> Duration)
    (deadline wait : Duration) (notfoundTick : nat) (w : World)
  : option ((option Network_Vlan * option error) * World) :=
  match fuel with
  | O => None
  | S fuel' =>
      let asked := sleep wait w in
      if (deadline <=? now asked)%Z then
        Some ((None, Some TimeoutError), {| now := deadline; calls := calls w |})
      else
        let '(answer, w1) := Refresh conf asked in
        let w2 := sleep (latency (calls w)) w1 in
        if (now w2 <? deadline)%Z then
          match judge conf notfoundTick answer with
          | Done result => Some ((result, None), w2)
          | Failed result e => Some ((result, Some e), w2)
          | Again n =>
              waitLoop fuel' conf latency deadline (nextWait (MinTimeout conf) wait) n w2
          end
        else if (now w2 <=? deadline + refreshGracePeriod)%Z then
          match judge conf notfoundTick answer with
          | Done result => Some ((result, None), w2)
          | _ => Some ((None, Some TimeoutError), w2)
          end
        else
          Some ((None, Some TimeoutError),
                {| now := deadline + refreshGracePeriod; calls := calls w2 |})
  end.

(** Modelled from the spec: the wait itself. The deadline is [Timeout]
    after the start; the loop starts after [Delay], which the timer does
    not cut short: a [Delay] that outlasts the timer ends the wait with
    the timeout error when it is over, or when the grace period is. *)
Definition WaitForState (fuel : nat) (conf : StateChangeConf) (latency : nat -> Duration)
    (w : World) : option ((option Network_Vlan * option error) * World) :=
  let deadline := now w + Timeout conf in
  let w0 := sleep (Delay conf) w in
  if (deadline <=? now w0)%Z then
    Some ((None, Some TimeoutError),
          {| now := Z.min (now w0) (deadline + refreshGracePeriod); calls := calls w |})
  else waitLoop fuel conf latency deadline 0 0 w0.

(** [findDedicatedFirewallByOrderId] and [findVlanByOrderId] over this
    wait. *)
Definition findDedicatedFirewallByOrderId (fuel : nat) (latency : nat -> Duration)
    (sessWithRetry : Remote) (orderId : Z) (w : World)
  : option ((Network_Vlan * option error) * World) :=
  match WaitForState fuel (firewallStateConf sessWithRetry orderId) latency w with
  | None => None
  | Some ((pendingResult, err), w') =>
      match err with
      | Some e => Some ((zeroVlan, Some e), w')
      | None =>
          match pendingResult with
          | Some result => Some ((result, None), w')
          | None =>
              Some ((zeroVlan,
                     Some (ErrorString ("Cannot find Dedicated Firewall with order id '" +:+
                                        Itoa orderId +:+ "'"))), w')
          end
      end
  end.

Definition findVlanByOrderId (fuel : nat) (latency : nat -> Duration) (sess : Remote)
    (orderId : Z) (w : World) : option ((Network_Vlan * option error) * World) :=
  match WaitForState fuel (vlanStateConf sess orderId) latency w with
  | None => None
  | Some ((pendingResult, err), w') =>
      match err with
      | Some e => Some ((zeroVlan, Some e), w')
      | None =>
          match pendingResult with
          | Some result => Some ((result, None), w')
          | None =>
              Some ((zeroVlan,
                     Some (ErrorString ("Cannot find vlan with order id '" +:+
                                        Itoa orderId +:+ "'"))), w')
          end
      end
  end.

(** The two pollers as one loop with two configurations. *)
Definition awaitOrder (site : PollSite) (fuel : nat) (latency : nat -> Duration)
    (remote : Remote) (orderId : Z) (w : World)
  : option ((Network_Vlan * option error) * World) :=
  match WaitForState fuel (siteConf site remote orderId) latency w with
  | None => None
  | Some ((pendingResult, err), w') =>
      match err with
      | Some e => Some ((zeroVlan, Some e), w')
      | None =>
          match pendingResult with
          | Some result => Some ((result, None), w')
          | None =>
              Some ((zeroVlan,
                     Some (ErrorString (siteCannotFind site +:+ Itoa orderId +:+ "'"))), w')
          end
      end
  end.

Definition pollerOf (p : Poller)
  : nat -> (nat -> Duration) -> Remote -> Z -> World
    -> option ((Network_Vlan * option error) * World) :=
  match p with
  | FirewallPoller => findDedicatedFirewallByOrderId
  | VlanPoller => findVlanByOrderId
  end.

(** A listing that answers at once. *)
Definition instant : nat -> Duration := fun _ => 0.

(** The pause before the request with index [n], when the pause before
    the request with index 0 is [wait]. *)
Fixpoint waitAfter (minTimeout wait : Duration) (n : nat) : Duration :=
  match n with
  | O => wait
  | S n' => waitAfter minTimeout (nextWait minTimeout wait) n'
  end.

(** The pauses before the first [n] requests, added up. *)
Fixpoint waited (minTimeout wait : Duration) (n : nat) : Duration :=
  match n with
  | O => 0
  | S n' => wait + waited minTimeout (nextWait minTimeout wait) n'
  end.

(** When the request with index [n] is sent, counted from the start of the
    wait, with a listing that answers at once. *)
Definition tickTime (conf : StateChangeConf) (n : nat) : Duration :=
  Delay conf + waited (MinTimeout conf) 0 (S n).

End Library.

(** ** resourceIBMNetworkVlanCreate with the order built and the resource read back *)

Module VlanProvision.
Import Sl.

(** The services behind [sess] and [meta]: the catalogue look-ups of
    [buildVlanProductOrderContainer], the product order service, the
    account listing of the poll, and the VLAN service. The log of a run
    lists the calls to the VLAN service. *)
Record Services : Type := {
  catalogue : VlanOrder.Catalogue;
  PlaceOrder : VlanCreate.Container -> VlanCreate.Receipt * option error;
  account : Remote;
  vlans : VlanResource.Services
}.

(** The fields of [d] that [buildVlanProductOrderContainer] reads. *)
Definition orderData (d : VlanResource.State) : VlanOrder.OrderData :=
  {| VlanOrder.router_hostname := VlanResource.router_hostname d;
     VlanOrder.type := VlanResource.type d;
     VlanOrder.datacenter := VlanResource.datacenter d;
     VlanOrder.subnet_size := VlanResource.subnet_size d |}.

(** [d.SetId] *)
Definition SetId (text : string) (d : VlanResource.State) : VlanResource.State :=
  {| VlanResource.resourceId := text;
     VlanResource.id := VlanResource.id d;
     VlanResource.vlan_number := VlanResource.vlan_number d;
     VlanResource.child_resource_count := VlanResource.child_resource_count d;
     VlanResource.name := VlanResource.name d;
     VlanResource.router_hostname := VlanResource.router_hostname d;
     VlanResource.type := VlanResource.type d;
     VlanResource.datacenter := VlanResource.datacenter d;
     VlanResource.softlayer_managed := VlanResource.softlayer_managed d;
     VlanResource.subnets := VlanResource.subnets d;
     VlanResource.subnet_size := VlanResource.subnet_size d;
     VlanResource.tags := VlanResource.tags d |}.

(** [tagsText] is what [getTags(d)] yields. *)
Definition resourceIBMNetworkVlanCreate (fuel : nat) (Quote : string -> string)
    (svc : Services) (tagsText : string) (d : VlanResource.State)
  : Eff (VlanResource.State * option error) :=
  let router := VlanResource.router_hostname d in
  let name := VlanResource.name d in
  let vlanType := VlanResource.type d in
  if VlanCreate.routerMismatch vlanType router then
    mret (d, Some (ErrorString
      ("Error creating vlan: mismatch between vlan_type '" +:+ vlanType +:+
       "' and router_hostname '" +:+ router +:+ "'")))
  else
    built ← pure (VlanOrder.buildVlanProductOrderContainer (orderData d) (catalogue svc)
                    VlanCreate.AdditionalServicesNetworkVlanPackageType);
    built ←
      match built.2 with
      | Some _ =>
          pure (VlanOrder.buildVlanProductOrderContainer (orderData d) (catalogue svc)
                  VlanCreate.AdditionalServicesPackageType)
      | None => mret built
      end;
    match built.2 with
    | Some _ => mret (d, Some (ErrorString ("Error creating vlan: " +:+ verb_s built.2)))
    | None =>
        let '(receipt, err) := PlaceOrder svc built.1 in
        match err with
        | Some _ =>
            mret (d, Some (ErrorString ("Error during creation of vlan: " +:+ verb_s err)))
        | None =>
            orderId ← pure (VlanCreate.deref (VlanCreate.OrderId receipt));
            match findVlanByOrderId fuel (account svc) orderId epoch with
            | None => pure Unfinished
            | Some ((vlan, err), _) =>
                (* [err] is overwritten or dropped below, never tested *)
                edited ←
                  (if (0 <? String.length name)%nat then
                     vlanId ← pure (VlanCreate.deref (Id vlan));
                     failed ← call (VlanEditObject vlanId name)
                                (VlanResource.EditObject (vlans svc) vlanId name);
                     mret (toError <$> failed)
                   else mret None);
                match edited with
                | Some e =>
                    mret (d, Some (ErrorString ("Error updating vlan: " +:+ verb_s (Some e))))
                | None =>
                    idForState ← pure (VlanCreate.deref (Id vlan));
                    let d := SetId (Itoa idForState) d in
                    vlanId ← pure (VlanCreate.deref (Id vlan));
                    tagged ←
                      (if negb (String.eqb tagsText "")
                       then VlanResource.setVlanTags (vlans svc) vlanId tagsText
                       else mret None);
                    match tagged with
                    | Some e => mret (d, Some e)
                    | None => VlanResource.resourceIBMNetworkVlanRead Quote (vlans svc) d
                    end
                end
            end
        end
    end.

End VlanProvision.

(** ** More sample inputs *)

Module Sample2.

(** A decoder that knows three texts: two arrays that differ in order
    only, and an array whose one element has an array for a key. *)
Definition orderDecoder : Suppress.Decoder := fun text =>
  if String.eqb text "[{a:3},{b:2}]" then
    ([Suppress.element (Suppress.Str "a") (Suppress.Str "3");
      Suppress.element (Suppress.Str "b") (Suppress.Str "2")], None)
  else if String.eqb text "[{b:2},{a:3}]" then
    ([Suppress.element (Suppress.Str "b") (Suppress.Str "2");
      Suppress.element (Suppress.Str "a") (Suppress.Str "3")], None)
  else if String.eqb text "[{[]:1}]" then
    ([Suppress.element (Suppress.Composite "[]") (Suppress.Str "1")], None)
  else ([], Some (ErrorString "invalid character")).

(** The first package look-up fails, the second and everything after it
    work; the poll finds VLAN 8 on the third tick. *)
Definition secondChance : VlanCreate.Session :=
  {| VlanCreate.orderContainer := fun _ packageType =>
       if String.eqb packageType VlanCreate.AdditionalServicesNetworkVlanPackageType
       then (Sample.container, Some (RemoteError "package not found"))
       else (Sample.container, None);
     VlanCreate.PlaceOrder := fun _ => ({| VlanCreate.OrderId := Some 41 |}, None);
     VlanCreate.account := Sample.afterTwo (exactlyOne Sample.vlan8);
     VlanCreate.EditObject := fun _ _ => None;
     VlanCreate.SetTags := fun _ _ => None;
     VlanCreate.readBack := fun _ => Returned None |}.

(** A catalogue in which the subnet item for 64 addresses is listed
    before the one for 4. *)
Definition products : list VlanOrder.Product_Item :=
  [ {| VlanOrder.KeyName := Some "PRIVATE_NETWORK_VLAN"; VlanOrder.Prices := [Some 2018] |};
    {| VlanOrder.KeyName := Some "64_STATIC_PUBLIC_IP_ADDRESSES"; VlanOrder.Prices := [Some 1081] |};
    {| VlanOrder.KeyName := Some "4_STATIC_PUBLIC_IP_ADDRESSES"; VlanOrder.Prices := [Some 1080] |} ].

Definition catalogue : VlanOrder.Catalogue :=
  {| VlanOrder.GetDatacenterByName := fun _ => (Some 1441195, None);
     VlanOrder.GetPackageByType := fun _ => (Some 0, None);
     VlanOrder.GetPackageProducts := fun _ => (products, None);
     VlanOrder.GetRouterByName := fun _ => (Some 77, None) |}.

(** The same catalogue with one more item, which has no key name. *)
Definition brokenCatalogue : VlanOrder.Catalogue :=
  {| VlanOrder.GetDatacenterByName := fun _ => (Some 1441195, None);
     VlanOrder.GetPackageByType := fun _ => (Some 0, None);
     VlanOrder.GetPackageProducts := fun _ =>
       ((products ++ [ {| VlanOrder.KeyName := None; VlanOrder.Prices := [] |} ])%list, None);
     VlanOrder.GetRouterByName := fun _ => (Some 77, None) |}.

Definition fourAddresses : VlanOrder.OrderData :=
  {| VlanOrder.router_hostname := ""; VlanOrder.type := "PRIVATE";
     VlanOrder.datacenter := "dal09"; VlanOrder.subnet_size := 4 |}.

Definition noDatacenter : VlanOrder.OrderData :=
  {| VlanOrder.router_hostname := ""; VlanOrder.type := "PRIVATE";
     VlanOrder.datacenter := ""; VlanOrder.subnet_size := 4 |}.

(** [strconv.Quote] on plain texts: the text between two quotation marks. *)
Definition quote (s : string) : string :=
  String (Ascii.ascii_of_nat 34) (s +:+ String (Ascii.ascii_of_nat 34) "").

Definition vlan1234 : VlanResource.Vlan :=
  {| VlanResource.Id := Some 1234;
     VlanResource.VlanNumber := Some 815;
     VlanResource.GuestNetworkComponentCount := Some 0;
     VlanResource.Name := None;
     VlanResource.PrimaryRouter :=
       Some {| VlanResource.Hostname := Some "bcr01a.dal09";
               VlanResource.Datacenter := Some (Some "dal09") |};
     VlanResource.BillingItem := Some tt;
     VlanResource.Subnets :=
       [ {| VlanResource.NetworkIdentifier := Some "10.0.0.0";
            VlanResource.Cidr := Some 29;
            VlanResource.SubnetType := Some "PRIMARY" |} ];
     VlanResource.TagReferences := [] |}.

(** VLAN 1234 exists and has billing item 99, whose cancellation the
    service answers with [false]; every other VLAN is unknown. *)
Definition vlanServices : VlanResource.Services :=
  {| VlanResource.GetObject := fun id _ =>
       if (id =? 1234)%Z then (vlan1234, None)
       else (vlan1234, Some (Sl.ApiError 404 "SoftLayer_Exception_ObjectNotFound"));
     VlanResource.GetBillingItem := fun id =>
       if (id =? 1234)%Z then (Some 99, None) else (None, None);
     VlanResource.EditObject := fun _ _ => None;
     VlanResource.SetTags := fun _ _ => None;
     VlanResource.CancelService := fun _ => (false, None) |}.

Definition vlanState (idText : string) : VlanResource.State :=
  {| VlanResource.resourceId := idText;
     VlanResource.id := 0; VlanResource.vlan_number := 0;
     VlanResource.child_resource_count := 0; VlanResource.name := "";
     VlanResource.router_hostname := ""; VlanResource.type := "";
     VlanResource.datacenter := ""; VlanResource.softlayer_managed := false;
     VlanResource.subnets := []; VlanResource.subnet_size := 0;
     VlanResource.tags := [] |}.

Definition firewall7 : FirewallResource.Firewall :=
  {| FirewallResource.NetworkVlan :=
       Some {| FirewallResource.Id := Some 1234;
               FirewallResource.HighAvailabilityFirewallFlag := Some false |};
     FirewallResource.TagReferences := [] |}.

(** Firewall 0 has billing item 55, firewall 7 has billing item 99; the
    service confirms every cancellation. The catalogue holds one dedicated
    firewall item; the order is accepted and never completes. *)
Definition firewallServices : FirewallResource.Services :=
  {| FirewallResource.GetObject := fun id _ =>
       if (id =? 7)%Z then (firewall7, None)
       else (firewall7, Some (Sl.ApiError 404 "SoftLayer_Exception_ObjectNotFound"));
     FirewallResource.GetBillingItem := fun id =>
       if (id =? 0)%Z then (Some 55, None)
       else if (id =? 7)%Z then (Some 99, None) else (None, None);
     FirewallResource.CancelService := fun _ => (true, None);
     FirewallResource.SetTags := fun _ _ => None;
     FirewallResource.GetPackageByType := fun _ => (Some 863, None);
     FirewallResource.GetPackageProducts := fun _ =>
       ([ {| VlanOrder.KeyName := Some "HARDWARE_FIREWALL_DEDICATED";
             VlanOrder.Prices := [Some 21514] |} ], None);
     FirewallResource.PlaceOrder := fun _ => ({| VlanCreate.OrderId := Some 41 |}, None);
     FirewallResource.account := Sample.never;
     FirewallResource.firewallOf := fun _ => None;
     FirewallResource.haFlagOf := fun _ => None |}.

Definition firewallState (idText : string) : FirewallResource.State :=
  {| FirewallResource.resourceId := idText; FirewallResource.ha_enabled := false;
     FirewallResource.public_vlan_id := 1234; FirewallResource.tags := [] |}.


(** The catalogue and the VLAN service as above; the order is accepted
    and the poll finds the VLAN with the given id on the third tick. *)
Definition provision (polled : Z) : VlanProvision.Services :=
  {| VlanProvision.catalogue := catalogue;
     VlanProvision.PlaceOrder := fun _ => ({| VlanCreate.OrderId := Some 41 |}, None);
     VlanProvision.account := Sample.afterTwo (exactlyOne {| Id := Some polled; Name := None |});
     VlanProvision.vlans := vlanServices |}.

(** The configuration of a private VLAN named backend with four
    addresses in dal09. *)
Definition backend : VlanResource.State :=
  {| VlanResource.resourceId := "";
     VlanResource.id := 0; VlanResource.vlan_number := 0;
     VlanResource.child_resource_count := 0; VlanResource.name := "backend";
     VlanResource.router_hostname := ""; VlanResource.type := "PRIVATE";
     VlanResource.datacenter := "dal09"; VlanResource.softlayer_managed := false;
     VlanResource.subnets := []; VlanResource.subnet_size := 4;
     VlanResource.tags := [] |}.

(** What the create handler hands back for [backend] when the poll finds
    VLAN 1234: the fields as the read took them from [vlan1234]. *)
Definition provisioned : VlanResource.State :=
  {| VlanResource.resourceId := "1234";
     VlanResource.id := 1234; VlanResource.vlan_number := 815;
     VlanResource.child_resource_count := 0; VlanResource.name := "";
     VlanResource.router_hostname := "bcr01a.dal09"; VlanResource.type := "PRIVATE";
     VlanResource.datacenter := "dal09"; VlanResource.softlayer_managed := false;
     VlanResource.subnets := [("10.0.0.0/29", "PRIMARY")]; VlanResource.subnet_size := 8;
     VlanResource.tags := [] |}.

End Sample2.

(** * Properties *)

(** ** The wait loop *)

Lemma pollerOf_awaitOrder (p : Poller) : pollerOf p = awaitOrder (siteOf p).
Proof. destruct p; reflexivity. Qed.

Lemma confOf_siteConf (p : Poller) (remote : Remote) (orderId : Z) :
  confOf p remote orderId = siteConf (siteOf p) remote orderId.
Proof. destruct p; reflexivity. Qed.

(** More fuel never changes an answer already reached. *)
Lemma waitLoop_more_fuel (conf : StateChangeConf) (deadline : Duration) :
  forall (fuel fuel' : nat) (w : World) r,
    (fuel <= fuel')%nat ->
    waitLoop fuel conf deadline w = Some r ->
    waitLoop fuel' conf deadline w = Some r.
Proof.
  induction fuel as [|fuel IH]; intros fuel' w r Hle Hrun; [discriminate|].
  destruct fuel' as [|fuel']; [lia|].
  simpl in *.
  destruct (Refresh conf w) as [[[result state] err] w1].
  destruct err; [assumption|].
  destruct (inStates state (Target conf)); [assumption|].
  destruct (deadline <=? _)%Z; [assumption|].
  apply IH; [lia|assumption].
Qed.

Lemma awaitOrder_more_fuel (site : PollSite) (remote : Remote) (orderId : Z) :
  forall (fuel fuel' : nat) (w : World) r,
    (fuel <= fuel')%nat ->
    awaitOrder site fuel remote orderId w = Some r ->
    awaitOrder site fuel' remote orderId w = Some r.
Proof.
  intros fuel fuel' w r Hle. unfold awaitOrder, WaitForState.
  destruct (waitLoop fuel _ _ _) as [r0|] eqn:Hrun; [|discriminate].
  rewrite (waitLoop_more_fuel _ _ _ _ _ _ Hle Hrun). trivial.
Qed.

Section Ticks.

Variable site : PollSite.
Variable remote : Remote.
Variable orderId : Z.

Let conf := siteConf site remote orderId.
Let req := siteRequest site orderId.


Lemma tick_timeout (fuel : nat) (deadline : Duration) (w : World) :
  remote req (calls w) = noneYet ->
  deadline <= now w + siteMinTimeout site ->
  waitLoop (S fuel) conf deadline w
  = Some ((None, Some TimeoutError), sleep (siteMinTimeout site) (ticked w)).
Proof.
  intros Hnone Hle. simpl. unfold siteRefresh, GetNetworkVlans.
  fold req. rewrite Hnone. simpl.
  destruct (Z.leb_spec deadline (now w + siteMinTimeout site)); [reflexivity|lia].
Qed.

Lemma tick_one (fuel : nat) (deadline : Duration) (w : World) (v : Network_Vlan) :
  remote req (calls w) = exactlyOne v ->
  waitLoop (S fuel) conf deadline w = Some ((Some v, None), ticked w).
Proof.
  intros Hone. simpl. unfold siteRefresh, GetNetworkVlans.
  fold req. rewrite Hone. reflexivity.
Qed.




End Ticks.

(** ** The pollers, tick by tick *)

Section Await.

Variable site : PollSite.
Variable remote : Remote.
Variable orderId : Z.

Let conf := siteConf site remote orderId.
Let req := siteRequest site orderId.

Hypothesis interval_nonneg : 0 <= siteMinTimeout site.




End Await.

(** ** The two call sites *)

Lemma site_interval_pos (p : Poller) : 0 < siteMinTimeout (siteOf p).
Proof. destruct p; reflexivity. Qed.

(** A remote scripted by a list of answers; once the list is used up it
    keeps giving the last answer [rest]. *)
Example scripted_remote :
  let remote : Remote := fun _ k => nth k [noneYet; noneYet] (exactlyOne {| Id := Some 8; Name := None |}) in
  findVlanByOrderId 3 remote 41 epoch
  = Some (({| Id := Some 8; Name := None |}, None), {| now := 11 * Second; calls := 3 |}).
Proof. reflexivity. Qed.





(** ** The pollers over the wait of the library *)

Lemma library_pollerOf_awaitOrder (p : Poller) :
  Library.pollerOf p = Library.awaitOrder (siteOf p).
Proof. destruct p; reflexivity. Qed.



(** The pauses are never negative, so the requests come in order. *)
Lemma nextWait_nonneg (minTimeout wait : Duration) :
  0 <= minTimeout -> 0 <= wait -> 0 <= Library.nextWait minTimeout wait.
Proof.
  intros Hmin Hwait. unfold Library.nextWait.
  destruct (wait =? 0)%Z; destruct (_ <? minTimeout)%Z; try assumption;
    destruct (10 * Second <? _)%Z; try (vm_compute; discriminate); lia.
Qed.

Lemma waitAfter_nonneg (minTimeout : Duration) :
  0 <= minTimeout ->
  forall (n : nat) (wait : Duration), 0 <= wait -> 0 <= Library.waitAfter minTimeout wait n.
Proof.
  intros Hmin. induction n as [|n IH]; intros wait Hwait; [exact Hwait|].
  simpl. apply IH. apply nextWait_nonneg; assumption.
Qed.

Lemma waited_snoc (minTimeout : Duration) :
  forall (n : nat) (wait : Duration),
    Library.waited minTimeout wait (S n)
    = Library.waited minTimeout wait n + Library.waitAfter minTimeout wait n.
Proof.
  induction n as [|n IH]; intros wait.
  - simpl. lia.
  - change (Library.waited minTimeout wait (S (S n)))
      with (wait + Library.waited minTimeout (Library.nextWait minTimeout wait) (S n)).
    rewrite IH. simpl. lia.
Qed.

Lemma waited_mono (minTimeout wait : Duration) (j n : nat) :
  0 <= minTimeout -> 0 <= wait -> (j <= n)%nat ->
  Library.waited minTimeout wait j <= Library.waited minTimeout wait n.
Proof.
  intros Hmin Hwait Hle. induction Hle as [|n Hle IH]; [lia|].
  rewrite waited_snoc.
  pose proof (waitAfter_nonneg minTimeout Hmin n wait Hwait). lia.
Qed.

Section LibraryTicks.

Variable site : PollSite.
Variable remote : Remote.
Variable orderId : Z.

Let conf := siteConf site remote orderId.
Let req := siteRequest site orderId.
Let m := siteMinTimeout site.

Lemma library_tick_pending (fuel : nat) (deadline wait : Duration) (notfoundTick : nat)
    (w : World) :
  remote req (calls w) = noneYet ->
  now w + wait < deadline ->
  (notfoundTick < Library.NotFoundChecks)%nat ->
  Library.waitLoop (S fuel) conf Library.instant deadline wait notfoundTick w
  = Library.waitLoop fuel conf Library.instant deadline (Library.nextWait m wait)
      (S notfoundTick) {| now := now w + wait; calls := S (calls w) |}.
Proof.
  intros Hnone Hearly Hfew. cbn [Library.waitLoop sleep now calls].
  destruct (Z.leb_spec deadline (now w + wait)); [lia|].
  cbn [conf siteConf Refresh siteRefresh GetNetworkVlans sleep now calls].
  fold req. rewrite Hnone. cbn [noneYet length Nat.eqb Library.instant sleep now calls].
  rewrite Z.add_0_r.
  destruct (Z.ltb_spec (now w + wait) deadline); [|lia].
  cbn [Library.judge].
  destruct (Nat.ltb_spec Library.NotFoundChecks (S notfoundTick)); [lia|].
  unfold conf, m, sleep, Library.instant. cbn [siteConf Target MinTimeout length Nat.eqb now calls].
  rewrite Z.add_0_r. reflexivity.
Qed.

Lemma library_tick_gives_up (fuel : nat) (deadline wait : Duration) (w : World) :
  remote req (calls w) = noneYet ->
  now w + wait < deadline ->
  Library.waitLoop (S fuel) conf Library.instant deadline wait Library.NotFoundChecks w
  = Some ((None, Some (Library.notFoundError (S Library.NotFoundChecks))),
          {| now := now w + wait; calls := S (calls w) |}).
Proof.
  intros Hnone Hearly. cbn [Library.waitLoop sleep now calls].
  destruct (Z.leb_spec deadline (now w + wait)); [lia|].
  cbn [conf siteConf Refresh siteRefresh GetNetworkVlans sleep now calls].
  fold req. rewrite Hnone. cbn [noneYet length Nat.eqb Library.instant sleep now calls].
  rewrite Z.add_0_r.
  destruct (Z.ltb_spec (now w + wait) deadline); [|lia].
  unfold conf, sleep, Library.instant. cbn. rewrite ?Z.add_0_r. reflexivity.
Qed.


Lemma library_tick_many (fuel : nat) (deadline wait : Duration) (notfoundTick : nat)
    (w : World) (vlans : list Network_Vlan) :
  remote req (calls w) = (vlans, None) ->
  (1 < length vlans)%nat ->
  now w + wait < deadline ->
  Library.waitLoop (S fuel) conf Library.instant deadline wait notfoundTick w
  = Some ((None, Some (ErrorString (siteExpectedOne site +:+ "%!s(<nil>)"))),
          {| now := now w + wait; calls := S (calls w) |}).
Proof.
  intros Hmany Hlen Hearly. cbn [Library.waitLoop sleep now calls].
  destruct (Z.leb_spec deadline (now w + wait)); [lia|].
  cbn [conf siteConf Refresh siteRefresh GetNetworkVlans sleep now calls].
  fold req. rewrite Hmany.
  destruct vlans as [|v1 [|v2 vlans]]; simpl in Hlen; try lia.
  cbn [length Nat.eqb Library.instant sleep now calls].
  rewrite Z.add_0_r.
  destruct (Z.ltb_spec (now w + wait) deadline); [|lia].
  unfold conf, sleep, Library.instant. cbn. rewrite ?Z.add_0_r. reflexivity.
Qed.

Lemma library_tick_failed (fuel : nat) (deadline wait : Duration) (notfoundTick : nat)
    (w : World) (vlans : list Network_Vlan) (e : error) :
  remote req (calls w) = (vlans, Some e) ->
  now w + wait < deadline ->
  Library.waitLoop (S fuel) conf Library.instant deadline wait notfoundTick w
  = Some ((Some zeroVlan, Some e), {| now := now w + wait; calls := S (calls w) |}).
Proof.
  intros Hfail Hearly. cbn [Library.waitLoop sleep now calls].
  destruct (Z.leb_spec deadline (now w + wait)); [lia|].
  cbn [conf siteConf Refresh siteRefresh GetNetworkVlans sleep now calls].
  fold req. rewrite Hfail. cbn [Library.instant sleep now calls].
  rewrite Z.add_0_r.
  destruct (Z.ltb_spec (now w + wait) deadline); [|lia].
  unfold conf, sleep, Library.instant. cbn. rewrite ?Z.add_0_r. reflexivity.
Qed.

(** [n] empty answers, each before the deadline and within the tolerated
    count, bring the loop to the request with index [n]. *)
Lemma library_pending_prefix (deadline : Duration) :
  forall (n fuel : nat) (wait : Duration) (notfoundTick : nat) (w : World),
    (forall k, (k < n)%nat -> remote req (calls w + k)%nat = noneYet) ->
    (forall j, (1 <= j <= n)%nat -> now w + Library.waited m wait j < deadline) ->
    (notfoundTick + n <= Library.NotFoundChecks)%nat ->
    Library.waitLoop (n + fuel) conf Library.instant deadline wait notfoundTick w
    = Library.waitLoop fuel conf Library.instant deadline (Library.waitAfter m wait n)
        (notfoundTick + n)
        {| now := now w + Library.waited m wait n; calls := (calls w + n)%nat |}.
Proof.
  induction n as [|n IH]; intros fuel wait notfoundTick w Hnone Hearly Hfew.
  - destruct w as [t c]. simpl. rewrite Z.add_0_r, !Nat.add_0_r. reflexivity.
  - change (S n + fuel)%nat with (S (n + fuel)).
    rewrite library_tick_pending.
    + rewrite IH.
      * cbn [now calls Library.waitAfter Library.waited].
        f_equal; [lia|]. f_equal; lia.
      * intros k Hk. cbn [calls]. rewrite <- (Hnone (S k)) by lia. f_equal. lia.
      * intros j Hj. cbn [now].
        specialize (Hearly (S j) ltac:(lia)). cbn [Library.waited] in Hearly. lia.
      * lia.
    + rewrite <- (Nat.add_0_r (calls w)). apply Hnone. lia.
    + specialize (Hearly 1%nat ltac:(lia)). cbn [Library.waited] in Hearly. lia.
    + lia.
Qed.

Hypothesis interval_nonneg : 0 <= siteMinTimeout site.

(** The wait reaches the request with index [N] when the requests before
    it found nothing, they are within the tolerated count, and the request
    is due before the timeout. *)
Lemma library_reaches_tick (N fuel : nat) :
  (forall k, (k < N)%nat -> remote req k = noneYet) ->
  (N <= Library.NotFoundChecks)%nat ->
  Library.tickTime conf N < siteTimeout site ->
  Library.WaitForState (N + fuel) conf Library.instant epoch
  = Library.waitLoop fuel conf Library.instant (siteTimeout site)
      (Library.waitAfter m 0 N) N
      {| now := siteDelay site + Library.waited m 0 N; calls := N |}.
Proof.
  intros Hnone Hfew Hearly.
  unfold Library.tickTime in Hearly. cbn [conf siteConf Delay MinTimeout] in Hearly. fold m in Hearly.
  assert (Hmono : forall j, (j <= S N)%nat ->
            siteDelay site + Library.waited m 0 j < siteTimeout site).
  { intros j Hj. pose proof (waited_mono m 0 j (S N) interval_nonneg (Z.le_refl 0) Hj). lia. }
  unfold Library.WaitForState. cbn [conf siteConf Timeout Delay epoch sleep now calls].
  rewrite !Z.add_0_l.
  destruct (Z.leb_spec (siteTimeout site) (siteDelay site)) as [Hlate|_].
  { specialize (Hmono 0%nat ltac:(lia)). simpl in Hmono. lia. }
  fold conf. rewrite library_pending_prefix.
  - reflexivity.
  - intros k Hk. cbn [calls]. apply Hnone. exact Hk.
  - intros j Hj. cbn [now]. apply Hmono. lia.
  - lia.
Qed.


(** On a tick the wait gets to, an ambiguous listing and a failed listing
    end the poll at once, as they do in the loop of the spec. *)
Lemma library_await_many (N fuel : nat) (vlans : list Network_Vlan) :
  (forall k, (k < N)%nat -> remote req k = noneYet) ->
  remote req N = (vlans, None) ->
  (1 < length vlans)%nat ->
  (N <= Library.NotFoundChecks)%nat ->
  Library.tickTime conf N < siteTimeout site ->
  (N < fuel)%nat ->
  Library.awaitOrder site fuel Library.instant remote orderId epoch
  = Some ((zeroVlan, Some (ErrorString (siteExpectedOne site +:+ "%!s(<nil>)"))),
          {| now := Library.tickTime conf N; calls := S N |}).
Proof.
  intros Hnone Hmany Hlen Hfew Hearly Hfuel. unfold Library.awaitOrder.
  replace fuel with (N + S (fuel - S N))%nat by lia.
  fold conf. rewrite library_reaches_tick by assumption.
  assert (Htick : siteDelay site + Library.waited m 0 N + Library.waitAfter m 0 N
                  = Library.tickTime conf N).
  { unfold Library.tickTime. cbn [conf siteConf Delay MinTimeout]. fold m.
    rewrite (waited_snoc m N 0). lia. }
  unfold conf. rewrite (library_tick_many _ _ _ _ _ vlans).
  - cbn [now calls]. fold conf. fold m. rewrite Htick. reflexivity.
  - exact Hmany.
  - exact Hlen.
  - cbn [now]. fold m. fold conf in Htick. rewrite Htick. exact Hearly.
Qed.

Lemma library_await_failed (N fuel : nat) (vlans : list Network_Vlan) (e : error) :
  (forall k, (k < N)%nat -> remote req k = noneYet) ->
  remote req N = (vlans, Some e) ->
  (N <= Library.NotFoundChecks)%nat ->
  Library.tickTime conf N < siteTimeout site ->
  (N < fuel)%nat ->
  Library.awaitOrder site fuel Library.instant remote orderId epoch
  = Some ((zeroVlan, Some e), {| now := Library.tickTime conf N; calls := S N |}).
Proof.
  intros Hnone Hfail Hfew Hearly Hfuel. unfold Library.awaitOrder.
  replace fuel with (N + S (fuel - S N))%nat by lia.
  fold conf. rewrite library_reaches_tick by assumption.
  assert (Htick : siteDelay site + Library.waited m 0 N + Library.waitAfter m 0 N
                  = Library.tickTime conf N).
  { unfold Library.tickTime. cbn [conf siteConf Delay MinTimeout]. fold m.
    rewrite (waited_snoc m N 0). lia. }
  unfold conf. rewrite (library_tick_failed _ _ _ _ _ vlans e).
  - cbn [now calls]. fold conf. fold m. rewrite Htick. reflexivity.
  - exact Hfail.
  - cbn [now]. fold m. fold conf in Htick. rewrite Htick. exact Hearly.
Qed.

Lemma library_await_gives_up (fuel : nat) :
  (forall k, remote req k = noneYet) ->
  Library.tickTime conf Library.NotFoundChecks < siteTimeout site ->
  (Library.NotFoundChecks < fuel)%nat ->
  Library.awaitOrder site fuel Library.instant remote orderId epoch
  = Some ((zeroVlan, Some (Library.notFoundError (S Library.NotFoundChecks))),
          {| now := Library.tickTime conf Library.NotFoundChecks;
             calls := S Library.NotFoundChecks |}).
Proof.
  intros Hnone Hearly Hfuel. unfold Library.awaitOrder.
  replace fuel with (Library.NotFoundChecks + S (fuel - S Library.NotFoundChecks))%nat by lia.
  fold conf. rewrite library_reaches_tick; [|intros; apply Hnone|lia|exact Hearly].
  assert (Htick : siteDelay site + Library.waited m 0 Library.NotFoundChecks
                  + Library.waitAfter m 0 Library.NotFoundChecks
                  = Library.tickTime conf Library.NotFoundChecks).
  { unfold Library.tickTime. cbn [conf siteConf Delay MinTimeout]. fold m.
    rewrite (waited_snoc m Library.NotFoundChecks 0). lia. }
  unfold conf. rewrite library_tick_gives_up.
  - cbn [now calls]. fold conf. fold m. rewrite Htick. reflexivity.
  - apply Hnone.
  - cbn [now]. fold m. fold conf in Htick. rewrite Htick. exact Hearly.
Qed.

End LibraryTicks.

(** At both call sites the request that follows the last tolerated empty
    answer is sent at most 210 s after the start, long before the
    timeout. *)
Lemma site_last_tick (p : Poller) (remote : Remote) (orderId : Z) :
  Library.tickTime (siteConf (siteOf p) remote orderId) Library.NotFoundChecks
  = match p with
    | FirewallPoller => 210 * Second
    | VlanPoller => 194 * Second
    end.
Proof. destruct p; vm_compute; reflexivity. Qed.

Lemma site_gives_up_early (p : Poller) (remote : Remote) (orderId : Z) :
  Library.tickTime (siteConf (siteOf p) remote orderId) Library.NotFoundChecks
  < siteTimeout (siteOf p) - siteMinTimeout (siteOf p).
Proof. rewrite site_last_tick. destruct p; vm_compute; reflexivity. Qed.


(** The pauses of the two call sites: 10 s throughout for the firewall;
    3 s, 6 s and then 10 s for the VLAN. *)
Example library_pauses :
  map (Library.waitAfter (10 * Second) 0) [1; 2; 3; 4]%nat
  = [10 * Second; 10 * Second; 10 * Second; 10 * Second]
  /\ map (Library.waitAfter (3 * Second) 0) [1; 2; 3; 4]%nat
     = [3 * Second; 6 * Second; 10 * Second; 10 * Second]
  /\ map (Library.tickTime (vlanStateConf Sample.never 41)) [0; 1; 2; 3]%nat
     = [5 * Second; 8 * Second; 14 * Second; 24 * Second].
Proof. vm_compute. repeat split. Qed.

(** A request under way at the timeout: an answer within the grace period
    still ends the wait with its result, a later one is not waited for. *)
Example library_grace_period :
  Library.findVlanByOrderId 3 (fun _ => 600 * Second) (fun _ _ => exactlyOne Sample.vlan8)
    41 epoch
  = Some ((Sample.vlan8, None), {| now := 605 * Second; calls := 1 |})
  /\ Library.findVlanByOrderId 3 (fun _ => 700 * Second) (fun _ _ => exactlyOne Sample.vlan8)
       41 epoch
     = Some ((zeroVlan, Some TimeoutError), {| now := 630 * Second; calls := 1 |}).
Proof. vm_compute. split; reflexivity. Qed.




(** C3 (what the code does). For both pollers, with a listing that
    answers at once: when every tick lists nothing, the poller does not
    run up to the timeout. It ends on the 21st listing call with the
    not-found error of the wait, after 210 s for the firewall and 194 s for
    the VLAN, which is earlier than [Timeout - MinTimeout]; the error is
    not the timeout error. *)
Theorem poller_gives_up_before_timeout
    (p : Poller) (remote : Remote) (orderId : Z) (fuel : nat) :
  (forall k, remote (requestOf p orderId) k = noneYet) ->
  (Library.NotFoundChecks < fuel)%nat ->
  exists w',
    Library.pollerOf p fuel Library.instant remote orderId epoch
    = Some ((zeroVlan, Some (ErrorString "couldn't find resource (21 retries)")), w')
    /\ ErrorString "couldn't find resource (21 retries)" <> TimeoutError
    /\ calls w' = 21%nat
    /\ now w' = match p with
                | FirewallPoller => 210 * Second
                | VlanPoller => 194 * Second
                end
    /\ now w' < Timeout (confOf p remote orderId) - MinTimeout (confOf p remote orderId).
Proof.
  intros Hnone Hfuel.
  rewrite library_pollerOf_awaitOrder. rewrite confOf_siteConf in *.
  pose proof (site_gives_up_early p remote orderId) as Hearly.
  eexists. split.
  - rewrite (library_await_gives_up (siteOf p) remote orderId
               (Z.lt_le_incl _ _ (site_interval_pos p)) fuel Hnone); [reflexivity| |exact Hfuel].
    pose proof (site_interval_pos p). lia.
  - split; [discriminate|]. cbn [now calls]. split; [reflexivity|].
    split; [destruct p; vm_compute; reflexivity|].
    cbn [siteConf Timeout MinTimeout]. exact Hearly.
Qed.

Lemma poller_gives_up_before_timeout_witness :
  exists w',
    Library.pollerOf VlanPoller 21 Library.instant Sample.never 41 epoch
    = Some ((zeroVlan, Some (ErrorString "couldn't find resource (21 retries)")), w')
    /\ ErrorString "couldn't find resource (21 retries)" <> TimeoutError
    /\ calls w' = 21%nat
    /\ now w' = 194 * Second
    /\ now w' < Timeout (confOf VlanPoller Sample.never 41)
                - MinTimeout (confOf VlanPoller Sample.never 41).
Proof.
  apply (poller_gives_up_before_timeout VlanPoller Sample.never 41 21).
  - intros k. reflexivity.
  - unfold Library.NotFoundChecks. lia.
Defined.

(** ** The closures and the call sites *)

(** C6. In both [Refresh] closures the more-than-one branch is taken only
    with a nil [err] (a non-nil [err] has already been returned as it is),
    so the message it formats always ends in the text of a nil operand. *)
Theorem ambiguous_message_formats_nil (p : Poller) (vlans : list Network_Vlan) :
  (1 < length vlans)%nat ->
  refreshOf p (vlans, None) = (None, "", Some (ambiguousError p))
  /\ (forall e, refreshOf p (vlans, Some e) = (Some zeroVlan, "", Some e))
  /\ Error (ambiguousError p)
     = match p with
       | FirewallPoller => "Expected one dedicated firewall: %!s(<nil>)"
       | VlanPoller => "Expected one vlan: %!s(<nil>)"
       end.
Proof.
  intros Hlen.
  destruct vlans as [|v1 [|v2 vlans]]; simpl in Hlen; try lia.
  destruct p; repeat split.
Qed.

Lemma ambiguous_message_formats_nil_witness :
  refreshOf VlanPoller ([Sample.vlan8; Sample.vlan9], None)
  = (None, "", Some (ErrorString "Expected one vlan: %!s(<nil>)")).
Proof.
  apply (ambiguous_message_formats_nil VlanPoller [Sample.vlan8; Sample.vlan9]).
  simpl. lia.
Defined.

(** C9. Both pollers are the one loop [awaitOrder] at their own site, and
    the sites carry the stated filter paths and timings. *)
Theorem call_sites_differ_in_configuration :
  (forall p, pollerOf p = awaitOrder (siteOf p))
  /\ (forall p remote orderId, confOf p remote orderId = siteConf (siteOf p) remote orderId)
  /\ sitePath firewallSite = "networkVlans.networkVlanFirewall.billingItem.orderItem.order.id"
  /\ sitePath vlanSite = "networkVlans.billingItem.orderItem.order.id"
  /\ (forall remote orderId,
        Timeout (firewallStateConf remote orderId) = 45 * Minute
        /\ Delay (firewallStateConf remote orderId) = 10 * Second
        /\ MinTimeout (firewallStateConf remote orderId) = 10 * Second
        /\ Timeout (vlanStateConf remote orderId) = 10 * Minute
        /\ Delay (vlanStateConf remote orderId) = 5 * Second
        /\ MinTimeout (vlanStateConf remote orderId) = 3 * Second).
Proof.
  split; [exact pollerOf_awaitOrder|].
  split; [exact confOf_siteConf|].
  repeat split.
Qed.

(** ** The create handler after a failed poll *)

(** A poller that reports an error hands back the zero VLAN. *)
Lemma poll_failure_gives_zero_vlan (site : PollSite) (fuel : nat) (remote : Remote)
    (orderId : Z) (w w' : World) (v : Network_Vlan) (e : error) :
  awaitOrder site fuel remote orderId w = Some ((v, Some e), w') -> v = zeroVlan.
Proof.
  unfold awaitOrder.
  destruct (WaitForState _ _ _) as [[[pendingResult [e0|]] w0]|]; [| |discriminate].
  - intros [= <- _ _]. reflexivity.
  - destruct pendingResult; intros [= <- _ _] || intros [= _ ? _]; try discriminate; reflexivity.
Qed.

(** C10. Once the order is placed, a poll that ends in an error (whatever
    the error) makes the create handler panic on [*vlan.Id]: the error is
    not returned, the handler does not return at all. *)
Theorem create_panics_after_failed_poll
    (fuel : nat) (sess : VlanCreate.Session) (d : VlanCreate.ResourceData)
    (first container : VlanCreate.Container) (firstErr : option error)
    (receipt : VlanCreate.Receipt) (orderId : Z)
    (v : Network_Vlan) (e : error) (w' : World) :
  VlanCreate.routerMismatch (VlanCreate.type d) (VlanCreate.router_hostname d) = false ->
  VlanCreate.orderContainer sess d VlanCreate.AdditionalServicesNetworkVlanPackageType
  = (first, firstErr) ->
  match firstErr with
  | None => container = first
  | Some _ =>
      VlanCreate.orderContainer sess d VlanCreate.AdditionalServicesPackageType = (container, None)
  end ->
  VlanCreate.PlaceOrder sess container = (receipt, None) ->
  VlanCreate.OrderId receipt = Some orderId ->
  findVlanByOrderId fuel (VlanCreate.account sess) orderId epoch = Some ((v, Some e), w') ->
  VlanCreate.resourceIBMNetworkVlanCreate fuel sess d = Panicked nilDereference.
Proof.
  intros Hguard Hfirst Hcontainer Hplace Horder Hpoll.
  pose proof (poll_failure_gives_zero_vlan vlanSite _ _ _ _ _ _ _ Hpoll) as ->.
  unfold VlanCreate.resourceIBMNetworkVlanCreate.
  rewrite Hguard, Hfirst.
  destruct firstErr as [e0|].
  - rewrite Hcontainer, Hplace, Horder. cbn [VlanCreate.deref mbind VlanCreate.run_bind].
    rewrite Hpoll. cbn [Id zeroVlan].
    destruct (0 <? String.length (VlanCreate.name d))%nat; reflexivity.
  - subst first. rewrite Hplace, Horder. cbn [VlanCreate.deref mbind VlanCreate.run_bind].
    rewrite Hpoll. cbn [Id zeroVlan].
    destruct (0 <? String.length (VlanCreate.name d))%nat; reflexivity.
Qed.

Lemma create_panics_after_failed_poll_witness :
  VlanCreate.resourceIBMNetworkVlanCreate 199 Sample.stalled Sample.config
  = Panicked nilDereference.
Proof.
  apply (create_panics_after_failed_poll 199 Sample.stalled Sample.config
           Sample.container Sample.container None {| VlanCreate.OrderId := Some 41 |} 41
           zeroVlan TimeoutError {| now := 602 * Second; calls := 199 |}).
  - reflexivity.
  - reflexivity.
  - reflexivity.
  - reflexivity.
  - reflexivity.
  - vm_compute. reflexivity.
Defined.

(** ** Qualified names *)

Module WhiskFacts.
Import Whisk.

Example parse_three : NewQualifiedName "ns/pkg/action"
  = Ok {| namespace := "ns"; packageName := "pkg"; entityName := "action" |}.
Proof. reflexivity. Qed.

Example parse_one : NewQualifiedName "action"
  = Ok {| namespace := ""; packageName := ""; entityName := "action" |}.
Proof. reflexivity. Qed.

Example parse_empty : NewQualifiedName "" = MalformedIdentifier "".
Proof. reflexivity. Qed.

Example parse_trailing_slash : NewQualifiedName "a/" = MalformedIdentifier "a/".
Proof. reflexivity. Qed.

Example parse_four : NewQualifiedName "a/b/c/d" = MalformedIdentifier "a/b/c/d".
Proof. reflexivity. Qed.

Example format_adds_slash :
  format {| namespace := "ns"; packageName := ""; entityName := "action" |} = "/ns/action".
Proof. reflexivity. Qed.

Lemma append_cons (ch : ascii) (a b : string) : String ch a +:+ b = String ch (a +:+ b).
Proof. reflexivity. Qed.

Lemma append_assoc (a b c : string) : (a +:+ b) +:+ c = a +:+ (b +:+ c).
Proof.
  induction a as [|ch a IH]; [reflexivity|].
  rewrite !append_cons, IH. reflexivity.
Qed.

Lemma Split_not_nil (s : string) : Split s <> [].
Proof.
  induction s as [|c s IH]; simpl; [discriminate|].
  destruct (Ascii.eqb c "/"); [discriminate|].
  destruct (Split s); discriminate.
Qed.

Lemma Split_noSlash (s : string) : Forall (fun segment => noSlash segment = true) (Split s).
Proof.
  induction s as [|c s IH]; simpl.
  - repeat constructor.
  - destruct (Ascii.eqb c "/") eqn:Hc.
    + constructor; [reflexivity|assumption].
    + destruct (Split s) as [|segment segments].
      * repeat constructor. simpl. rewrite Hc. reflexivity.
      * inversion IH as [|? ? Hseg Hsegs]; subst.
        constructor; [|assumption]. simpl. rewrite Hc, Hseg. reflexivity.
Qed.

Lemma Split_segment (segment : string) :
  noSlash segment = true -> Split segment = [segment].
Proof.
  induction segment as [|c s IH]; simpl; intros Hns; [reflexivity|].
  apply andb_prop in Hns as [Hc Hs].
  destruct (Ascii.eqb c "/"); [discriminate|].
  rewrite (IH Hs). reflexivity.
Qed.

Lemma Split_segment_slash (segment rest : string) :
  noSlash segment = true ->
  Split (segment +:+ "/" +:+ rest) = segment :: Split rest.
Proof.
  induction segment as [|c s IH]; intros Hns; [reflexivity|].
  rewrite append_cons. simpl in *.
  apply andb_prop in Hns as [Hc Hs].
  destruct (Ascii.eqb c "/"); [discriminate|].
  rewrite (IH Hs). reflexivity.
Qed.

Lemma kept_segments_are_names (raw : string) :
  Forall name (List.filter nonEmpty (dropLeadingEmpty (Split raw))).
Proof.
  assert (Hall : Forall (fun segment => noSlash segment = true)
                   (dropLeadingEmpty (Split raw))).
  { pose proof (Split_noSlash raw) as H. unfold dropLeadingEmpty.
    destruct (Split raw) as [|[|c s] rest]; [assumption| |assumption].
    inversion H; assumption. }
  apply Forall_forall. intros s Hs. apply list_elem_of_In, filter_In in Hs as [Hin Hne].
  split; [assumption|].
  rewrite Forall_forall in Hall. apply Hall, list_elem_of_In, Hin.
Qed.

Lemma parse_entity (e : string) :
  name e -> NewQualifiedName e = Ok {| namespace := ""; packageName := ""; entityName := e |}.
Proof.
  intros [Hne Hns]. unfold NewQualifiedName. rewrite (Split_segment e Hns).
  destruct e as [|c e]; [discriminate|].
  cbn [dropLeadingEmpty List.last List.filter]. rewrite Hne. reflexivity.
Qed.

Lemma parse_namespace_entity (ns e : string) :
  name ns -> name e ->
  NewQualifiedName ("/" +:+ ns +:+ "/" +:+ e)
  = Ok {| namespace := ns; packageName := ""; entityName := e |}.
Proof.
  intros [Hne1 Hns1] [Hne2 Hns2]. unfold NewQualifiedName.
  change ("/" +:+ ns +:+ "/" +:+ e) with ("" +:+ "/" +:+ (ns +:+ "/" +:+ e)).
  rewrite (Split_segment_slash "" _ eq_refl), (Split_segment_slash ns _ Hns1),
    (Split_segment e Hns2).
  cbn [dropLeadingEmpty List.last List.filter]. rewrite Hne1, Hne2. reflexivity.
Qed.

Lemma parse_namespace_package_entity (ns pkg e : string) :
  name ns -> name pkg -> name e ->
  NewQualifiedName ("/" +:+ ns +:+ "/" +:+ pkg +:+ "/" +:+ e)
  = Ok {| namespace := ns; packageName := pkg; entityName := e |}.
Proof.
  intros [Hne1 Hns1] [Hne2 Hns2] [Hne3 Hns3]. unfold NewQualifiedName.
  change ("/" +:+ ns +:+ "/" +:+ pkg +:+ "/" +:+ e)
    with ("" +:+ "/" +:+ (ns +:+ "/" +:+ (pkg +:+ "/" +:+ e))).
  rewrite (Split_segment_slash "" _ eq_refl), (Split_segment_slash ns _ Hns1),
    (Split_segment_slash pkg _ Hns2), (Split_segment e Hns3).
  cbn [dropLeadingEmpty List.last List.filter]. rewrite Hne1, Hne2, Hne3. reflexivity.
Qed.

(** C5. For every identifier the parser accepts, parsing the formatted
    result gives the same qualified name again. *)
Theorem parse_format_parse (raw : string) (qn : QualifiedName) :
  NewQualifiedName raw = Ok qn ->
  NewQualifiedName (format qn) = Ok qn.
Proof.
  intros Hparse. pose proof (kept_segments_are_names raw) as Hnames.
  unfold NewQualifiedName in Hparse.
  destruct (nonEmpty (List.last _ "")); [|discriminate].
  set (names := List.filter nonEmpty _) in Hparse.
  change (Forall name names) in Hnames. clearbody names.
  destruct names as [|a [|b [|c [|? ?]]]]; try discriminate;
    injection Hparse as <-; unfold format; cbn [namespace packageName entityName].
  - inversion Hnames; subst. apply parse_entity. assumption.
  - inversion Hnames as [|? ? Ha Hrest]; subst. inversion Hrest; subst.
    destruct Ha as [Hne Hns]. rewrite Hne. cbn [nonEmpty String.eqb negb].
    change ("" +:+ b) with b. rewrite !append_assoc.
    apply parse_namespace_entity; [split|]; assumption.
  - inversion Hnames as [|? ? Ha Hrest]; subst.
    inversion Hrest as [|? ? Hb Hrest']; subst. inversion Hrest'; subst.
    pose proof Ha as [Hne1 _]. pose proof Hb as [Hne2 _]. rewrite Hne1, Hne2.
    rewrite !append_assoc. apply parse_namespace_package_entity; assumption.
Qed.

Lemma parse_format_parse_witness :
  NewQualifiedName
    (format {| namespace := "ns"; packageName := ""; entityName := "action" |})
  = Ok {| namespace := "ns"; packageName := ""; entityName := "action" |}.
Proof.
  apply (parse_format_parse "ns/action"). reflexivity.
Defined.

End WhiskFacts.

(** ** The diff suppression *)

Module SuppressFacts.
Import Suppress.

Lemma rangeAssign_hashable (objs : list (gmap string any)) :
  forall acc, keysHashable objs -> rangeAssign objs acc = Returned (foldl assign acc objs).
Proof.
  induction objs as [|m rest IH]; intros acc Hkeys; simpl; [reflexivity|].
  inversion Hkeys as [|? ? Hm Hrest]; subst.
  rewrite Hm. apply IH. assumption.
Qed.

(** A key that cannot be hashed makes the loop panic. *)
Lemma rangeAssign_unhashable (m : gmap string any) (rest : list (gmap string any))
    (acc : gmap any any) :
  hashable (index m "key") = false -> rangeAssign (m :: rest) acc = Panicked unhashable.
Proof. intros Hm. simpl. rewrite Hm. reflexivity. Qed.

(** The map the loop builds holds, under each key, the value seen last. *)
Lemma lookup_foldl_assign (objs : list (gmap string any)) :
  forall (acc : gmap any any) (key : any),
    foldl assign acc objs !! key
    = match lastSeen objs key with
      | Some v => Some v
      | None => acc !! key
      end.
Proof.
  induction objs as [|m rest IH]; intros acc key; simpl; [reflexivity|].
  rewrite IH. destruct (lastSeen rest key); [reflexivity|].
  unfold assign. rewrite lookup_insert.
  destruct (decide (index m "key" = key)); reflexivity.
Qed.

Lemma DeepEqual_true (m1 m2 : gmap any any) : DeepEqual m1 m2 = true <-> m1 = m2.
Proof.
  unfold DeepEqual. rewrite andb_true_iff, bool_decide_eq_true, forallb_forall. split.
  - intros [Hsize Hall].
    apply map_subseteq_size_eq; [|lia].
    apply map_subseteq_spec. intros key v Hlook.
    specialize (Hall (key, v)). rewrite bool_decide_eq_true in Hall.
    apply Hall, list_elem_of_In, elem_of_map_to_list, Hlook.
  - intros <-. split; [reflexivity|].
    intros [key v] Hin. apply bool_decide_eq_true.
    apply list_elem_of_In, elem_of_map_to_list in Hin. exact Hin.
Qed.

(** Elements whose key is a string, the wire format of the spec, can all
    be hashed. *)
Lemma string_keys_hashable (objs : list (gmap string any)) :
  Forall (fun m => exists s, m !! "key" = Some (Str s)) objs -> keysHashable objs.
Proof.
  intros Hkeys. eapply Forall_impl; [exact Hkeys|].
  intros m [s Hs]. unfold index. rewrite Hs. reflexivity.
Qed.

(** C7. When both texts decode and every key can be hashed, the function
    returns, and it returns true exactly when the two arrays give the
    same last-seen value under every key. *)
Theorem suppress_compares_derived_mappings
    (Unmarshal : Decoder) (k old new : string) (oldObj newObj : list (gmap string any)) :
  snd (Unmarshal "") <> None ->
  Unmarshal old = (oldObj, None) ->
  Unmarshal new = (newObj, None) ->
  keysHashable oldObj ->
  keysHashable newObj ->
  exists b,
    suppressEquivalentJSON Unmarshal k old new = Returned b
    /\ (b = true <-> forall key, lastSeen oldObj key = lastSeen newObj key).
Proof.
  intros Hempty Hold Hnew Hkeys1 Hkeys2.
  exists (DeepEqual (foldl assign ∅ oldObj) (foldl assign ∅ newObj)). split.
  - unfold suppressEquivalentJSON.
    destruct (String.eqb_spec old "") as [->|_].
    + rewrite Hold in Hempty. contradiction.
    + rewrite Hold, Hnew, !rangeAssign_hashable by assumption. reflexivity.
  - rewrite DeepEqual_true. split.
    + intros Heq key.
      pose proof (lookup_foldl_assign oldObj ∅ key) as H1.
      pose proof (lookup_foldl_assign newObj ∅ key) as H2.
      rewrite Heq, H2, lookup_empty in H1.
      destruct (lastSeen oldObj key), (lastSeen newObj key); congruence.
    + intros Hsame. apply map_eq. intros key.
      rewrite !lookup_foldl_assign, Hsame. reflexivity.
Qed.

Lemma suppress_compares_derived_mappings_witness :
  exists b,
    suppressEquivalentJSON toyDecoder "parameters" "[{a:1},{b:2},{a:3}]" "[{b:2},{a:3}]"
    = Returned b
    /\ (b = true <->
        forall key,
          lastSeen [element (Str "a") (Float64 1); element (Str "b") (Float64 (1 + 1));
                    element (Str "a") (Float64 (1 + 1 + 1))] key
          = lastSeen [element (Str "b") (Float64 (1 + 1));
                      element (Str "a") (Float64 (1 + 1 + 1))] key).
Proof.
  apply (suppress_compares_derived_mappings toyDecoder "parameters").
  - simpl. discriminate.
  - reflexivity.
  - reflexivity.
  - repeat constructor.
  - repeat constructor.
Defined.

(** With pairwise different keys the order of the elements is of no
    account. *)
Lemma lastSeen_permutation (objs1 objs2 : list (gmap string any)) :
  Permutation objs1 objs2 ->
  NoDup (map (fun m => index m "key") objs1) ->
  forall key, lastSeen objs1 key = lastSeen objs2 key.
Proof.
  induction 1 as [|m l1 l2 Hperm IH|m1 m2 l|l1 l2 l3 Hp12 IH12 Hp23 IH23];
    intros Hnodup key.
  - reflexivity.
  - simpl. inversion Hnodup; subst. rewrite IH by assumption. reflexivity.
  - simpl. destruct (lastSeen l key); [reflexivity|].
    inversion Hnodup as [|? ? Hnotin _]; subst.
    destruct (decide (index m1 "key" = key)) as [H1|H1],
             (decide (index m2 "key" = key)) as [H2|H2]; try reflexivity.
    exfalso. apply Hnotin. rewrite H1, <- H2. left.
  - rewrite IH12 by assumption. apply IH23.
    assert (Hkeys : map (fun m => index m "key") l1 ≡ₚ map (fun m => index m "key") l2)
      by (apply Permutation_map; assumption).
    rewrite <- Hkeys. assumption.
Qed.

Example suppress_reordered :
  suppressEquivalentJSON toyDecoder "parameters" "[{a:1},{b:2},{a:3}]" "[{b:2},{a:3}]"
  = Returned true.
Proof. vm_compute. reflexivity. Qed.

(** C8. When either text fails to decode, the function returns false: it
    neither panics nor hands the decoding error on. *)
Theorem suppress_fails_open (Unmarshal : Decoder) (k old new : string) :
  snd (Unmarshal old) <> None \/ snd (Unmarshal new) <> None ->
  suppressEquivalentJSON Unmarshal k old new = Returned false.
Proof.
  intros Hfail. unfold suppressEquivalentJSON.
  destruct (String.eqb old ""); [reflexivity|].
  destruct (Unmarshal old) as [oldObj [e1|]]; [reflexivity|].
  destruct (Unmarshal new) as [newObj [e2|]]; [reflexivity|].
  destruct Hfail as [H|H]; contradiction.
Qed.

Lemma suppress_fails_open_witness :
  suppressEquivalentJSON toyDecoder "parameters" "[{b:2},{a:3}]" "[{b:2},{a:3}" = Returned false.
Proof.
  apply suppress_fails_open. right. simpl. discriminate.
Defined.

End SuppressFacts.


(** * Further properties *)

(** ** The diff suppression as a relation on texts *)

Module SuppressLaws.
Import Suppress.

Lemma DeepEqual_sym (m1 m2 : gmap any any) : DeepEqual m1 m2 = DeepEqual m2 m1.
Proof.
  apply eq_true_iff_eq. rewrite !SuppressFacts.DeepEqual_true. split; congruence.
Qed.

(** The loop either builds a map or stops on a key it cannot hash. *)
Lemma rangeAssign_outcome (objs : list (gmap string any)) :
  forall acc,
    (exists m, rangeAssign objs acc = Returned m)
    \/ rangeAssign objs acc = Panicked unhashable.
Proof.
  induction objs as [|m rest IH]; intros acc; simpl.
  - left. eexists. reflexivity.
  - destruct (hashable (index m "key")); [apply IH|right; reflexivity].
Qed.

Lemma rangeAssign_returned (objs : list (gmap string any)) :
  forall acc m, rangeAssign objs acc = Returned m -> keysHashable objs.
Proof.
  induction objs as [|o rest IH]; intros acc m Hrun; [constructor|].
  simpl in Hrun. destruct (hashable (index o "key")) eqn:Hkey; [|discriminate].
  constructor; [exact Hkey|]. eapply IH. exact Hrun.
Qed.

Lemma rangeAssign_panics (objs : list (gmap string any)) :
  forall acc,
    Exists (fun m => hashable (index m "key") = false) objs ->
    rangeAssign objs acc = Panicked unhashable.
Proof.
  induction objs as [|o rest IH]; intros acc Hex; [inversion Hex|].
  simpl. destruct (hashable (index o "key")) eqn:Hkey; [|reflexivity].
  apply IH. inversion Hex as [? ? Hhere|? ? Hthere]; subst; [congruence|assumption].
Qed.

(** What a true answer tells: both texts decoded, every key was hashed and
    the two maps are equal. *)
Lemma suppressed_inv (Unmarshal : Decoder) (k old new : string) :
  suppressEquivalentJSON Unmarshal k old new = Returned true ->
  old <> ""
  /\ exists oldObj newObj,
       Unmarshal old = (oldObj, None) /\ Unmarshal new = (newObj, None)
       /\ keysHashable oldObj /\ keysHashable newObj
       /\ foldl assign ∅ oldObj = foldl assign ∅ newObj.
Proof.
  unfold suppressEquivalentJSON.
  destruct (String.eqb_spec old "") as [->|Hne]; [discriminate|].
  destruct (Unmarshal old) as [oldObj [e1|]]; [discriminate|].
  destruct (Unmarshal new) as [newObj [e2|]]; [discriminate|].
  destruct (rangeAssign oldObj ∅) as [oldm| |] eqn:Hold; try discriminate.
  destruct (rangeAssign newObj ∅) as [newm| |] eqn:Hnew; try discriminate.
  intros [= Heq]. apply SuppressFacts.DeepEqual_true in Heq.
  pose proof (rangeAssign_returned _ _ _ Hold) as Hk1.
  pose proof (rangeAssign_returned _ _ _ Hnew) as Hk2.
  rewrite SuppressFacts.rangeAssign_hashable in Hold, Hnew by assumption.
  injection Hold as <-. injection Hnew as <-.
  split; [assumption|]. exists oldObj, newObj. repeat split; assumption.
Qed.

(** X1. Swapping two non-empty texts never changes the outcome, whether
    that is true, false or the panic on an unhashable key. *)
Theorem suppress_symmetric (Unmarshal : Decoder) (k old new : string) :
  old <> "" -> new <> "" ->
  suppressEquivalentJSON Unmarshal k old new = suppressEquivalentJSON Unmarshal k new old.
Proof.
  intros Hold Hnew. unfold suppressEquivalentJSON.
  destruct (String.eqb_spec old "") as [?|_]; [contradiction|].
  destruct (String.eqb_spec new "") as [?|_]; [contradiction|].
  destruct (Unmarshal old) as [oldObj [e1|]], (Unmarshal new) as [newObj [e2|]];
    try reflexivity.
  destruct (rangeAssign_outcome oldObj ∅) as [[oldm ->]| ->],
           (rangeAssign_outcome newObj ∅) as [[newm ->]| ->]; try reflexivity.
  rewrite DeepEqual_sym. reflexivity.
Qed.

Lemma suppress_symmetric_witness :
  suppressEquivalentJSON toyDecoder "parameters" "[{a:1},{b:2},{a:3}]" "[{b:2},{a:3}]"
  = suppressEquivalentJSON toyDecoder "parameters" "[{b:2},{a:3}]" "[{a:1},{b:2},{a:3}]".
Proof.
  apply suppress_symmetric; discriminate.
Defined.

(** X2. A text that decodes into elements with hashable keys is
    equivalent to itself. *)
Theorem suppress_reflexive (Unmarshal : Decoder) (k old : string)
    (objs : list (gmap string any)) :
  old <> "" ->
  Unmarshal old = (objs, None) ->
  keysHashable objs ->
  suppressEquivalentJSON Unmarshal k old old = Returned true.
Proof.
  intros Hne Hold Hkeys. unfold suppressEquivalentJSON.
  destruct (String.eqb_spec old "") as [?|_]; [contradiction|].
  rewrite Hold, SuppressFacts.rangeAssign_hashable by assumption.
  f_equal. apply SuppressFacts.DeepEqual_true. reflexivity.
Qed.

Lemma suppress_reflexive_witness :
  suppressEquivalentJSON toyDecoder "parameters" "[{b:2},{a:3}]" "[{b:2},{a:3}]"
  = Returned true.
Proof.
  apply (suppress_reflexive toyDecoder "parameters" "[{b:2},{a:3}]"
           [element (Str "b") (Float64 (1 + 1)); element (Str "a") (Float64 (1 + 1 + 1))]).
  - discriminate.
  - reflexivity.
  - repeat constructor.
Defined.

(** X3. Two texts suppressed against a common third one are suppressed
    against each other. *)
Theorem suppress_transitive (Unmarshal : Decoder) (k a b c : string) :
  suppressEquivalentJSON Unmarshal k a b = Returned true ->
  suppressEquivalentJSON Unmarshal k b c = Returned true ->
  suppressEquivalentJSON Unmarshal k a c = Returned true.
Proof.
  intros Hab Hbc.
  apply suppressed_inv in Hab as (Ha & objA & objB & HdA & HdB & HkA & _ & Hmap1).
  apply suppressed_inv in Hbc as (_ & objB' & objC & HdB' & HdC & _ & HkC & Hmap2).
  rewrite HdB in HdB'. injection HdB' as <-.
  unfold suppressEquivalentJSON.
  destruct (String.eqb_spec a "") as [?|_]; [contradiction|].
  rewrite HdA, HdC, !SuppressFacts.rangeAssign_hashable by assumption.
  f_equal. apply SuppressFacts.DeepEqual_true. congruence.
Qed.

Lemma suppress_transitive_witness :
  suppressEquivalentJSON toyDecoder "parameters" "[{a:1},{b:2},{a:3}]" "[{a:1},{b:2},{a:3}]"
  = Returned true.
Proof.
  apply (suppress_transitive toyDecoder "parameters" _ "[{b:2},{a:3}]"); vm_compute; reflexivity.
Defined.

(** X4. With pairwise different hashable keys, rearranging the elements
    of the array is always suppressed. *)
Theorem suppress_ignores_order (Unmarshal : Decoder) (k old new : string)
    (oldObj newObj : list (gmap string any)) :
  old <> "" ->
  Unmarshal old = (oldObj, None) ->
  Unmarshal new = (newObj, None) ->
  Permutation oldObj newObj ->
  keysHashable oldObj ->
  NoDup (map (fun m => index m "key") oldObj) ->
  suppressEquivalentJSON Unmarshal k old new = Returned true.
Proof.
  intros Hne Hold Hnew Hperm Hkeys Hnodup.
  assert (Hkeys' : keysHashable newObj) by (unfold keysHashable; rewrite <- Hperm; exact Hkeys).
  unfold suppressEquivalentJSON.
  destruct (String.eqb_spec old "") as [?|_]; [contradiction|].
  rewrite Hold, Hnew, !SuppressFacts.rangeAssign_hashable by assumption.
  f_equal. apply SuppressFacts.DeepEqual_true, map_eq. intros key.
  rewrite !SuppressFacts.lookup_foldl_assign.
  rewrite (SuppressFacts.lastSeen_permutation oldObj newObj Hperm Hnodup key). reflexivity.
Qed.

Lemma suppress_ignores_order_witness :
  suppressEquivalentJSON Sample2.orderDecoder "annotations" "[{a:3},{b:2}]" "[{b:2},{a:3}]"
  = Returned true.
Proof.
  apply (suppress_ignores_order Sample2.orderDecoder "annotations" _ _
           [element (Str "a") (Str "3"); element (Str "b") (Str "2")]
           [element (Str "b") (Str "2"); element (Str "a") (Str "3")]).
  - discriminate.
  - reflexivity.
  - reflexivity.
  - apply perm_swap.
  - repeat constructor.
  - simpl. apply NoDup_cons_2; [|apply NoDup_cons_2; [|apply NoDup_nil_2]].
    + intros Hin. inversion Hin as [|? ? ? Hin']; subst. inversion Hin'.
    + intros Hin. inversion Hin.
Defined.

(** X5. When both texts decode and some element of either array has a key
    that is itself an array or an object, the function panics. *)
Theorem suppress_panics_on_unhashable_key (Unmarshal : Decoder) (k old new : string)
    (oldObj newObj : list (gmap string any)) :
  old <> "" ->
  Unmarshal old = (oldObj, None) ->
  Unmarshal new = (newObj, None) ->
  Exists (fun m => hashable (index m "key") = false) (oldObj ++ newObj) ->
  suppressEquivalentJSON Unmarshal k old new = Panicked unhashable.
Proof.
  intros Hne Hold Hnew Hex. unfold suppressEquivalentJSON.
  destruct (String.eqb_spec old "") as [?|_]; [contradiction|].
  rewrite Hold, Hnew.
  apply Exists_app in Hex as [Hex|Hex].
  - rewrite rangeAssign_panics by assumption. reflexivity.
  - rewrite (rangeAssign_panics newObj) by assumption.
    destruct (rangeAssign_outcome oldObj ∅) as [[oldm ->]| ->]; reflexivity.
Qed.

Lemma suppress_panics_on_unhashable_key_witness :
  suppressEquivalentJSON Sample2.orderDecoder "annotations" "[{a:3},{b:2}]" "[{[]:1}]"
  = Panicked unhashable.
Proof.
  apply (suppress_panics_on_unhashable_key Sample2.orderDecoder "annotations" _ _
           [element (Str "a") (Str "3"); element (Str "b") (Str "2")]
           [element (Composite "[]") (Str "1")]).
  - discriminate.
  - reflexivity.
  - reflexivity.
  - apply Exists_app. right. constructor. reflexivity.
Defined.

End SuppressLaws.

(** ** The pollers on every input *)

(** X6. In both [Refresh] closures: the state is complete exactly when the
    listing gave one row without error, and then the result is that row; it
    is pending exactly when the listing gave no row without error, and then
    the result is nil; an error comes back exactly when the listing failed
    or gave several rows. *)
Theorem refresh_classifies (p : Poller) (vlans : list Network_Vlan) (err : option error) :
  ((refreshOf p (vlans, err)).1.2 = "complete" <-> (err = None /\ length vlans = 1%nat))
  /\ ((refreshOf p (vlans, err)).1.2 = "pending" <-> (err = None /\ vlans = []))
  /\ ((refreshOf p (vlans, err)).2 <> None <-> (err <> None \/ (1 < length vlans)%nat))
  /\ ((refreshOf p (vlans, err)).1.2 = "complete" ->
      exists v, vlans = [v] /\ refreshOf p (vlans, err) = (Some v, "complete", None))
  /\ ((refreshOf p (vlans, err)).1.2 = "pending" ->
      refreshOf p (vlans, err) = (None, "pending", None)).
Proof.
  assert (Hcases :
    refreshOf p (vlans, err)
    = match err with
      | Some e => (Some zeroVlan, "", Some e)
      | None =>
          match vlans with
          | [] => (None, "pending", None)
          | [v] => (Some v, "complete", None)
          | _ => (None, "", Some (ambiguousError p))
          end
      end).
  { destruct p, err as [e|], vlans as [|v1 [|v2 rest]]; reflexivity. }
  rewrite Hcases. clear Hcases.
  destruct err as [e|]; [|destruct vlans as [|v1 [|v2 rest]]]; cbn.
  all: split; [|split; [|split; [|split]]].
  all: try (intros H; discriminate H).
  all: try (split; [intros H; discriminate H|intros [H1 H2]; (discriminate || (simpl in *; lia))]).
  all: try (split; [intros _; (left; discriminate) || (right; simpl; lia)|intros _; discriminate]).
  all: try (split; [intros _; split; reflexivity|intros _; reflexivity]).
  all: try (split; [intros H; contradiction|intros [H|H]; [contradiction|simpl in H; lia]]).
  all: try reflexivity.
  all: try (intros _; eexists; split; reflexivity).
Qed.

(** X7. Whatever the listing does, a poller that reports an error hands
    back the zero VLAN, never a listed one. *)
Theorem poller_error_comes_with_zero_vlan
    (p : Poller) (fuel : nat) (remote : Remote) (orderId : Z) (w w' : World)
    (v : Network_Vlan) (e : error) :
  pollerOf p fuel remote orderId w = Some ((v, Some e), w') -> v = zeroVlan.
Proof.
  rewrite pollerOf_awaitOrder. unfold awaitOrder.
  destruct (WaitForState _ _ _) as [[[pendingResult [e0|]] w0]|]; [| |discriminate].
  - intros [= <- _ _]. reflexivity.
  - destruct pendingResult; [discriminate|]. intros [= <- _ _]. reflexivity.
Qed.

Lemma poller_error_comes_with_zero_vlan_witness :
  zeroVlan = zeroVlan.
Proof.
  apply (poller_error_comes_with_zero_vlan VlanPoller 3
           (Sample.afterTwo ([Sample.vlan8], Some (RemoteError "502 Bad Gateway"))) 41 epoch
           {| now := 11 * Second; calls := 3 |} zeroVlan (RemoteError "502 Bad Gateway")).
  reflexivity.
Defined.

Lemma wait_success_was_listed (site : PollSite) (remote : Remote) (orderId : Z)
    (deadline : Duration) :
  forall (fuel : nat) (w w' : World) (result : option Network_Vlan),
    waitLoop fuel (siteConf site remote orderId) deadline w = Some ((result, None), w') ->
    exists v, result = Some v
              /\ (0 < calls w')%nat
              /\ remote (siteRequest site orderId) (calls w' - 1)%nat = exactlyOne v.
Proof.
  induction fuel as [|fuel IH]; intros w w' result Hrun; [discriminate|].
  simpl in Hrun. unfold siteRefresh, GetNetworkVlans in Hrun.
  destruct (remote (siteRequest site orderId) (calls w)) as [vlans [e|]] eqn:Hanswer;
    [discriminate|].
  destruct vlans as [|v1 [|v2 rest]]; simpl in Hrun.
  - destruct (deadline <=? _)%Z; [discriminate|].
    apply IH in Hrun. exact Hrun.
  - injection Hrun as <- <-. exists v1. simpl. rewrite Nat.sub_0_r. auto with arith.
  - discriminate.
Qed.

(** X8. A poller returns a VLAN without error only if its last listing
    call listed exactly that VLAN. *)
Theorem poller_success_was_listed
    (p : Poller) (fuel : nat) (remote : Remote) (orderId : Z) (w w' : World)
    (v : Network_Vlan) :
  pollerOf p fuel remote orderId w = Some ((v, None), w') ->
  (0 < calls w')%nat
  /\ remote (requestOf p orderId) (calls w' - 1)%nat = exactlyOne v.
Proof.
  rewrite pollerOf_awaitOrder. unfold awaitOrder, WaitForState.
  destruct (waitLoop _ _ _ _) as [[[pendingResult [e0|]] w0]|] eqn:Hrun; try discriminate.
  apply wait_success_was_listed in Hrun as (v0 & -> & Hcalls & Hlisted).
  intros [= <- <-]. split; assumption.
Qed.

Lemma poller_success_was_listed_witness :
  (0 < 3)%nat
  /\ Sample.afterTwo (exactlyOne Sample.vlan9) (requestOf FirewallPoller 41) (3 - 1)%nat
     = exactlyOne Sample.vlan9.
Proof.
  apply (poller_success_was_listed FirewallPoller 3 (Sample.afterTwo (exactlyOne Sample.vlan9))
           41 epoch {| now := 30 * Second; calls := 3 |} Sample.vlan9).
  reflexivity.
Defined.

(** ** The VLAN create handler on every input *)

Module VlanCreateLaws.
Import VlanCreate.

(** X11. When the look-up of the first package type fails, the handler
    goes on exactly as if every look-up were answered like the one of the
    fall-back package type; the first error is not reported. *)
Theorem create_falls_back_to_second_package
    (fuel : nat) (sess : Session) (d : ResourceData) :
  (orderContainer sess d AdditionalServicesNetworkVlanPackageType).2 <> None ->
  resourceIBMNetworkVlanCreate fuel sess d
  = resourceIBMNetworkVlanCreate fuel (Derived.fallbackOnly sess) d.
Proof.
  intros Hfirst. unfold resourceIBMNetworkVlanCreate. cbn [Derived.fallbackOnly orderContainer
    PlaceOrder account EditObject SetTags readBack].
  destruct (routerMismatch _ _); [reflexivity|].
  destruct (orderContainer sess d AdditionalServicesNetworkVlanPackageType) as [c1 [e1|]];
    [|contradiction].
  destruct (orderContainer sess d AdditionalServicesPackageType) as [c2 [e2|]]; reflexivity.
Qed.

Lemma create_falls_back_to_second_package_witness :
  resourceIBMNetworkVlanCreate 3 Sample2.secondChance Sample.config
  = resourceIBMNetworkVlanCreate 3 (Derived.fallbackOnly Sample2.secondChance) Sample.config.
Proof.
  apply create_falls_back_to_second_package. simpl. discriminate.
Defined.

End VlanCreateLaws.
(** ** Building the VLAN order *)

Module VlanOrderLaws.
Import VlanOrder.

Lemma selectItems_returned (vlanKeyname subnetKeyname : string) :
  forall (productItems vlanItems subnetItems vs ss : list Product_Item),
    selectItems vlanKeyname subnetKeyname productItems vlanItems subnetItems
    = Returned (vs, ss) ->
    vs = (vlanItems
          ++ List.filter (passes (fun key => String.eqb key vlanKeyname)) productItems)%list
    /\ ss = (subnetItems
             ++ List.filter (passes (fun key => VlanCreate.Contains key subnetKeyname))
                  productItems)%list.
Proof.
  induction productItems as [|item rest IH]; intros vlanItems subnetItems vs ss Hrun.
  - simpl in Hrun. injection Hrun as <- <-. rewrite !app_nil_r. split; reflexivity.
  - simpl in Hrun.
    destruct (KeyName item) as [key|] eqn:Hkey; [|discriminate].
    cbn [VlanCreate.deref mbind VlanCreate.run_bind] in Hrun.
    apply IH in Hrun as [-> ->].
    cbn [List.filter]. unfold passes. rewrite Hkey.
    destruct (String.eqb key vlanKeyname), (VlanCreate.Contains key subnetKeyname);
      rewrite <- ?app_assoc; split; reflexivity.
Qed.

Lemma selectItems_panics (vlanKeyname subnetKeyname : string) :
  forall (productItems vlanItems subnetItems : list Product_Item),
    Exists (fun item => KeyName item = None) productItems ->
    selectItems vlanKeyname subnetKeyname productItems vlanItems subnetItems
    = Panicked nilDereference.
Proof.
  induction productItems as [|item rest IH]; intros vlanItems subnetItems Hex;
    [inversion Hex|].
  simpl. destruct (KeyName item) as [key|] eqn:Hkey; [|reflexivity].
  cbn [VlanCreate.deref mbind VlanCreate.run_bind]. apply IH.
  inversion Hex as [? ? Hhere|? ? Hthere]; subst; [congruence|assumption].
Qed.

Lemma first_filter {A : Type} (P : A -> bool) (l : list A) (x : A) :
  first (List.filter P l) = Returned x -> List.find P l = Some x.
Proof.
  induction l as [|a l IH]; simpl; [discriminate|].
  destruct (P a); simpl; [intros [= ->]; reflexivity|exact IH].
Qed.

Lemma first_head {A : Type} (l : list A) (x : A) : first l = Returned x -> head l = Some x.
Proof. destruct l; simpl; [discriminate|intros [= ->]; reflexivity]. Qed.

Lemma prefix_refl (s : string) : String.prefix s s = true.
Proof.
  induction s as [|c s IH]; simpl; [reflexivity|].
  destruct (ascii_dec c c); [exact IH|contradiction].
Qed.

(** A text contains each of its suffixes. *)
Lemma Contains_suffix (front key : string) : VlanCreate.Contains (front +:+ key) key = true.
Proof.
  unfold VlanCreate.Contains.
  induction front as [|c front IH].
  - change ("" +:+ key) with key. destruct key as [|k key]; [reflexivity|].
    cbn [String.index]. rewrite prefix_refl. reflexivity.
  - rewrite WhiskFacts.append_cons. cbn [String.index].
    destruct (String.prefix key _); [reflexivity|].
    destruct (String.index 0 key (front +:+ key)); [reflexivity|discriminate].
Qed.

(** X12. Every error return of the function carries the empty
    container. *)
Theorem order_error_carries_empty_container
    (d : OrderData) (sess : Catalogue) (packageType : string)
    (c : VlanCreate.Container) (e : error) :
  buildVlanProductOrderContainer d sess packageType = Returned (c, Some e) ->
  c = emptyContainer.
Proof.
  unfold buildVlanProductOrderContainer.
  destruct (String.eqb (datacenter d) ""); [intros [= <- _]; reflexivity|].
  destruct (GetDatacenterByName sess _) as [dc [e1|]]; [intros [= <- _]; reflexivity|].
  destruct (GetPackageByType sess _) as [pkg [e2|]]; [intros [= <- _]; reflexivity|].
  destruct pkg as [pkgId|]; [|discriminate]. cbn [VlanCreate.deref mbind VlanCreate.run_bind].
  destruct (GetPackageProducts sess pkgId) as [items [e3|]]; [intros [= <- _]; reflexivity|].
  destruct (selectItems _ _ _ _ _) as [[vs ss]| |]; cbn [mbind VlanCreate.run_bind];
    try discriminate.
  destruct (length vs =? 0)%nat; [intros [= <- _]; reflexivity|].
  destruct (length ss =? 0)%nat; [intros [= <- _]; reflexivity|].
  destruct dc as [dcId|]; [|discriminate]. cbn [VlanCreate.deref mbind VlanCreate.run_bind].
  destruct (first vs) as [vi| |]; cbn [mbind VlanCreate.run_bind]; try discriminate.
  destruct (first (Prices vi)) as [pv| |]; cbn [mbind VlanCreate.run_bind]; try discriminate.
  destruct (first ss) as [si| |]; cbn [mbind VlanCreate.run_bind]; try discriminate.
  destruct (first (Prices si)) as [ps| |]; cbn [mbind VlanCreate.run_bind]; try discriminate.
  destruct (0 <? String.length (router_hostname d))%nat; [|discriminate].
  destruct (GetRouterByName sess _) as [rt [e4|]]; [intros [= <- _]; reflexivity|discriminate].
Qed.

(** X13. A successful order carries the package id, the decimal id of the
    datacenter, and two prices: the first price of the first catalogue item
    whose key name is the VLAN key name, then the first price of the first
    item whose key name contains the subnet key name. The router id is set
    exactly when a router host name is configured. *)
Theorem order_takes_first_matching_items
    (d : OrderData) (sess : Catalogue) (packageType : string) (c : VlanCreate.Container) :
  buildVlanProductOrderContainer d sess packageType = Returned (c, None) ->
  exists dcId pkgId productItems vlanItem subnetItem vlanPrice subnetPrice,
    GetDatacenterByName sess (datacenter d) = (Some dcId, None)
    /\ GetPackageByType sess packageType = (Some pkgId, None)
    /\ GetPackageProducts sess pkgId = (productItems, None)
    /\ firstItem (fun key => String.eqb key (vlanKeynameOf d)) productItems = Some vlanItem
    /\ firstItem (fun key => VlanCreate.Contains key (subnetKeynameOf d)) productItems
       = Some subnetItem
    /\ head (Prices vlanItem) = Some vlanPrice
    /\ head (Prices subnetItem) = Some subnetPrice
    /\ VlanCreate.PackageId c = Some pkgId
    /\ VlanCreate.Location c = Some (Itoa dcId)
    /\ VlanCreate.Prices c = [vlanPrice; subnetPrice]
    /\ VlanCreate.RouterId c
       = (if (0 <? String.length (router_hostname d))%nat
          then (GetRouterByName sess (router_hostname d)).1 else None).
Proof.
  unfold buildVlanProductOrderContainer.
  destruct (String.eqb (datacenter d) ""); [discriminate|].
  destruct (GetDatacenterByName sess _) as [dc [e1|]]; [discriminate|].
  destruct (GetPackageByType sess _) as [pkg [e2|]]; [discriminate|].
  destruct pkg as [pkgId|]; [|discriminate]. cbn [VlanCreate.deref mbind VlanCreate.run_bind].
  destruct (GetPackageProducts sess pkgId) as [items [e3|]] eqn:Hitems; [discriminate|].
  destruct (selectItems _ _ _ _ _) as [[vs ss]| |] eqn:Hsel; cbn [mbind VlanCreate.run_bind];
    try discriminate.
  apply selectItems_returned in Hsel as [-> ->]. simpl app.
  destruct (length _ =? 0)%nat; [discriminate|].
  destruct (length _ =? 0)%nat; [discriminate|].
  destruct dc as [dcId|]; [|discriminate]. cbn [VlanCreate.deref mbind VlanCreate.run_bind].
  destruct (first (List.filter (passes (fun key => String.eqb key _)) items))
    as [vi| |] eqn:Hvi; cbn [mbind VlanCreate.run_bind]; try discriminate.
  destruct (first (Prices vi)) as [pv| |] eqn:Hpv; cbn [mbind VlanCreate.run_bind];
    try discriminate.
  destruct (first (List.filter (passes (fun key => VlanCreate.Contains key _)) items))
    as [si| |] eqn:Hsi; cbn [mbind VlanCreate.run_bind]; try discriminate.
  destruct (first (Prices si)) as [ps| |] eqn:Hps; cbn [mbind VlanCreate.run_bind];
    try discriminate.
  apply first_filter in Hvi, Hsi. apply first_head in Hpv, Hps.
  destruct (0 <? String.length (router_hostname d))%nat.
  - destruct (GetRouterByName sess _) as [rt [e4|]]; [discriminate|].
    intros [= <-]. exists dcId, pkgId, items, vi, si, pv, ps.
    rewrite Hitems. repeat split; assumption.
  - intros [= <-]. exists dcId, pkgId, items, vi, si, pv, ps.
    rewrite Hitems. repeat split; assumption.
Qed.

Lemma order_error_carries_empty_container_witness :
  emptyContainer = emptyContainer.
Proof.
  apply (order_error_carries_empty_container Sample2.noDatacenter Sample2.catalogue
           "ADDITIONAL_SERVICES" emptyContainer (ErrorString "datacenter name is empty.")).
  reflexivity.
Defined.

Lemma order_takes_first_matching_items_witness :
  exists dcId pkgId productItems vlanItem subnetItem vlanPrice subnetPrice,
    GetDatacenterByName Sample2.catalogue "dal09" = (Some dcId, None)
    /\ GetPackageByType Sample2.catalogue "ADDITIONAL_SERVICES" = (Some pkgId, None)
    /\ GetPackageProducts Sample2.catalogue pkgId = (productItems, None)
    /\ firstItem (fun key => String.eqb key (vlanKeynameOf Sample2.fourAddresses)) productItems
       = Some vlanItem
    /\ firstItem (fun key => VlanCreate.Contains key (subnetKeynameOf Sample2.fourAddresses))
         productItems = Some subnetItem
    /\ head (Prices vlanItem) = Some vlanPrice
    /\ head (Prices subnetItem) = Some subnetPrice
    /\ Some 0 = Some pkgId
    /\ Some "1441195" = Some (Itoa dcId)
    /\ [Some 2018; Some 1081] = [vlanPrice; subnetPrice]
    /\ None = (if (0 <? String.length "")%nat
               then (GetRouterByName Sample2.catalogue "").1 else None).
Proof.
  apply (order_takes_first_matching_items Sample2.fourAddresses Sample2.catalogue
           "ADDITIONAL_SERVICES"
           {| VlanCreate.PackageId := Some 0; VlanCreate.Location := Some "1441195";
              VlanCreate.Prices := [Some 2018; Some 1081]; VlanCreate.RouterId := None |}).
  vm_compute. reflexivity.
Defined.

Lemma selectItems_all_keys (vlanKeyname subnetKeyname : string) :
  forall (productItems vlanItems subnetItems : list Product_Item),
    Forall (fun item => KeyName item <> None) productItems ->
    selectItems vlanKeyname subnetKeyname productItems vlanItems subnetItems
    = Returned
        ((vlanItems
          ++ List.filter (passes (fun key => String.eqb key vlanKeyname)) productItems)%list,
         (subnetItems
          ++ List.filter (passes (fun key => VlanCreate.Contains key subnetKeyname))
               productItems)%list).
Proof.
  induction productItems as [|item rest IH]; intros vlanItems subnetItems Hkeys.
  - simpl. rewrite !app_nil_r. reflexivity.
  - inversion Hkeys as [|? ? Hitem Hrest]; subst. simpl.
    destruct (KeyName item) as [key|] eqn:Hkey; [|contradiction].
    cbn [VlanCreate.deref mbind VlanCreate.run_bind]. rewrite IH by assumption.
    unfold passes. rewrite Hkey.
    destruct (String.eqb key vlanKeyname), (VlanCreate.Contains key subnetKeyname);
      rewrite <- ?app_assoc; reflexivity.
Qed.

Lemma passes_key_name (test : string -> bool) (key : string) (prices : list (option Z)) :
  passes test {| KeyName := Some key; Prices := prices |} = test key.
Proof. reflexivity. Qed.

(** X14. The subnet item is matched by containment: when the catalogue
    lists, right after the VLAN item, an item whose key name merely ends
    in the subnet key name (as [64_STATIC_PUBLIC_IP_ADDRESSES] does for a
    subnet size of 4), the order carries the price of that item, whatever
    the catalogue lists after it. *)
Theorem order_matches_subnet_key_by_containment
    (d : OrderData) (sess : Catalogue) (packageType front : string) (dcId pkgId : Z)
    (vlanPrice subnetPrice : option Z) (rest : list Product_Item) :
  datacenter d <> "" ->
  router_hostname d = "" ->
  GetDatacenterByName sess (datacenter d) = (Some dcId, None) ->
  GetPackageByType sess packageType = (Some pkgId, None) ->
  GetPackageProducts sess pkgId
  = ({| KeyName := Some (vlanKeynameOf d); Prices := [vlanPrice] |}
     :: {| KeyName := Some (front +:+ subnetKeynameOf d); Prices := [subnetPrice] |}
     :: rest, None) ->
  Forall (fun item => KeyName item <> None) rest ->
  VlanCreate.Contains (vlanKeynameOf d) (subnetKeynameOf d) = false ->
  buildVlanProductOrderContainer d sess packageType
  = Returned ({| VlanCreate.PackageId := Some pkgId;
                 VlanCreate.Location := Some (Itoa dcId);
                 VlanCreate.Prices := [vlanPrice; subnetPrice];
                 VlanCreate.RouterId := None |}, None).
Proof.
  intros Hdc Hrouter Hlocation Hpackage Hitems Hkeys Hdistinct.
  unfold buildVlanProductOrderContainer.
  destruct (String.eqb_spec (datacenter d) "") as [?|_]; [contradiction|].
  rewrite Hlocation, Hpackage. cbn [VlanCreate.deref mbind VlanCreate.run_bind].
  rewrite Hitems, Hrouter.
  rewrite selectItems_all_keys
    by (constructor; [discriminate|constructor; [discriminate|assumption]]).
  fold (vlanKeynameOf d). fold (subnetKeynameOf d).
  cbn [List.filter app]. rewrite !passes_key_name. cbv beta.
  rewrite String.eqb_refl, Hdistinct, Contains_suffix.
  destruct (String.eqb (front +:+ subnetKeynameOf d) (vlanKeynameOf d)); reflexivity.
Qed.

Lemma order_matches_subnet_key_by_containment_witness :
  buildVlanProductOrderContainer Sample2.fourAddresses Sample2.catalogue "ADDITIONAL_SERVICES"
  = Returned ({| VlanCreate.PackageId := Some 0;
                 VlanCreate.Location := Some (Itoa 1441195);
                 VlanCreate.Prices := [Some 2018; Some 1081];
                 VlanCreate.RouterId := None |}, None).
Proof.
  apply (order_matches_subnet_key_by_containment Sample2.fourAddresses Sample2.catalogue
           "ADDITIONAL_SERVICES" "6" 1441195 0 (Some 2018) (Some 1081)
           [ {| KeyName := Some "4_STATIC_PUBLIC_IP_ADDRESSES"; Prices := [Some 1080] |} ]).
  - discriminate.
  - reflexivity.
  - reflexivity.
  - reflexivity.
  - reflexivity.
  - repeat constructor. discriminate.
  - reflexivity.
Defined.

(** X15. One catalogue item without a key name makes the function panic,
    whatever else the catalogue lists. *)
Theorem order_panics_on_item_without_key_name
    (d : OrderData) (sess : Catalogue) (packageType : string) (dc : option Z) (pkgId : Z)
    (productItems : list Product_Item) :
  datacenter d <> "" ->
  GetDatacenterByName sess (datacenter d) = (dc, None) ->
  GetPackageByType sess packageType = (Some pkgId, None) ->
  GetPackageProducts sess pkgId = (productItems, None) ->
  Exists (fun item => KeyName item = None) productItems ->
  buildVlanProductOrderContainer d sess packageType = Panicked nilDereference.
Proof.
  intros Hdc Hlocation Hpackage Hitems Hex.
  unfold buildVlanProductOrderContainer.
  destruct (String.eqb_spec (datacenter d) "") as [?|_]; [contradiction|].
  rewrite Hlocation, Hpackage. cbn [VlanCreate.deref mbind VlanCreate.run_bind].
  rewrite Hitems, selectItems_panics by assumption. reflexivity.
Qed.

Lemma order_panics_on_item_without_key_name_witness :
  buildVlanProductOrderContainer Sample2.fourAddresses Sample2.brokenCatalogue
    "ADDITIONAL_SERVICES" = Panicked nilDereference.
Proof.
  apply (order_panics_on_item_without_key_name Sample2.fourAddresses Sample2.brokenCatalogue
           "ADDITIONAL_SERVICES" (Some 1441195) 0
           (Sample2.products ++ [ {| KeyName := None; Prices := [] |} ])%list).
  - discriminate.
  - reflexivity.
  - reflexivity.
  - reflexivity.
  - apply Exists_app. right. constructor. reflexivity.
Defined.

End VlanOrderLaws.

(** ** strconv.Atoi after strconv.Itoa *)

Module StrconvFacts.
Import Strconv.

Lemma splitSign_digits (d : Decimal.uint) :
  d <> Decimal.Nil ->
  splitSign (NilZero.string_of_uint d) = (false, NilZero.string_of_uint d).
Proof. destruct d; intros Hd; [contradiction|reflexivity..]. Qed.

Lemma to_uint_not_nil (p : positive) : Pos.to_uint p <> Decimal.Nil.
Proof.
  intros Hnil. pose proof (DecimalPos.Unsigned.of_to p) as Hback.
  rewrite Hnil in Hback. discriminate.
Qed.

Lemma of_to_uint (p : positive) : Z.of_uint (Pos.to_uint p) = Z.pos p.
Proof. unfold Z.of_uint. rewrite DecimalPos.Unsigned.of_to. reflexivity. Qed.

(** The decimal text of an [int] converts back to it. *)
Lemma Atoi_Itoa (Quote : string -> string) (n : Z) :
  minInt <= n <= maxInt -> Atoi Quote (Itoa n) = (n, None).
Proof.
  intros Hrange. unfold Atoi, Itoa. destruct n as [|p|p]; simpl Z.to_int.
  - reflexivity.
  - cbn [NilZero.string_of_int].
    rewrite splitSign_digits by apply to_uint_not_nil.
    rewrite NilZero.usu by apply to_uint_not_nil.
    rewrite of_to_uint.
    destruct (Z.leb_spec (Z.pos p) maxInt); [reflexivity|lia].
  - cbn [NilZero.string_of_int splitSign].
    rewrite NilZero.usu by apply to_uint_not_nil.
    rewrite of_to_uint.
    destruct (Z.leb_spec (Z.pos p) (2 ^ 63)); [reflexivity|unfold minInt in Hrange; lia].
Qed.

Example Atoi_samples :
  Atoi Sample2.quote "1234" = (1234, None)
  /\ Atoi Sample2.quote "+7" = (7, None)
  /\ Atoi Sample2.quote "-0" = (0, None)
  /\ (Atoi Sample2.quote "").1 = 0
  /\ (Atoi Sample2.quote "12a").1 = 0
  /\ (Atoi Sample2.quote "+-5").1 = 0
  /\ (Atoi Sample2.quote "9223372036854775808").1 = maxInt
  /\ Atoi Sample2.quote "-9223372036854775808" = (minInt, None).
Proof. repeat split. Qed.

End StrconvFacts.

(** ** The VLAN handlers: read, update, delete, exists *)

Module VlanResourceLaws.
Import Sl VlanResource.

Lemma wrapInt_small (n : Z) : - 2 ^ 63 <= n < 2 ^ 63 -> wrapInt n = n.
Proof. intros Hn. unfold wrapInt. rewrite Z.mod_small; lia. Qed.

Lemma subnetSize_in_range (cidr : Z) :
  0 <= cidr <= 32 -> subnetSize cidr = 2 ^ (32 - cidr).
Proof.
  intros Hc. unfold subnetSize.
  rewrite (Z.mod_small (32 - cidr)) by lia.
  destruct (Z.ltb_spec (32 - cidr) 64); [|lia].
  rewrite Z.shiftl_1_l. apply wrapInt_small.
  assert (0 < 2 ^ (32 - cidr)) by (apply Z.pow_pos_nonneg; lia).
  assert (2 ^ (32 - cidr) <= 2 ^ 32) by (apply Z.pow_le_mono_r; lia).
  lia.
Qed.

Lemma subnetSize_beyond (cidr : Z) :
  32 < cidr < 2 ^ 63 -> subnetSize cidr = 0.
Proof.
  intros Hc. unfold subnetSize.
  replace ((32 - cidr) mod 2 ^ 64) with (32 - cidr + 2 ^ 64).
  - destruct (Z.ltb_spec (32 - cidr + 2 ^ 64) 64); [lia|reflexivity].
  - rewrite <- (Z_mod_plus_full (32 - cidr) 1 (2 ^ 64)).
    rewrite Z.mod_small; lia.
Qed.

(** What the state holds after the VLAN object has been flattened into
    it. *)
Lemma flatten_returned (d d' : State) (vlan : Vlan) :
  flatten d vlan = Returned d' ->
  resourceId d' = resourceId d
  /\ Id vlan = Some (id d')
  /\ type d' = match PrimaryRouter vlan with
               | Some router =>
                   match Hostname router with
                   | Some hostname => typeOfRouter hostname
                   | None => type d
                   end
               | None => type d
               end
  /\ subnet_size d' = match Subnets vlan with
                      | elem :: _ =>
                          match Cidr elem with
                          | Some cidr => subnetSize cidr
                          | None => 0
                          end
                      | [] => 0
                      end
  /\ softlayer_managed d' = match BillingItem vlan with
                            | None => true
                            | Some _ => false
                            end.
Proof.
  unfold flatten.
  destruct (Id vlan) as [vid|]; [|discriminate].
  destruct (VlanNumber vlan); [|discriminate].
  destruct (GuestNetworkComponentCount vlan); [|discriminate].
  cbn [VlanCreate.deref mbind VlanCreate.run_bind].
  destruct (PrimaryRouter vlan) as [router|].
  - destruct (Hostname router) as [hostname|]; [|discriminate].
    cbn [VlanCreate.deref mbind VlanCreate.run_bind].
    destruct (Datacenter router) as [[location|]|];
      cbn [VlanCreate.deref mbind VlanCreate.run_bind]; try discriminate;
      (destruct (subnetEntries (Subnets vlan)); cbn [mbind VlanCreate.run_bind];
       try discriminate;
       destruct (Subnets vlan) as [|elem rest];
       [|destruct (Cidr elem); [|discriminate]];
       cbn [VlanCreate.deref mbind VlanCreate.run_bind];
       destruct (if (0 <? length (TagReferences vlan))%nat then _ else _);
       cbn [mbind VlanCreate.run_bind]; try discriminate;
       intros [= <-]; repeat split).
  - cbn [mbind VlanCreate.run_bind].
    destruct (subnetEntries (Subnets vlan)); cbn [mbind VlanCreate.run_bind];
      try discriminate;
      destruct (Subnets vlan) as [|elem rest];
      [|destruct (Cidr elem); [|discriminate]];
      cbn [VlanCreate.deref mbind VlanCreate.run_bind];
      destruct (if (0 <? length (TagReferences vlan))%nat then _ else _);
      cbn [mbind VlanCreate.run_bind]; try discriminate;
      intros [= <-]; repeat split.
Qed.

(** What a read that returns without error went through. *)
Lemma read_returned (Quote : string -> string) (svc : Services) (d d' : State) :
  outcome (resourceIBMNetworkVlanRead Quote svc d) = Returned (d', None) ->
  exists vlanId vlan,
    Strconv.Atoi Quote (resourceId d) = (vlanId, None)
    /\ GetObject svc vlanId VlanMask = (vlan, None)
    /\ flatten d vlan = Returned d'.
Proof.
  unfold resourceIBMNetworkVlanRead.
  destruct (Strconv.Atoi Quote (resourceId d)) as [vlanId [e|]]; [discriminate|].
  cbn. destruct (GetObject svc vlanId VlanMask) as [vlan [f|]] eqn:Hobject; cbn;
    [discriminate|].
  destruct (flatten d vlan) as [d0| |] eqn:Hflat; cbn; try discriminate.
  intros [= <-]. exists vlanId, vlan. auto.
Qed.

(** X16. After a read that returns without error, [subnet_size] is
    2^(32 - cidr) for the prefix length of the first subnet when that is
    between 0 and 32, and 0 when it is larger. *)
Theorem read_subnet_size (Quote : string -> string) (svc : Services) (d d' : State)
    (vlanId : Z) (vlan : Vlan) (elem : Subnet) (rest : list Subnet) (cidr : Z) :
  Strconv.Atoi Quote (resourceId d) = (vlanId, None) ->
  GetObject svc vlanId VlanMask = (vlan, None) ->
  Subnets vlan = elem :: rest ->
  Cidr elem = Some cidr ->
  outcome (resourceIBMNetworkVlanRead Quote svc d) = Returned (d', None) ->
  (0 <= cidr <= 32 -> subnet_size d' = 2 ^ (32 - cidr))
  /\ (32 < cidr < 2 ^ 63 -> subnet_size d' = 0).
Proof.
  intros Hid Hobject Hsubnets Hcidr Hread.
  apply read_returned in Hread as (vlanId' & vlan' & Hid' & Hobject' & Hflat).
  rewrite Hid in Hid'. injection Hid' as <-.
  rewrite Hobject in Hobject'. injection Hobject' as <-.
  apply flatten_returned in Hflat as (_ & _ & _ & Hsize & _).
  rewrite Hsubnets, Hcidr in Hsize. rewrite Hsize.
  split; [apply subnetSize_in_range|apply subnetSize_beyond].
Qed.

Lemma read_subnet_size_witness :
  (0 <= 29 <= 32 ->
   subnet_size
     {| resourceId := "1234"; id := 1234; vlan_number := 815; child_resource_count := 0;
        name := ""; router_hostname := "bcr01a.dal09"; type := "PRIVATE";
        datacenter := "dal09"; softlayer_managed := false;
        subnets := [("10.0.0.0/29", "PRIMARY")]; subnet_size := 8; tags := [] |}
   = 2 ^ (32 - 29))
  /\ (32 < 29 < 2 ^ 63 ->
      subnet_size
        {| resourceId := "1234"; id := 1234; vlan_number := 815; child_resource_count := 0;
           name := ""; router_hostname := "bcr01a.dal09"; type := "PRIVATE";
           datacenter := "dal09"; softlayer_managed := false;
           subnets := [("10.0.0.0/29", "PRIMARY")]; subnet_size := 8; tags := [] |}
      = 0).
Proof.
  apply (read_subnet_size Sample2.quote Sample2.vlanServices (Sample2.vlanState "1234")
           _ 1234 Sample2.vlan1234
           {| NetworkIdentifier := Some "10.0.0.0"; Cidr := Some 29;
              SubnetType := Some "PRIMARY" |} [] 29).
  - reflexivity.
  - reflexivity.
  - reflexivity.
  - reflexivity.
  - reflexivity.
Defined.

Lemma prefix_Contains (key s : string) :
  String.prefix key s = true -> VlanCreate.Contains s key = true.
Proof.
  unfold VlanCreate.Contains. destruct s as [|c s]; intros Hprefix.
  - destruct key; [reflexivity|discriminate].
  - cbn [String.index]. rewrite Hprefix. reflexivity.
Qed.

Lemma prefix_not_empty (key s : string) :
  key <> "" -> String.prefix key s = true -> (0 <? String.length s)%nat = true.
Proof.
  intros Hkey Hprefix. destruct s; [|reflexivity].
  destruct key; [contradiction|discriminate].
Qed.

(** X17. Read and the guard of create agree on routers named after the
    convention: when the router's host name starts with [fcr] or [bcr] and
    the guard at the head of the create handler lets the type [PRIVATE] or
    [PUBLIC] through for that host name, a read of a VLAN on that router
    stores that very type. *)
Theorem read_type_agrees_with_create_guard
    (Quote : string -> string) (svc : Services) (d d' : State)
    (vlanId : Z) (vlan : Vlan) (router : Router) (hostname vlanType : string) :
  Strconv.Atoi Quote (resourceId d) = (vlanId, None) ->
  GetObject svc vlanId VlanMask = (vlan, None) ->
  PrimaryRouter vlan = Some router ->
  Hostname router = Some hostname ->
  String.prefix "fcr" hostname = true \/ String.prefix "bcr" hostname = true ->
  vlanType = "PRIVATE" \/ vlanType = "PUBLIC" ->
  VlanCreate.routerMismatch vlanType hostname = false ->
  outcome (resourceIBMNetworkVlanRead Quote svc d) = Returned (d', None) ->
  type d' = vlanType.
Proof.
  intros Hid Hobject Hrouter Hhost Hconvention Htype Hguard Hread.
  apply read_returned in Hread as (vlanId' & vlan' & Hid' & Hobject' & Hflat).
  rewrite Hid in Hid'. injection Hid' as <-.
  rewrite Hobject in Hobject'. injection Hobject' as <-.
  apply flatten_returned in Hflat as (_ & _ & Hread & _).
  rewrite Hrouter, Hhost in Hread. rewrite Hread. unfold typeOfRouter.
  unfold VlanCreate.routerMismatch in Hguard.
  destruct Hconvention as [Hfcr|Hbcr].
  - rewrite Hfcr. destruct Htype as [->| ->]; [|reflexivity].
    rewrite (prefix_not_empty "fcr" hostname) in Hguard by (discriminate || assumption).
    rewrite (prefix_Contains "fcr" hostname Hfcr) in Hguard. discriminate.
  - assert (Hnot : String.prefix "fcr" hostname = false).
    { destruct hostname as [|c rest]; [discriminate|].
      cbn [String.prefix] in Hbcr |- *.
      destruct (ascii_dec "b" c) as [<-|]; [|discriminate].
      destruct (ascii_dec "f" "b"); [discriminate|reflexivity]. }
    rewrite Hnot. destruct Htype as [->| ->]; [reflexivity|].
    rewrite (prefix_not_empty "bcr" hostname) in Hguard by (discriminate || assumption).
    rewrite (prefix_Contains "bcr" hostname Hbcr) in Hguard. discriminate.
Qed.

Lemma read_type_agrees_with_create_guard_witness :
  type
    {| resourceId := "1234"; id := 1234; vlan_number := 815; child_resource_count := 0;
       name := ""; router_hostname := "bcr01a.dal09"; type := "PRIVATE";
       datacenter := "dal09"; softlayer_managed := false;
       subnets := [("10.0.0.0/29", "PRIMARY")]; subnet_size := 8; tags := [] |}
  = "PRIVATE".
Proof.
  apply (read_type_agrees_with_create_guard Sample2.quote Sample2.vlanServices
           (Sample2.vlanState "1234") _ 1234 Sample2.vlan1234
           {| Hostname := Some "bcr01a.dal09"; Datacenter := Some (Some "dal09") |}
           "bcr01a.dal09" "PRIVATE").
  - reflexivity.
  - reflexivity.
  - reflexivity.
  - reflexivity.
  - right. reflexivity.
  - left. reflexivity.
  - reflexivity.
  - reflexivity.
Defined.

(** X18. The id the create handler stores, the decimal text of the VLAN
    id, is the id the other handlers look up: with it, read asks for that
    very VLAN, delete for its billing item, and exists for its id. *)
Theorem handlers_look_up_the_stored_id
    (Quote : string -> string) (svc : Services) (d : State) (vlanId : Z) :
  Strconv.minInt <= vlanId <= Strconv.maxInt ->
  resourceId d = Itoa vlanId ->
  head (log (resourceIBMNetworkVlanRead Quote svc d)) = Some (VlanGetObject vlanId VlanMask)
  /\ head (log (resourceIBMNetworkVlanDelete Quote svc d)) = Some (VlanGetBillingItem vlanId)
  /\ head (log (resourceIBMNetworkVlanExists Quote svc d)) = Some (VlanGetObject vlanId "id").
Proof.
  intros Hrange Hid.
  unfold resourceIBMNetworkVlanRead, resourceIBMNetworkVlanDelete, resourceIBMNetworkVlanExists.
  rewrite Hid, (StrconvFacts.Atoi_Itoa Quote vlanId Hrange).
  repeat split.
Qed.

Lemma handlers_look_up_the_stored_id_witness :
  head (log (resourceIBMNetworkVlanRead Sample2.quote Sample2.vlanServices
               (Sample2.vlanState "1234")))
  = Some (VlanGetObject 1234 VlanMask)
  /\ head (log (resourceIBMNetworkVlanDelete Sample2.quote Sample2.vlanServices
                  (Sample2.vlanState "1234")))
     = Some (VlanGetBillingItem 1234)
  /\ head (log (resourceIBMNetworkVlanExists Sample2.quote Sample2.vlanServices
                  (Sample2.vlanState "1234")))
     = Some (VlanGetObject 1234 "id").
Proof.
  apply (handlers_look_up_the_stored_id Sample2.quote Sample2.vlanServices
           (Sample2.vlanState "1234") 1234).
  - vm_compute. split; discriminate.
  - reflexivity.
Defined.

(** X19. With a resource id that is no [int], the four handlers return an
    error without issuing a single call. *)
Theorem handlers_reject_bad_id_without_calls
    (Quote : string -> string) (svc : Services) (d : State)
    (nameChanged tagsChanged : bool) (tagsText : string) :
  (Strconv.Atoi Quote (resourceId d)).2 <> None ->
  (exists e, resourceIBMNetworkVlanRead Quote svc d = mkEff (Returned (d, Some e)) [])
  /\ (exists e, resourceIBMNetworkVlanUpdate Quote svc nameChanged tagsChanged tagsText d
                = mkEff (Returned (d, Some e)) [])
  /\ (exists e, resourceIBMNetworkVlanDelete Quote svc d = mkEff (Returned (Some e)) [])
  /\ (exists e, resourceIBMNetworkVlanExists Quote svc d
                = mkEff (Returned (false, Some e)) []).
Proof.
  intros Hbad.
  unfold resourceIBMNetworkVlanRead, resourceIBMNetworkVlanUpdate,
    resourceIBMNetworkVlanDelete, resourceIBMNetworkVlanExists.
  destruct (Strconv.Atoi Quote (resourceId d)) as [vlanId [e|]]; [|contradiction].
  repeat split; eexists; reflexivity.
Qed.

Lemma handlers_reject_bad_id_without_calls_witness :
  exists e, resourceIBMNetworkVlanDelete Sample2.quote Sample2.vlanServices
              (Sample2.vlanState "vlan-1234")
            = mkEff (Returned (Some e)) [].
Proof.
  apply (handlers_reject_bad_id_without_calls Sample2.quote Sample2.vlanServices
           (Sample2.vlanState "vlan-1234") false false "").
  simpl. discriminate.
Defined.

(** X20. Delete cancels nothing but the billing item the service reported
    for the VLAN: any cancellation in its log is for that item, and a VLAN
    without billing item is left alone. *)
Theorem delete_cancels_only_the_reported_item
    (Quote : string -> string) (svc : Services) (d : State) (billingId : Z) :
  In (BillingCancelService billingId) (log (resourceIBMNetworkVlanDelete Quote svc d)) ->
  exists vlanId,
    Strconv.Atoi Quote (resourceId d) = (vlanId, None)
    /\ GetBillingItem svc vlanId = (Some billingId, None).
Proof.
  unfold resourceIBMNetworkVlanDelete.
  destruct (Strconv.Atoi Quote (resourceId d)) as [vlanId [e|]]; [intros []|].
  cbn. destruct (GetBillingItem svc vlanId) as [[found|] [f|]] eqn:Hbilling; cbn;
    try (intros [Hcall|[]]; discriminate).
  intros [Hcall|[Hcall|[]]]; [discriminate|].
  injection Hcall as ->. exists vlanId. auto.
Qed.

Lemma delete_cancels_only_the_reported_item_witness :
  exists vlanId,
    Strconv.Atoi Sample2.quote "1234" = (vlanId, None)
    /\ VlanResource.GetBillingItem Sample2.vlanServices vlanId = (Some 99, None).
Proof.
  apply (delete_cancels_only_the_reported_item Sample2.quote Sample2.vlanServices
           (Sample2.vlanState "1234") 99).
  simpl. right. left. reflexivity.
Defined.

(** X21. Delete reports success exactly when the id is a number, the
    billing look-up did not fail, and either there is no billing item or
    its cancellation returned no error; whether the service said the
    cancellation succeeded plays no part. *)
Theorem delete_succeeds_iff (Quote : string -> string) (svc : Services) (d : State) :
  outcome (resourceIBMNetworkVlanDelete Quote svc d) = Returned None
  <-> exists vlanId billing,
        Strconv.Atoi Quote (resourceId d) = (vlanId, None)
        /\ GetBillingItem svc vlanId = (billing, None)
        /\ match billing with
           | None => True
           | Some billingId => (CancelService svc billingId).2 = None
           end.
Proof.
  unfold resourceIBMNetworkVlanDelete.
  destruct (Strconv.Atoi Quote (resourceId d)) as [vlanId [e|]].
  - split; [discriminate|]. intros (? & ? & [=] & _).
  - cbn. destruct (GetBillingItem svc vlanId) as [billing [f|]] eqn:Hbilling; cbn.
    + split; [discriminate|]. intros (? & ? & [= <-] & Hb & _). congruence.
    + destruct billing as [billingId|]; cbn.
      * destruct (CancelService svc billingId) as [ok [f|]] eqn:Hcancel; cbn.
        -- split; [discriminate|]. intros (? & ? & [= <-] & Hb & Hc).
           rewrite Hbilling in Hb. injection Hb as <-. rewrite Hcancel in Hc. discriminate.
        -- split; [|reflexivity]. intros _. exists vlanId, (Some billingId).
           rewrite Hcancel. auto.
      * split; [|reflexivity]. intros _. exists vlanId, None. auto.
Qed.

(** X22. Exists answers true exactly when the id is a number and the
    service returned, without error, an object whose id is that number; a
    404 from the service gives false without error. *)
Theorem exists_true_iff (Quote : string -> string) (svc : Services) (d : State)
    (err : option error) :
  outcome (resourceIBMNetworkVlanExists Quote svc d) = Returned (true, err)
  <-> err = None
      /\ exists vlanId vlan,
           Strconv.Atoi Quote (resourceId d) = (vlanId, None)
           /\ GetObject svc vlanId "id" = (vlan, None)
           /\ Id vlan = Some vlanId.
Proof.
  unfold resourceIBMNetworkVlanExists.
  destruct (Strconv.Atoi Quote (resourceId d)) as [vlanId [e|]].
  - split; [discriminate|]. intros (_ & ? & ? & [=] & _).
  - cbn. destruct (GetObject svc vlanId "id") as [vlan [f|]] eqn:Hobject; cbn.
    + destruct (isNotFound f); cbn;
        (split; [discriminate|]; intros (_ & ? & ? & [= <-] & Ho & _); congruence).
    + destruct (Id vlan) as [found|] eqn:Hfound.
      * destruct (Z.eqb_spec found vlanId) as [->|Hne].
        -- split; [intros [= <-]; split; [reflexivity|]; exists vlanId, vlan; auto|].
           intros [-> _]. reflexivity.
        -- split; [discriminate|].
           intros (_ & ? & ? & [= <-] & Ho & Hid).
           rewrite Hobject in Ho. injection Ho as <-. congruence.
      * split; [discriminate|].
        intros (_ & ? & ? & [= <-] & Ho & Hid).
        rewrite Hobject in Ho. injection Ho as <-. congruence.
Qed.

End VlanResourceLaws.

(** ** The VLAN create handler with the order built and the resource read back *)

Module VlanProvisionLaws.
Import Sl VlanProvision.

Lemma outcome_bind {A B : Type} (m : Eff A) (k : A -> Eff B) :
  outcome (m ≫= k)
  = match outcome m with
    | Returned a => outcome (k a)
    | Panicked reason => Panicked reason
    | Unfinished => Unfinished
    end.
Proof. unfold mbind, eff_bind. destruct (outcome m); reflexivity. Qed.

Lemma setVlanTags_outcome (svc : VlanResource.Services) (vlanId : Z) (tagsText : string) :
  outcome (VlanResource.setVlanTags svc vlanId tagsText)
  = Returned (match VlanResource.SetTags svc vlanId tagsText with
              | Some _ => Some (ErrorString ("Could not set tags on vlan " +:+ Itoa vlanId))
              | None => None
              end).
Proof.
  unfold VlanResource.setVlanTags. rewrite outcome_bind. cbn [call outcome].
  destruct (VlanResource.SetTags svc vlanId tagsText); reflexivity.
Qed.

(** A read that returns an error has left the data alone. *)
Lemma read_error_keeps_data (Quote : string -> string) (svc : VlanResource.Services)
    (d d' : VlanResource.State) (e : error) :
  outcome (VlanResource.resourceIBMNetworkVlanRead Quote svc d) = Returned (d', Some e) ->
  d' = d.
Proof.
  unfold VlanResource.resourceIBMNetworkVlanRead.
  destruct (Strconv.Atoi Quote (VlanResource.resourceId d)) as [vlanId [e0|]];
    [intros [= <- _]; reflexivity|].
  rewrite outcome_bind. cbn [call outcome].
  destruct (VlanResource.GetObject svc vlanId VlanResource.VlanMask) as [vlan [f|]];
    cbn [snd fst]; [intros [= <- _]; reflexivity|].
  rewrite outcome_bind. cbn [pure outcome].
  destruct (VlanResource.flatten d vlan); cbn; discriminate.
Qed.

#[local] Arguments VlanResource.resourceIBMNetworkVlanRead : simpl never.
#[local] Arguments VlanResource.setVlanTags : simpl never.
#[local] Arguments VlanOrder.buildVlanProductOrderContainer : simpl never.
#[local] Arguments findVlanByOrderId : simpl never.

(** How far a run of the create handler that returns has got: it stopped
    before the poll, with the data as they were, or the poll found a VLAN
    with an id and the run ended on the way to the read or in it. *)
Lemma provision_returned_inv (fuel : nat) (Quote : string -> string) (svc : Services)
    (tagsText : string) (d d' : VlanResource.State) (result : option error) :
  outcome (resourceIBMNetworkVlanCreate fuel Quote svc tagsText d) = Returned (d', result) ->
  (d' = d /\ result <> None)
  \/ exists orderId polled w' vid,
       findVlanByOrderId fuel (account svc) orderId epoch = Some ((polled, None), w')
       /\ Id polled = Some vid
       /\ ((d' = SetId (Itoa vid) d /\ result <> None)
           \/ outcome (VlanResource.resourceIBMNetworkVlanRead Quote (vlans svc)
                         (SetId (Itoa vid) d))
              = Returned (d', result)).
Proof.
  unfold resourceIBMNetworkVlanCreate.
  destruct (VlanCreate.routerMismatch _ _);
    [intros [= <- <-]; left; split; [reflexivity|discriminate]|].
  rewrite outcome_bind. cbn [pure outcome].
  destruct (VlanOrder.buildVlanProductOrderContainer _ _
              VlanCreate.AdditionalServicesNetworkVlanPackageType) as [[c1 e1]| |];
    [|discriminate|discriminate].
  rewrite outcome_bind. cbn [fst snd].
  assert (Hrest : forall built : VlanCreate.Container * option error,
    outcome
      (match built.2 with
       | Some _ => mret (d, Some (ErrorString ("Error creating vlan: " +:+ verb_s built.2)))
       | None =>
          let '(receipt, err) := PlaceOrder svc built.1 in
          match err with
          | Some _ =>
              mret (d, Some (ErrorString ("Error during creation of vlan: " +:+ verb_s err)))
          | None =>
              orderId ← pure (VlanCreate.deref (VlanCreate.OrderId receipt));
              match findVlanByOrderId fuel (account svc) orderId epoch with
              | None => pure Unfinished
              | Some ((vlan, err), _) =>
                  edited ←
                    (if (0 <? String.length (VlanResource.name d))%nat then
                       vlanId ← pure (VlanCreate.deref (Id vlan));
                       failed ← call (VlanEditObject vlanId (VlanResource.name d))
                                  (VlanResource.EditObject (vlans svc) vlanId (VlanResource.name d));
                       mret (toError <$> failed)
                     else mret None);
                  match edited with
                  | Some e =>
                      mret (d, Some (ErrorString ("Error updating vlan: " +:+ verb_s (Some e))))
                  | None =>
                      idForState ← pure (VlanCreate.deref (Id vlan));
                      let d := SetId (Itoa idForState) d in
                      vlanId ← pure (VlanCreate.deref (Id vlan));
                      tagged ←
                        (if negb (String.eqb tagsText "")
                         then VlanResource.setVlanTags (vlans svc) vlanId tagsText
                         else mret None);
                      match tagged with
                      | Some e => mret (d, Some e)
                      | None => VlanResource.resourceIBMNetworkVlanRead Quote (vlans svc) d
                      end
                  end
              end
          end
       end) = Returned (d', result) ->
    (d' = d /\ result <> None)
    \/ exists orderId polled w' vid,
         findVlanByOrderId fuel (account svc) orderId epoch = Some ((polled, None), w')
         /\ Id polled = Some vid
         /\ ((d' = SetId (Itoa vid) d /\ result <> None)
             \/ outcome (VlanResource.resourceIBMNetworkVlanRead Quote (vlans svc)
                           (SetId (Itoa vid) d))
                = Returned (d', result))).
  { intros [c [e|]]; cbn [fst snd].
    { intros [= <- <-]. left. split; [reflexivity|discriminate]. }
    destruct (PlaceOrder svc c) as [receipt [e3|]];
      [intros [= <- <-]; left; split; [reflexivity|discriminate]|].
    rewrite outcome_bind. cbn [pure outcome].
    destruct (VlanCreate.OrderId receipt) as [orderId|]; cbn [VlanCreate.deref]; [|discriminate].
    destruct (findVlanByOrderId fuel (account svc) orderId epoch)
      as [[[polled err] w']|] eqn:Hpoll; [|discriminate].
    destruct (Id polled) as [vid|] eqn:Hid.
    2:{ rewrite outcome_bind.
        destruct (0 <? String.length (VlanResource.name d))%nat.
        - rewrite outcome_bind. cbn [pure outcome VlanCreate.deref]. discriminate.
        - cbn [mret eff_ret outcome]. rewrite outcome_bind. cbn [pure outcome VlanCreate.deref].
          discriminate. }
    assert (err = None) as ->.
    { destruct err as [e|]; [|reflexivity].
      apply (poll_failure_gives_zero_vlan vlanSite) in Hpoll. subst polled. discriminate. }
    assert (Htail :
      outcome
        (idForState ← pure (VlanCreate.deref (Some vid));
         let d0 := SetId (Itoa idForState) d in
         vlanId ← pure (VlanCreate.deref (Some vid));
         tagged ←
           (if negb (String.eqb tagsText "")
            then VlanResource.setVlanTags (vlans svc) vlanId tagsText
            else mret None);
         match tagged with
         | Some e => mret (d0, Some e)
         | None => VlanResource.resourceIBMNetworkVlanRead Quote (vlans svc) d0
         end) = Returned (d', result) ->
      (d' = SetId (Itoa vid) d /\ result <> None)
      \/ outcome (VlanResource.resourceIBMNetworkVlanRead Quote (vlans svc)
                    (SetId (Itoa vid) d))
         = Returned (d', result)).
    { rewrite outcome_bind. cbn [pure outcome VlanCreate.deref].
      rewrite outcome_bind. cbn [pure outcome VlanCreate.deref].
      rewrite outcome_bind.
      destruct (negb (String.eqb tagsText "")).
      - rewrite setVlanTags_outcome.
        destruct (VlanResource.SetTags (vlans svc) vid tagsText).
        + intros [= <- <-]. left. split; [reflexivity|discriminate].
        + intros Hread. right. exact Hread.
      - cbn [mret eff_ret outcome]. intros Hread. right. exact Hread. }
    rewrite outcome_bind.
    destruct (0 <? String.length (VlanResource.name d))%nat.
    - rewrite outcome_bind. cbn [pure outcome VlanCreate.deref].
      rewrite outcome_bind. cbn [call outcome].
      destruct (VlanResource.EditObject (vlans svc) vid (VlanResource.name d)) as [f|];
        cbn [fmap option_fmap option_map mret eff_ret outcome].
      + intros [= <- <-]. left. split; [reflexivity|discriminate].
      + intros Hrun. right. exists orderId, polled, w', vid.
        split; [first [exact Hpoll|reflexivity]|]. split; [first [exact Hid|reflexivity]|]. apply Htail. exact Hrun.
    - cbn [mret eff_ret outcome].
      intros Hrun. right. exists orderId, polled, w', vid.
      split; [first [exact Hpoll|reflexivity]|]. split; [first [exact Hid|reflexivity]|]. apply Htail. exact Hrun. }
  destruct e1 as [e1|].
  - cbn [pure outcome].
    destruct (VlanOrder.buildVlanProductOrderContainer _ _ VlanCreate.AdditionalServicesPackageType)
      as [built| |]; [|discriminate|discriminate].
    apply Hrest.
  - cbn [mret eff_ret outcome]. apply (Hrest (c1, None)).
Qed.

Lemma flatten_name (d d' : VlanResource.State) (vlan : VlanResource.Vlan) :
  VlanResource.flatten d vlan = Returned d' ->
  VlanResource.name d' = default "" (VlanResource.Name vlan).
Proof.
  unfold VlanResource.flatten.
  destruct (VlanResource.Id vlan); [|discriminate].
  destruct (VlanResource.VlanNumber vlan); [|discriminate].
  destruct (VlanResource.GuestNetworkComponentCount vlan); [|discriminate].
  cbn [VlanCreate.deref mbind VlanCreate.run_bind].
  destruct (match VlanResource.PrimaryRouter vlan with Some _ => _ | None => _ end);
    cbn [mbind VlanCreate.run_bind]; try discriminate.
  destruct (VlanResource.subnetEntries _); cbn [mbind VlanCreate.run_bind]; try discriminate.
  destruct (match VlanResource.Subnets vlan with [] => _ | _ :: _ => _ end);
    cbn [mbind VlanCreate.run_bind]; try discriminate.
  destruct (if (0 <? _)%nat then _ else _); cbn [mbind VlanCreate.run_bind]; try discriminate.
  intros [= <-]. reflexivity.
Qed.

(** X9. The create handler returns without error only after the whole
    chain went through: the poll gave a VLAN with an id and no error, and
    the final read, run on the data with the decimal text of that id for
    resource id, returned without error. The data handed back are those of
    that read: the fields are what the read took from the VLAN the service
    returned for that id, the name among them, not what the configuration
    said. *)
Theorem create_success_returns_the_read_data
    (fuel : nat) (Quote : string -> string) (svc : Services) (tagsText : string)
    (d d' : VlanResource.State) :
  outcome (resourceIBMNetworkVlanCreate fuel Quote svc tagsText d) = Returned (d', None) ->
  exists orderId polled w' vid,
    findVlanByOrderId fuel (account svc) orderId epoch = Some ((polled, None), w')
    /\ Id polled = Some vid
    /\ outcome (VlanResource.resourceIBMNetworkVlanRead Quote (vlans svc) (SetId (Itoa vid) d))
       = Returned (d', None)
    /\ VlanResource.resourceId d' = Itoa vid
    /\ (Strconv.minInt <= vid <= Strconv.maxInt ->
        exists vlan,
          VlanResource.GetObject (vlans svc) vid VlanResource.VlanMask = (vlan, None)
          /\ VlanResource.flatten (SetId (Itoa vid) d) vlan = Returned d'
          /\ VlanResource.Id vlan = Some (VlanResource.id d')
          /\ VlanResource.name d' = default "" (VlanResource.Name vlan)).
Proof.
  intros Hrun. apply provision_returned_inv in Hrun as [[_ Hnone]|Hpolled]; [congruence|].
  destruct Hpolled as (orderId & polled & w' & vid & Hpoll & Hid & [[_ Hnone]|Hread]);
    [congruence|].
  exists orderId, polled, w', vid.
  split; [exact Hpoll|]. split; [exact Hid|]. split; [exact Hread|].
  destruct (VlanResourceLaws.read_returned _ _ _ _ Hread) as (vlanId & vlan & Hatoi & Hobject & Hflat).
  destruct (VlanResourceLaws.flatten_returned _ _ _ Hflat) as (Hrid & Hvid & _).
  split; [rewrite Hrid; reflexivity|].
  intros Hrange. cbn [SetId VlanResource.resourceId] in Hatoi.
  rewrite (StrconvFacts.Atoi_Itoa Quote vid Hrange) in Hatoi. injection Hatoi as <-.
  exists vlan. split; [exact Hobject|]. split; [exact Hflat|]. split; [exact Hvid|].
  exact (flatten_name _ _ _ Hflat).
Qed.

(** X10. Whenever the create handler returns an error, the resource data
    are the input data, either untouched or with the resource id alone set,
    to the decimal text of the id of the VLAN the poll found. *)
Theorem create_error_leaves_the_data
    (fuel : nat) (Quote : string -> string) (svc : Services) (tagsText : string)
    (d d' : VlanResource.State) (e : error) :
  outcome (resourceIBMNetworkVlanCreate fuel Quote svc tagsText d) = Returned (d', Some e) ->
  d' = d
  \/ exists orderId polled w' vid,
       findVlanByOrderId fuel (account svc) orderId epoch = Some ((polled, None), w')
       /\ Id polled = Some vid
       /\ d' = SetId (Itoa vid) d.
Proof.
  intros Hrun. apply provision_returned_inv in Hrun as [[Hd _]|Hpolled]; [left; exact Hd|].
  destruct Hpolled as (orderId & polled & w' & vid & Hpoll & Hid & [[Hd _]|Hread]);
    right; exists orderId, polled, w', vid; (split; [exact Hpoll|]); (split; [exact Hid|]).
  - exact Hd.
  - exact (read_error_keeps_data _ _ _ _ _ Hread).
Qed.

Lemma create_success_returns_the_read_data_witness :
  exists orderId polled w' vid,
    findVlanByOrderId 3 (account (Sample2.provision 1234)) orderId epoch
    = Some ((polled, None), w')
    /\ Id polled = Some vid
    /\ outcome (VlanResource.resourceIBMNetworkVlanRead Sample2.quote
                  (vlans (Sample2.provision 1234)) (SetId (Itoa vid) Sample2.backend))
       = Returned (Sample2.provisioned, None)
    /\ VlanResource.resourceId Sample2.provisioned = Itoa vid
    /\ (Strconv.minInt <= vid <= Strconv.maxInt ->
        exists vlan,
          VlanResource.GetObject (vlans (Sample2.provision 1234)) vid VlanResource.VlanMask
          = (vlan, None)
          /\ VlanResource.flatten (SetId (Itoa vid) Sample2.backend) vlan
             = Returned Sample2.provisioned
          /\ VlanResource.Id vlan = Some (VlanResource.id Sample2.provisioned)
          /\ VlanResource.name Sample2.provisioned = default "" (VlanResource.Name vlan)).
Proof.
  apply (create_success_returns_the_read_data 3 Sample2.quote (Sample2.provision 1234) ""
           Sample2.backend Sample2.provisioned).
  vm_compute. reflexivity.
Defined.

Lemma create_error_leaves_the_data_witness :
  SetId "8" Sample2.backend = Sample2.backend
  \/ exists orderId polled w' vid,
       findVlanByOrderId 3 (account (Sample2.provision 8)) orderId epoch
       = Some ((polled, None), w')
       /\ Id polled = Some vid
       /\ SetId "8" Sample2.backend = SetId (Itoa vid) Sample2.backend.
Proof.
  apply (create_error_leaves_the_data 3 Sample2.quote (Sample2.provision 8) ""
           Sample2.backend (SetId "8" Sample2.backend)
           (ErrorString "Error retrieving vlan: SoftLayer_Exception_ObjectNotFound")).
  vm_compute. reflexivity.
Defined.

End VlanProvisionLaws.

(** ** The firewall handlers *)

Module FirewallResourceLaws.
Import Sl FirewallResource.

Lemma read_log (Quote : string -> string) (svc : Services) (d : State) :
  log (resourceIBMFirewallRead Quote svc d)
  = [FirewallGetObject (Strconv.Atoi Quote (resourceId d)).1 fwMask].
Proof.
  unfold resourceIBMFirewallRead.
  destruct (Strconv.Atoi Quote (resourceId d)) as [fwID err]. cbn.
  destruct (GetObject svc fwID fwMask) as [fw [f|]]; cbn; [reflexivity|].
  destruct (flatten d fw); reflexivity.
Qed.

Lemma log_bind {A B : Type} (m : Eff A) (k : A -> Eff B) :
  log (m ≫= k)
  = (log m ++ match outcome m with
              | Returned a => log (k a)
              | _ => []
              end)%list.
Proof.
  unfold mbind, eff_bind. destruct (outcome m); cbn; rewrite ?app_nil_r; reflexivity.
Qed.

Lemma setFirewallTags_log (svc : Services) (fwId : Z) (tagsText : string) :
  log (setFirewallTags svc fwId tagsText) = [FirewallSetTags fwId tagsText].
Proof. unfold setFirewallTags. cbn. destruct (SetTags svc fwId tagsText); reflexivity. Qed.

(** X23. Delete reports success exactly when the service reported a
    billing item for the firewall and confirmed its cancellation without
    error. *)
Theorem firewall_delete_succeeds_iff
    (Quote : string -> string) (svc : Services) (d : State) :
  outcome (resourceIBMFirewallDelete Quote svc d) = Returned None
  <-> exists billingId,
        GetBillingItem svc (Strconv.Atoi Quote (resourceId d)).1 = (Some billingId, None)
        /\ CancelService svc billingId = (true, None).
Proof.
  unfold resourceIBMFirewallDelete.
  destruct (Strconv.Atoi Quote (resourceId d)) as [fwID err]. cbn.
  destruct (GetBillingItem svc fwID) as [billing [f|]] eqn:Hbilling; cbn.
  - split; [discriminate|]. intros (? & [=] & _).
  - destruct billing as [billingId|]; cbn.
    + destruct (CancelService svc billingId) as [ok [f|]] eqn:Hcancel; cbn.
      * split; [discriminate|]. intros (? & [= <-] & Hc). congruence.
      * destruct ok; cbn.
        -- split; [|reflexivity]. intros _. exists billingId. auto.
        -- split; [discriminate|]. intros (? & [= <-] & Hc). congruence.
    + split; [discriminate|]. intros (? & [=] & _).
Qed.

(** X24. Delete and read do not test the conversion of the resource id:
    with an id that is no number they address firewall 0, and delete
    cancels the billing item of firewall 0 when there is one. *)
Theorem firewall_handlers_fall_back_to_id_zero
    (Quote : string -> string) (svc : Services) (d : State) (e : error) (billingId : Z) :
  Strconv.Atoi Quote (resourceId d) = (0, Some e) ->
  GetBillingItem svc 0 = (Some billingId, None) ->
  log (resourceIBMFirewallDelete Quote svc d)
  = [FirewallGetBillingItem 0; BillingCancelService billingId]
  /\ log (resourceIBMFirewallRead Quote svc d) = [FirewallGetObject 0 fwMask].
Proof.
  intros Hid Hbilling. split.
  - unfold resourceIBMFirewallDelete. rewrite Hid. cbn. rewrite Hbilling. cbn.
    destruct (CancelService svc billingId) as [ok [f|]]; cbn; [reflexivity|].
    destruct ok; reflexivity.
  - rewrite read_log, Hid. reflexivity.
Qed.

Lemma firewall_handlers_fall_back_to_id_zero_witness :
  log (resourceIBMFirewallDelete Sample2.quote Sample2.firewallServices
         (Sample2.firewallState ""))
  = [FirewallGetBillingItem 0; BillingCancelService 55]
  /\ log (resourceIBMFirewallRead Sample2.quote Sample2.firewallServices
            (Sample2.firewallState ""))
     = [FirewallGetObject 0 fwMask].
Proof.
  apply (firewall_handlers_fall_back_to_id_zero Sample2.quote Sample2.firewallServices
           (Sample2.firewallState "")
           (Strconv.numError Sample2.quote "" "invalid syntax") 55).
  - reflexivity.
  - reflexivity.
Defined.

(** X25. Exists returns an error exactly when the id is no number or the
    service failed with something other than an [sl.Error] of status 404,
    and the answer next to an error is false; a 404 is the answer false
    without error; the answer is true exactly when the id is a number and
    the service returned the firewall without error. *)
Theorem firewall_exists_fails_iff
    (Quote : string -> string) (svc : Services) (d : State) :
  ((exists found e, outcome (resourceIBMFirewallExists Quote svc d) = Returned (found, Some e))
   <-> (Strconv.Atoi Quote (resourceId d)).2 <> None
       \/ exists fw f,
            GetObject svc (Strconv.Atoi Quote (resourceId d)).1 "" = (fw, Some f)
            /\ isNotFound f = false)
  /\ (forall found e,
        outcome (resourceIBMFirewallExists Quote svc d) = Returned (found, Some e) ->
        found = false)
  /\ (forall fw f,
        (Strconv.Atoi Quote (resourceId d)).2 = None ->
        GetObject svc (Strconv.Atoi Quote (resourceId d)).1 "" = (fw, Some f) ->
        isNotFound f = true ->
        outcome (resourceIBMFirewallExists Quote svc d) = Returned (false, None))
  /\ (outcome (resourceIBMFirewallExists Quote svc d) = Returned (true, None)
      <-> (Strconv.Atoi Quote (resourceId d)).2 = None
          /\ exists fw, GetObject svc (Strconv.Atoi Quote (resourceId d)).1 "" = (fw, None)).
Proof.
  unfold resourceIBMFirewallExists.
  destruct (Strconv.Atoi Quote (resourceId d)) as [fwID [e|]]; cbn.
  - split; [|split; [|split]].
    + split; [intros _; left; discriminate|]. intros _. eexists _, _. reflexivity.
    + intros found e0 [= <- _]. reflexivity.
    + intros fw f [=].
    + split; [discriminate|]. intros [[=] _].
  - destruct (GetObject svc fwID "") as [fw [f|]] eqn:Hobject; cbn.
    + destruct (isNotFound f) eqn:Hstatus; cbn.
      * split; [|split; [|split]].
        -- split; [intros (? & ? & [=])|].
           intros [Hbad|(? & ? & [= <- <-] & Hs)]; [contradiction|congruence].
        -- intros found e [=].
        -- intros _ _ _ _ _. reflexivity.
        -- split; [discriminate|]. intros [_ (? & [=])].
      * split; [|split; [|split]].
        -- split; [|intros _; eexists _, _; reflexivity].
           intros _. right. exists fw, f. auto.
        -- intros found e [= <- _]. reflexivity.
        -- intros fw0 f0 _ [= _ <-] Hs. congruence.
        -- split; [discriminate|]. intros [_ (? & [=])].
    + split; [|split; [|split]].
      * split; [intros (? & ? & [=])|].
        intros [Hbad|(? & ? & [=] & _)]. contradiction.
      * intros found e [=].
      * intros fw0 f0 _ [=].
      * split; [|reflexivity]. intros _. split; [reflexivity|]. exists fw. reflexivity.
Qed.

Lemma targetItemsOf_returned (keyName : string) :
  forall (productItems targetItems found : list VlanOrder.Product_Item),
    targetItemsOf keyName productItems targetItems = Returned found ->
    found = (targetItems
             ++ List.filter (VlanOrder.passes (fun key => String.eqb key keyName))
                  productItems)%list.
Proof.
  induction productItems as [|item rest IH]; intros targetItems found Hrun.
  - simpl in Hrun. injection Hrun as <-. rewrite app_nil_r. reflexivity.
  - simpl in Hrun.
    destruct (VlanOrder.KeyName item) as [key|] eqn:Hkey; [|discriminate].
    cbn [VlanCreate.deref mbind VlanCreate.run_bind] in Hrun.
    apply IH in Hrun as ->.
    cbn [List.filter]. unfold VlanOrder.passes. rewrite Hkey.
    destruct (String.eqb key keyName); rewrite <- ?app_assoc; reflexivity.
Qed.

(** X26. When the poll for the ordered firewall ends in an error, the
    create handler returns that error behind its own prefix: it does not
    panic, and the resource data stay as they were. *)
Theorem firewall_create_returns_poll_error
    (fuel : nat) (Quote : string -> string) (svc : Services) (tagsText : string) (d : State)
    (pkgId : Z) (productItems more : list VlanOrder.Product_Item)
    (item : VlanOrder.Product_Item) (price : option Z) (prices : list (option Z))
    (receipt : VlanCreate.Receipt) (orderId : Z) (v : Network_Vlan) (e : error) (w' : World) :
  GetPackageByType svc FwHardwareDedicatedPackageType = (Some pkgId, None) ->
  GetPackageProducts svc pkgId = (productItems, None) ->
  targetItemsOf
    (if ha_enabled d then "HARDWARE_FIREWALL_HIGH_AVAILABILITY"
     else "HARDWARE_FIREWALL_DEDICATED") productItems [] = Returned (item :: more) ->
  VlanOrder.Prices item = price :: prices ->
  PlaceOrder svc {| PackageId := Some pkgId; Prices := [price]; VlanId := public_vlan_id d |}
  = (receipt, None) ->
  VlanCreate.OrderId receipt = Some orderId ->
  findDedicatedFirewallByOrderId fuel (account svc) orderId epoch = Some ((v, Some e), w') ->
  outcome (resourceIBMFirewallCreate fuel Quote svc tagsText d)
  = Returned (d, Some (ErrorString
      ("Error during creation of dedicated hardware firewall: " +:+ Error e))).
Proof.
  intros Hpackage Hitems Htarget Hprice Hplace Horder Hpoll.
  unfold resourceIBMFirewallCreate.
  rewrite Hpackage. cbn. rewrite Hitems, Htarget. cbn. rewrite Hprice. cbn.
  rewrite Hplace. cbn. rewrite Horder. cbn. rewrite Hpoll. reflexivity.
Qed.

Lemma firewall_create_returns_poll_error_witness :
  outcome (resourceIBMFirewallCreate 269 Sample2.quote Sample2.firewallServices ""
             (Sample2.firewallState ""))
  = Returned (Sample2.firewallState "",
              Some (ErrorString
                ("Error during creation of dedicated hardware firewall: " +:+
                 Error TimeoutError))).
Proof.
  apply (firewall_create_returns_poll_error 269 Sample2.quote Sample2.firewallServices ""
           (Sample2.firewallState "") 863
           [ {| VlanOrder.KeyName := Some "HARDWARE_FIREWALL_DEDICATED";
                VlanOrder.Prices := [Some 21514] |} ] []
           {| VlanOrder.KeyName := Some "HARDWARE_FIREWALL_DEDICATED";
              VlanOrder.Prices := [Some 21514] |} (Some 21514) []
           {| VlanCreate.OrderId := Some 41 |} 41 zeroVlan TimeoutError
           {| now := 45 * Minute; calls := 269 |}).
  - reflexivity.
  - reflexivity.
  - reflexivity.
  - reflexivity.
  - reflexivity.
  - reflexivity.
  - vm_compute. reflexivity.
Defined.

#[local] Arguments resourceIBMFirewallRead : simpl never.
#[local] Arguments setFirewallTags : simpl never.

(** X27. The create handler places an order only for the VLAN of the
    configuration and with a single price: the first price of the first
    catalogue item whose key name is the one that goes with the
    [ha_enabled] flag. *)
Theorem firewall_create_orders_first_matching_item
    (fuel : nat) (Quote : string -> string) (svc : Services) (tagsText : string) (d : State)
    (prices : list (option Z)) (vlanId : Z) :
  In (ProductPlaceOrder prices vlanId)
     (log (resourceIBMFirewallCreate fuel Quote svc tagsText d)) ->
  vlanId = public_vlan_id d
  /\ exists pkgId productItems item price,
       GetPackageByType svc FwHardwareDedicatedPackageType = (Some pkgId, None)
       /\ GetPackageProducts svc pkgId = (productItems, None)
       /\ VlanOrder.firstItem
            (fun key => String.eqb key
               (if ha_enabled d then "HARDWARE_FIREWALL_HIGH_AVAILABILITY"
                else "HARDWARE_FIREWALL_DEDICATED")) productItems = Some item
       /\ head (VlanOrder.Prices item) = Some price
       /\ prices = [price].
Proof.
  unfold resourceIBMFirewallCreate.
  destruct (GetPackageByType svc FwHardwareDedicatedPackageType) as [pkg [e1|]] eqn:Hpackage;
    [intros []|].
  destruct pkg as [pkgId|]; [|intros []]. cbn.
  destruct (GetPackageProducts svc pkgId) as [productItems [e2|]] eqn:Hitems; [intros []|].
  destruct (targetItemsOf _ productItems []) as [targetItems| |] eqn:Htarget; cbn;
    try solve [intros []].
  apply targetItemsOf_returned in Htarget. simpl app in Htarget. subst targetItems.
  destruct (length _ =? 0)%nat; [intros []|].
  destruct (VlanOrder.first (List.filter _ productItems)) as [item| |] eqn:Hitem; cbn;
    try solve [intros []].
  destruct (VlanOrder.first (VlanOrder.Prices item)) as [price| |] eqn:Hprice; cbn;
    try solve [intros []].
  apply VlanOrderLaws.first_filter in Hitem. apply VlanOrderLaws.first_head in Hprice.
  assert (Hhere : ProductPlaceOrder prices vlanId = ProductPlaceOrder [price] (public_vlan_id d) ->
                  vlanId = public_vlan_id d
                  /\ exists pkgId0 productItems0 item0 price0,
                       (Some pkgId, @None error) = (Some pkgId0, None)
                       /\ GetPackageProducts svc pkgId0 = (productItems0, None)
                       /\ VlanOrder.firstItem
                            (fun key => String.eqb key
                               (if ha_enabled d then "HARDWARE_FIREWALL_HIGH_AVAILABILITY"
                                else "HARDWARE_FIREWALL_DEDICATED")) productItems0 = Some item0
                       /\ head (VlanOrder.Prices item0) = Some price0
                       /\ prices = [price0]).
  { intros [= -> ->]. split; [reflexivity|]. exists pkgId, productItems, item, price. auto. }
  destruct (PlaceOrder svc _) as [receipt [e3|]]; cbn.
  { intros [Hcall|[]]. apply Hhere. congruence. }
  destruct (VlanCreate.OrderId receipt) as [orderId|]; cbn.
  2:{ intros [Hcall|[]]. apply Hhere. congruence. }
  destruct (findDedicatedFirewallByOrderId fuel (account svc) orderId epoch)
    as [[[vlan [e4|]] w']|]; cbn;
    try (intros [Hcall|[]]; apply Hhere; congruence).
  destruct (firewallOf svc vlan) as [[fwId|]|]; cbn;
    try (intros [Hcall|[]]; apply Hhere; congruence).
  destruct (haFlagOf svc vlan) as [flag|]; cbn;
    try (intros [Hcall|[]]; apply Hhere; congruence).
  destruct (polledId vlan) as [polled|]; cbn;
    try (intros [Hcall|[]]; apply Hhere; congruence).
  destruct (negb (String.eqb tagsText "")); cbn.
  - rewrite log_bind, setFirewallTags_log.
    destruct (outcome (setFirewallTags svc fwId tagsText)) as [[e5|]| |]; cbn;
      rewrite ?read_log; cbn;
      (intros [Hcall|Hrest]; [apply Hhere; congruence|]);
      repeat (destruct Hrest as [Hcall|Hrest]; [discriminate|]); destruct Hrest.
  - rewrite read_log.
    intros [Hcall|[Hcall|[]]]; [apply Hhere; congruence|discriminate].
Qed.

Lemma firewall_create_orders_first_matching_item_witness :
  1234 = FirewallResource.public_vlan_id (Sample2.firewallState "")
  /\ exists pkgId productItems item price,
       GetPackageByType Sample2.firewallServices FwHardwareDedicatedPackageType
       = (Some pkgId, None)
       /\ GetPackageProducts Sample2.firewallServices pkgId = (productItems, None)
       /\ VlanOrder.firstItem
            (fun key => String.eqb key
               (if ha_enabled (Sample2.firewallState "")
                then "HARDWARE_FIREWALL_HIGH_AVAILABILITY"
                else "HARDWARE_FIREWALL_DEDICATED")) productItems = Some item
       /\ head (VlanOrder.Prices item) = Some price
       /\ [Some 21514] = [price].
Proof.
  apply (firewall_create_orders_first_matching_item 269 Sample2.quote
           Sample2.firewallServices "" (Sample2.firewallState "") [Some 21514] 1234).
  vm_compute. left. reflexivity.
Defined.

End FirewallResourceLaws.
